(** * brainvoyagertools: readers and writers for BrainVoyager text formats

    A shallow embedding of the Python modules [ctr], [sdm], [mdm], [prt]
    (both the package version [src/prt/__init__.py] and the newer
    [src/src/brainvoyagertools/prt.py]) and [voi], followed by the
    properties of the specification that were checked against them.

    Conventions of the embedding:
    - Python exceptions are values of [exn]; a call that can raise returns
      a [res]; a method that mutates [self] is a function from the state
      before the call to a result {e and} the state the call leaves behind
      (an exception does not undo the assignments made before it).
    - An [OrderedDict] header is an association list in insertion order.
    - Text is [string]; a file is its text as Python reads it (line ends
      already translated), and [readlines] cuts it into lines.
    - [Condition] objects of a protocol are shared by reference and
      changed in place, so [prt] has a store of objects and the protocol
      lists references into it.  The records of the other formats are
      never changed by their document and are kept by value.
    - Numeric payloads are integers ([Z]).  Fractional parametric weights
      and the floating point grid of [.sdm] files are outside the
      embedding; where the source falls back to [float] this is said at
      the definition.  The package version of [prt] keeps integer data in
      a 64-bit numpy array; the embedding follows the newer module, whose
      object arrays hold unbounded Python integers.

    Not embedded: file names and the extension [save] appends, failures
    of [open], random colours, [load] and [save] of [.sdm] files, the HRF
    convolution and the other numeric operations on predictors, and the
    writer of [.voi] files. *)

From Stdlib Require Import ZArith Lia Bool String Ascii List.
From Stdlib Require Import DecimalString Decimal.
From Stdlib Require DecimalZ DecimalPos.
From Stdlib Require Import Sorting.Sorted Sorting.Permutation.
From stdpp Require Import base list strings.

Open Scope Z_scope.

(** ** Exceptions and results *)

Inductive exn : Type :=
| IndexError
| ValueError
| KeyError
| TypeError
| UnboundLocalError.

Inductive res (A : Type) : Type :=
| Ok (a : A)
| Raise (e : exn).

Arguments Ok {A} a.
Arguments Raise {A} e.

Definition res_bind {A B : Type} (r : res A) (k : A -> res B) : res B :=
  match r with
  | Ok a => k a
  | Raise e => Raise e
  end.

Definition of_option {A : Type} (e : exn) (o : option A) : res A :=
  match o with
  | Some a => Ok a
  | None => Raise e
  end.

Definition is_ok {A : Type} (r : res A) : bool :=
  match r with
  | Ok _ => true
  | Raise _ => false
  end.

(** [[f(x) for x in l]] where [f] may raise: the first exception wins. *)
Fixpoint map_res {A B : Type} (f : A -> res B) (l : list A) : res (list B) :=
  match l with
  | [] => Ok []
  | x :: l' =>
      res_bind (f x) (fun y =>
      res_bind (map_res f l') (fun ys => Ok (y :: ys)))
  end.

(** ** Python text operations *)

Module Py.

Definition nl : string := String (ascii_of_nat 10) EmptyString.
Definition dquote : string := String (ascii_of_nat 34) EmptyString.
Definition tab : ascii := ascii_of_nat 9.

(** Whitespace as [str.strip()] and [int()] see it (ASCII range). *)
Definition is_space (c : ascii) : bool :=
  let n := nat_of_ascii c in
  (((9 <=? n) && (n <=? 13)) || ((28 <=? n) && (n <=? 32)))%nat.

Definition mem_char (set : string) (c : ascii) : bool :=
  existsb (Ascii.eqb c) (list_ascii_of_string set).

Fixpoint lstrip_by (p : ascii -> bool) (s : list ascii) : list ascii :=
  match s with
  | [] => []
  | c :: s' => if p c then lstrip_by p s' else s
  end.

Definition strip_by (p : ascii -> bool) (s : string) : string :=
  string_of_list_ascii
    (rev (lstrip_by p (rev (lstrip_by p (list_ascii_of_string s))))).

(** [s.strip()] *)
Definition strip (s : string) : string := strip_by is_space s.

(** [s.strip(set)] *)
Definition strip_chars (set : string) (s : string) : string :=
  strip_by (mem_char set) s.

(** [s.startswith(p)] *)
Definition startswith (p s : string) : bool := String.prefix p s.

(** [s[n:]] and [s[:n]] for a non-negative [n]. *)
Fixpoint slice_from (n : nat) (s : string) : string :=
  match n, s with
  | O, _ => s
  | S _, EmptyString => EmptyString
  | S n', String _ s' => slice_from n' s'
  end.

Fixpoint slice_to (n : nat) (s : string) : string :=
  match n, s with
  | O, _ => EmptyString
  | S _, EmptyString => EmptyString
  | S n', String c s' => String c (slice_to n' s')
  end.

(** [s[a:b]] *)
Definition slice (a b : nat) (s : string) : string :=
  slice_to (b - a) (slice_from a s).

(** [s.split(sep)] for a non-empty separator: empty pieces are kept.
    [skip] counts the characters of a separator still to be dropped. *)
Fixpoint split_aux (sep : string) (skip : nat) (acc : list ascii)
         (s : string) : list string :=
  match s with
  | EmptyString => [string_of_list_ascii (rev acc)]
  | String c s' =>
      match skip with
      | S k => split_aux sep k acc s'
      | O =>
          if String.prefix sep s
          then string_of_list_ascii (rev acc)
                 :: split_aux sep (String.length sep - 1) [] s'
          else split_aux sep O (c :: acc) s'
      end
  end.

Definition split (sep : string) (s : string) : list string :=
  split_aux sep O [] s.

(** [s.split(sep, 1)]: at most one cut, at the first occurrence. *)
Fixpoint split1_aux (sep : string) (acc : list ascii) (s : string)
  : list string :=
  match s with
  | EmptyString => [string_of_list_ascii (rev acc)]
  | String c s' =>
      if String.prefix sep s
      then [string_of_list_ascii (rev acc);
            slice_from (String.length sep) s]
      else split1_aux sep (c :: acc) s'
  end.

Definition split1 (sep : string) (s : string) : list string :=
  split1_aux sep [] s.

(** [sep.join(l)] *)
Definition join (sep : string) (l : list string) : string :=
  String.concat sep l.

(** [s.replace(old, new)] for a one-character [old]. *)
Fixpoint replace_char (old : ascii) (new : string) (s : string) : string :=
  match s with
  | EmptyString => EmptyString
  | String c s' =>
      if Ascii.eqb c old then new +:+ replace_char old new s'
      else String c (replace_char old new s')
  end.

Definition spaces (n : nat) : string :=
  string_of_list_ascii (repeat " "%char n).

(** [s.ljust(n)] and [s.rjust(n)] *)
Definition ljust (n : nat) (s : string) : string :=
  s +:+ spaces (n - String.length s).

Definition rjust (n : nat) (s : string) : string :=
  spaces (n - String.length s) +:+ s.

(** [str(z)] and [{0:d}] for an integer. *)
Definition str_of_Z (z : Z) : string :=
  NilZero.string_of_int (Z.to_int z).

Definition digit_val (c : ascii) : option Z :=
  let n := nat_of_ascii c in
  if ((48 <=? n) && (n <=? 57))%nat then Some (Z.of_nat (n - 48)) else None.

(** Digits with single underscores between them, as [int] accepts. *)
Fixpoint digits_go (acc : Z) (after_digit : bool) (s : string) : option Z :=
  match s with
  | EmptyString => if after_digit then Some acc else None
  | String c s' =>
      match digit_val c with
      | Some d => digits_go (10 * acc + d) true s'
      | None =>
          if Ascii.eqb c "_"%char && after_digit
          then digits_go acc false s'
          else None
      end
  end.

(** [int(s)]: surrounding whitespace, an optional sign, decimal digits;
    anything else is a [ValueError]. *)
Definition int (s : string) : res Z :=
  of_option ValueError
    match strip s with
    | String "-"%char d => option_map Z.opp (digits_go 0 false d)
    | String "+"%char d => digits_go 0 false d
    | d => digits_go 0 false d
    end.

(** [f.readlines()] on the text of a file: every line keeps its
    newline; a last line without one is kept as it is. *)
Fixpoint readlines_aux (acc : list ascii) (s : string) : list string :=
  match s with
  | EmptyString =>
      match acc with
      | [] => []
      | _ => [string_of_list_ascii (rev acc)]
      end
  | String c s' =>
      if Ascii.eqb c (ascii_of_nat 10)
      then string_of_list_ascii (rev (c :: acc)) :: readlines_aux [] s'
      else readlines_aux (c :: acc) s'
  end.

Definition readlines (text : string) : list string :=
  readlines_aux [] text.

(** [[k for k, _ in itertools.groupby(l)]]: runs of equal neighbours
    collapse to one element. *)
Fixpoint groupby_keys (l : list string) : list string :=
  match l with
  | [] => []
  | x :: l' =>
      match l' with
      | [] => [x]
      | y :: _ =>
          if String.eqb x y then groupby_keys l' else x :: groupby_keys l'
      end
  end.

(** [l[i]] for a non-negative index. *)
Definition index {A : Type} (l : list A) (i : nat) : res A :=
  of_option IndexError (l !! i).

(** [s.lower()] on ASCII letters. *)
Definition lower_char (c : ascii) : ascii :=
  let n := nat_of_ascii c in
  if ((65 <=? n) && (n <=? 90))%nat then ascii_of_nat (n + 32) else c.

Fixpoint lower (s : string) : string :=
  match s with
  | EmptyString => EmptyString
  | String c s' => String (lower_char c) (lower s')
  end.

End Py.

(** ** Header: an [OrderedDict] from field name to value *)

Inductive hval : Type :=
| HInt (z : Z)
| HStr (s : string)
| HList (l : list Z).

Definition header : Type := list (string * hval).

(** [h[k]] *)
Fixpoint od_get (k : string) (h : header) : res hval :=
  match h with
  | [] => Raise KeyError
  | (k', v) :: h' => if String.eqb k k' then Ok v else od_get k h'
  end.

(** [h[k] = v]: an existing key keeps its position, a new key goes last. *)
Fixpoint od_set (k : string) (v : hval) (h : header) : header :=
  match h with
  | [] => [(k, v)]
  | (k', v') :: h' =>
      if String.eqb k k' then (k, v) :: h' else (k', v') :: od_set k v h'
  end.

(** [h[k] == n] for an integer literal [n]; a missing key raises. *)
Definition hval_eq_int (v : hval) (n : Z) : bool :=
  match v with
  | HInt z => Z.eqb z n
  | _ => false
  end.

Definition hval_eq_str (v : hval) (s : string) : bool :=
  match v with
  | HStr t => String.eqb t s
  | _ => false
  end.

(** [h[k] += 1]: only an integer can be incremented by an integer. *)
Definition od_incr (k : string) (h : header) : res header :=
  res_bind (od_get k h) (fun v =>
    match v with
    | HInt z => Ok (od_set k (HInt (z + 1)) h)
    | _ => Raise TypeError
    end).

(** [{0}.format(v)] for the values a loader stores. *)
Definition format_hval (v : hval) : string :=
  match v with
  | HInt z => Py.str_of_Z z
  | HStr s => s
  | HList l =>
      "[" +:+ Py.join ", " (map Py.str_of_Z l) +:+ "]"
  end.

(** [for counter, line in enumerate(lines): if p(line): break]: the values
    [counter] and [line] hold after the loop.  Without a hit they are the
    last index and line; on an empty list they were never bound. *)
Fixpoint scan_break (p : string -> bool) (i : nat) (lines : list string)
  : res (nat * string) :=
  match lines with
  | [] => Raise UnboundLocalError
  | l :: rest =>
      if p l then Ok (i, l)
      else match rest with
           | [] => Ok (i, l)
           | _ => scan_break p (S i) rest
           end
  end.

(** [l[:n]] for an integer [n] that may be negative. *)
Definition take_py {A : Type} (n : Z) (l : list A) : list A :=
  if 0 <=? n then take (Z.to_nat n) l
  else take (length l - Z.to_nat (- n)) l.

(** ** numpy arrays as far as the modules use them *)

Module Np.

(** A two-dimensional array: its rows, and the column count (which the
    rows alone do not give when there are none). *)
Record array2 (A : Type) : Type := {
  ncols : nat;
  rows : list (list A)
}.
Arguments ncols {A} _.
Arguments rows {A} _.

(** [np.array([d]).T]: one column holding the series [d]. *)
Definition column_of {A : Type} (d : list A) : array2 A :=
  {| ncols := 1; rows := map (fun x => [x]) d |}.

(** [np.append(m, np.array([d]).T, axis=1)]: the row counts must agree. *)
Definition append_column {A : Type} (m : array2 A) (d : list A)
  : res (array2 A) :=
  if Nat.eqb (length (rows m)) (length d)
  then Ok {| ncols := S (ncols m);
             rows := zip_with (fun r x => r ++ [x]) (rows m) d |}
  else Raise ValueError.

(** The loop of the [data] property of [ContrastsDefinition] and of the
    single-subject [DesignMatrix]; [rtn] is unbound until the first
    record has been seen. *)
Fixpoint stack_loop {A : Type} (rtn : option (array2 A))
         (series : list (list A)) : res (array2 A) :=
  match series with
  | [] => of_option UnboundLocalError rtn
  | d :: rest =>
      match rtn with
      | None => stack_loop (Some (column_of d)) rest
      | Some m =>
          res_bind (append_column m d) (fun m' =>
            stack_loop (Some m') rest)
      end
  end.

Definition stack_columns {A : Type} (series : list (list A))
  : res (array2 A) :=
  stack_loop None series.

Definition rectangular {A : Type} (k : nat) (m : list (list A)) : bool :=
  forallb (fun r => Nat.eqb (length r) k) m.

(** [np.array(m).shape[1]] for a list of rows [m] built with
    [dtype=object]: no rows, or rows of unequal length, give a
    one-dimensional array, whose shape has no second entry. *)
Definition shape1 {A : Type} (m : list (list A)) : res nat :=
  match m with
  | [] => Raise IndexError
  | r :: _ =>
      if rectangular (length r) m then Ok (length r) else Raise IndexError
  end.

(** [np.array(m)[:, x]]: column [x] of the grid. *)
Definition column {A : Type} (x : nat) (m : list (list A))
  : res (list A) :=
  res_bind (shape1 m) (fun k =>
    if Nat.ltb x k then map_res (fun r => Py.index r x) m
    else Raise IndexError).

End Np.

(** ** [ctr]: contrast definitions ([src/ctr/__init__.py]) *)

Module Ctr.

Record Contrast : Type := {
  name : string;
  data : list Z
}.

Record ContrastsDefinition : Type := {
  _header : header;
  _contrasts : list Contrast
}.

Definition clear : ContrastsDefinition :=
  {| _header := [("FileVersion"%string, HInt 1);
                 ("NrOfContrasts"%string, HInt 0);
                 ("NrOfValues"%string, HInt 0)];
     _contrasts := [] |}.

Definition names (d : ContrastsDefinition) : list string :=
  map name (_contrasts d).

(** The [data] property. *)
Definition data_matrix (d : ContrastsDefinition) : res (Np.array2 Z) :=
  Np.stack_columns (map data (_contrasts d)).

(** [add_contrast]: the result of the call and the state it leaves. *)
Definition add_contrast (c : Contrast) (d : ContrastsDefinition)
  : res unit * ContrastsDefinition :=
  let h := _header d in
  let len := Z.of_nat (length (data c)) in
  match od_get "NrOfContrasts" h with
  | Raise e => (Raise e, d)
  | Ok n =>
      let checked : res header :=
        if hval_eq_int n 0 then Ok (od_set "NrOfValues" (HInt len) h)
        else res_bind (od_get "NrOfValues" h) (fun v =>
               if negb (hval_eq_int v len) then Raise ValueError
               else Ok h) in
      match checked with
      | Raise e => (Raise e, d)
      | Ok h1 =>
          match od_incr "NrOfContrasts" h1 with
          | Raise e => (Raise e, {| _header := h1;
                                    _contrasts := _contrasts d |})
          | Ok h2 => (Ok tt, {| _header := h2;
                                _contrasts := _contrasts d |})
          end
      end
  end.

Definition _format_header (d : ContrastsDefinition) : string :=
  Py.join Py.nl
    (map (fun kv => Py.ljust 22 (fst kv +:+ ":") +:+ format_hval (snd kv))
         (_header d)).

Definition _format_names (d : ContrastsDefinition) : string :=
  Py.dquote +:+ Py.join (Py.dquote +:+ " " +:+ Py.dquote) (names d)
    +:+ Py.dquote.

Definition _format_data (d : ContrastsDefinition) : res string :=
  res_bind (data_matrix d) (fun m =>
    Ok (Py.join Py.nl
          (map (fun x => Py.join " "
                  (map (fun y => Py.rjust 3 (Py.str_of_Z y)) x))
               (Np.rows m)))).

(** [save]: the text written to the file, when every [write] is
    reached. *)
Definition save (d : ContrastsDefinition) : res string :=
  res_bind (_format_data d) (fun body =>
    Ok (Py.nl +:+ _format_header d +:+ Py.nl +:+ Py.nl
        +:+ _format_names d +:+ Py.nl +:+ body)).

(** The header lines of [load]; every assignment made before a failing
    [int] stays. *)
Fixpoint load_header (lines : list string) (h : header)
  : res unit * header :=
  match lines with
  | [] => (Ok tt, h)
  | line :: rest =>
      if String.eqb (Py.strip line) "" then load_header rest h
      else match Py.int (Py.strip (Py.slice_from 16 line)) with
           | Raise e => (Raise e, h)
           | Ok z =>
               load_header rest
                 (od_set (Py.strip_chars ": " (Py.slice_to 16 line))
                         (HInt z) h)
           end
  end.

(** One line of the grid: fields of four characters, a field that
    starts on a line end is left out. *)
Fixpoint grid_fields (width : nat) (fuel : nat) (line : string)
  : list string :=
  match fuel with
  | O => []
  | S fuel' =>
      match line with
      | EmptyString => []
      | String c _ =>
          let rest := grid_fields width fuel' (Py.slice_from width line) in
          if String.eqb (Py.strip_chars (String (ascii_of_nat 13) Py.nl)
                           (String c EmptyString)) ""
          then rest
          else Py.slice_to width line :: rest
      end
  end.

Definition grid_row (line : string) : res (list Z) :=
  map_res Py.int (grid_fields 4 (String.length line) line).

(** [np.array(rows)] without [dtype=object]: rows of unequal length are
    refused (numpy 1.24 and later). *)
Definition grid (rows : list (list Z)) : res (list (list Z)) :=
  match rows with
  | [] => Ok rows
  | r :: _ =>
      if Np.rectangular (length r) rows then Ok rows else Raise ValueError
  end.

Fixpoint load_contrasts (names : list string) (x : nat)
         (g : list (list Z)) (d : ContrastsDefinition)
  : res unit * ContrastsDefinition :=
  match names with
  | [] => (Ok tt, d)
  | n :: rest =>
      match Np.column x g with
      | Raise e => (Raise e, d)
      | Ok col =>
          load_contrasts rest (S x) g
            {| _header := _header d;
               _contrasts := _contrasts d ++ [ {| name := n; data := col |} ] |}
      end
  end.

(** [load] on the lines of the file; the state before the call is not
    an argument because the first statement is [self.clear()]. *)
Definition load (lines : list string) : res unit * ContrastsDefinition :=
  match scan_break (Py.startswith Py.dquote) 0 lines with
  | Raise e => (Raise e, clear)
  | Ok (counter, line) =>
      let names :=
        Py.split (Py.dquote +:+ " " +:+ Py.dquote)
                 (Py.strip_chars Py.dquote (Py.strip line)) in
      match load_header (take_py (Z.of_nat counter - 1) lines)
                        (_header clear) with
      | (Raise e, h) => (Raise e, {| _header := h; _contrasts := [] |})
      | (Ok _, h) =>
          let d := {| _header := h; _contrasts := [] |} in
          match res_bind (map_res grid_row (drop (S counter) lines)) grid with
          | Raise e => (Raise e, d)
          | Ok g => load_contrasts names 0 g d
          end
      end
  end.

End Ctr.

(** An integer read out of a header for arithmetic or an ordering test. *)
Definition hval_int (v : hval) : res Z :=
  match v with
  | HInt z => Ok z
  | _ => Raise TypeError
  end.

(** [l.insert(pos, x)]: a negative position counts from the end and every
    position is clamped to the list. *)
Definition insert_py {A : Type} (pos : Z) (x : A) (l : list A) : list A :=
  let n := Z.of_nat (length l) in
  let p := if pos <? 0 then Z.max 0 (n + pos) else Z.min pos n in
  take (Z.to_nat p) l ++ x :: drop (Z.to_nat p) l.

(** ** [sdm]: single-subject design matrices
    ([src/src/brainvoyagertools/sdm.py]) *)

Module Sdm.
Section WithValues.

(** The element type of a predictor's series (Python ints or floats);
    [add_predictor] and [data] never compute with the elements. *)
Variable V : Type.

Record Predictor : Type := {
  name : string;
  data : list V;
  colour : list Z
}.

Record DesignMatrix : Type := {
  _header : header;
  _predictors : list Predictor
}.

Definition clear : DesignMatrix :=
  {| _header := [("FileVersion"%string, HInt 1);
                 ("NrOfPredictors"%string, HInt 0);
                 ("NrOfDataPoints"%string, HInt 0);
                 ("IncludesConstant"%string, HInt 0);
                 ("FirstConfoundPredictor"%string, HInt 1)];
     _predictors := [] |}.

(** The [data] property. *)
Definition data_matrix (d : DesignMatrix) : res (Np.array2 V) :=
  Np.stack_columns (map data (_predictors d)).

Definition get_int (k : string) (h : header) : res Z :=
  res_bind (od_get k h) hval_int.

(** The statements of [add_predictor] up to and including the length
    test and the choice of the position: nothing is assigned yet. *)
Definition add_position (p : Predictor) (is_confound : bool) (h : header)
  : res Z :=
  res_bind (get_int "NrOfPredictors" h) (fun n =>
  res_bind (if 0 <? n
            then res_bind (od_get "NrOfDataPoints" h) (fun v =>
                   if negb (hval_eq_int v (Z.of_nat (length (data p))))
                   then Raise ValueError else Ok tt)
            else Ok tt) (fun _ =>
  if is_confound
  then res_bind (get_int "NrOfPredictors" h) (fun n' =>
       res_bind (get_int "IncludesConstant" h) (fun c => Ok (n' - c)))
  else res_bind (get_int "FirstConfoundPredictor" h) (fun f =>
         Ok (f - 1)))).

(** The header updates that follow the insertion. *)
Definition add_counters (p : Predictor) (is_confound : bool) (h : header)
  : res unit * header :=
  match od_get "NrOfPredictors" h with
  | Raise e => (Raise e, h)
  | Ok n =>
      let h1 := if hval_eq_int n 0
                then od_set "NrOfDataPoints"
                       (HInt (Z.of_nat (length (data p)))) h
                else h in
      match od_incr "NrOfPredictors" h1 with
      | Raise e => (Raise e, h1)
      | Ok h2 =>
          if is_confound then (Ok tt, h2)
          else match od_incr "FirstConfoundPredictor" h2 with
               | Raise e => (Raise e, h2)
               | Ok h3 => (Ok tt, h3)
               end
      end
  end.

Definition add_predictor (p : Predictor) (is_confound : bool)
           (d : DesignMatrix) : res unit * DesignMatrix :=
  match add_position p is_confound (_header d) with
  | Raise e => (Raise e, d)
  | Ok position =>
      let ps := insert_py position p (_predictors d) in
      let (r, h) := add_counters p is_confound (_header d) in
      (r, {| _header := h; _predictors := ps |})
  end.

Definition add_confound_predictor (p : Predictor) (d : DesignMatrix)
  : res unit * DesignMatrix :=
  add_predictor p true d.

End WithValues.

Arguments name {V} _.
Arguments data {V} _.
Arguments colour {V} _.
Arguments _header {V} _.
Arguments _predictors {V} _.
Arguments clear {V}.
Arguments data_matrix {V} _.
Arguments add_predictor {V} _ _ _.
Arguments add_confound_predictor {V} _ _.

Section Constant.

(** [add_constant] builds a series of the integer 1; [one] is that
    integer as an element of a series. *)
Variable V : Type.
Variable one : V.

(** [add_constant]: the length of the new series is the number of rows of
    [self.data], so the accessor is read first. *)
Definition add_constant (d : DesignMatrix V) : res unit * DesignMatrix V :=
  match data_matrix d with
  | Raise e => (Raise e, d)
  | Ok m =>
      let constant :=
        {| name := "Constant";
           data := repeat one (length (Np.rows m));
           colour := take 3 [255; 255; 255] |} in
      match add_predictor constant true d with
      | (Raise e, d') => (Raise e, d')
      | (Ok _, d') =>
          (Ok tt, {| _header := od_set "IncludesConstant" (HInt 1)
                                  (_header d');
                     _predictors := _predictors d' |})
      end
  end.

End Constant.

Arguments add_constant {V} _ _.



End Sdm.

(** ** [mdm]: multi-subject design matrices ([src/mdm/__init__.py]) *)

Module Mdm.

Record Study : Type := {
  data_files : list string;
  sdm_file : string
}.

Record DesignMatrix : Type := {
  _header : header;
  _studies : list Study
}.

Definition clear : DesignMatrix :=
  {| _header := [("FileVersion"%string, HInt 3);
                 ("TypeOfFunctionalData"%string, HStr "VTC");
                 ("RFX-GLM"%string, HInt 0);
                 ("PSCTransformation"%string, HInt 1);
                 ("zTransformation"%string, HInt 0);
                 ("SeparatePredictors"%string, HInt 0);
                 ("NrOfStudies"%string, HInt 0)];
     _studies := [] |}.

(** [h["NrOfStudies"] > 0 and h["TypeOfFunctionalData"] == t] *)
Definition holds_other (t : string) (h : header) : res bool :=
  res_bind (res_bind (od_get "NrOfStudies" h) hval_int) (fun n =>
    if 0 <? n
    then res_bind (od_get "TypeOfFunctionalData" h) (fun v =>
           Ok (hval_eq_str v t))
    else Ok false).

(** The validation of [add_study] with the one header assignment it
    makes. *)
Definition check_type (s : Study) (h : header) : res header :=
  if (1 <? length (data_files s))%nat
  then res_bind (holds_other "VTC" h) (fun clash =>
         if clash then Raise ValueError
         else Ok (od_set "TypeOfFunctionalData" (HStr "MTC") h))
  else res_bind (holds_other "MTC" h) (fun clash =>
         if clash then Raise ValueError else Ok h).

Definition add_study (s : Study) (d : DesignMatrix)
  : res unit * DesignMatrix :=
  match check_type s (_header d) with
  | Raise e => (Raise e, d)
  | Ok h1 =>
      match od_incr "NrOfStudies" h1 with
      | Raise e => (Raise e, {| _header := h1; _studies := _studies d |})
      | Ok h2 => (Ok tt, {| _header := h2; _studies := _studies d ++ [s] |})
      end
  end.

(** One header entry, the newline that follows every entry but the
    last, and the extra newline after the entries in [extra]. *)
Fixpoint format_entries (width : nat) (extra : list nat) (c len : nat)
         (h : header) : string :=
  match h with
  | [] => EmptyString
  | (k, v) :: h' =>
      Py.ljust width (k +:+ ":") +:+ format_hval v
        +:+ (if (c <? len - 1)%nat then Py.nl else EmptyString)
        +:+ (if existsb (Nat.eqb c) extra then Py.nl else EmptyString)
        +:+ format_entries width extra (S c) len h'
  end.

Definition _format_header (d : DesignMatrix) : string :=
  format_entries 22 [1; 2; 5]%nat 0 (length (_header d)) (_header d).

(** The line end after a study is decided by the length of the
    {e header}, as in the source. *)
Fixpoint format_studies_from (c : nat) (hlen : nat) (l : list Study)
  : string :=
  match l with
  | [] => EmptyString
  | x :: l' =>
      Py.dquote
        +:+ Py.join (Py.dquote +:+ " " +:+ Py.dquote) (data_files x)
        +:+ Py.dquote +:+ " " +:+ Py.dquote +:+ sdm_file x +:+ Py.dquote
        +:+ (if (c <? hlen - 1)%nat then Py.nl else EmptyString)
        +:+ format_studies_from (S c) hlen l'
  end.

Definition _format_studies (d : DesignMatrix) : string :=
  format_studies_from 0 (length (_header d)) (_studies d).

Definition save (d : DesignMatrix) : string :=
  Py.nl +:+ _format_header d +:+ Py.nl +:+ _format_studies d.

Fixpoint load_header (lines : list string) (h : header) : header :=
  match lines with
  | [] => h
  | line :: rest =>
      if String.eqb (Py.strip line) "" then load_header rest h
      else
        let key := Py.strip_chars ": " (Py.slice_to 22 line) in
        let raw := Py.strip (Py.slice_from 22 line) in
        load_header rest
          (od_set key
             match Py.int raw with
             | Ok z => HInt z
             | Raise _ => HStr raw
             end h)
  end.

Definition parse_study (line : string) : res Study :=
  let tmp := filter (fun x => negb (String.eqb (Py.strip x) ""))
                    (Py.split Py.dquote line) in
  if (2 <? length tmp)%nat
  then res_bind (Py.index tmp 2) (fun sdm =>
         Ok {| data_files := take 2 tmp; sdm_file := sdm |})
  else res_bind (Py.index tmp 0) (fun f =>
       res_bind (Py.index tmp 1) (fun sdm =>
         Ok {| data_files := [f]; sdm_file := sdm |})).

Fixpoint load_studies (lines : list string) (d : DesignMatrix)
  : res unit * DesignMatrix :=
  match lines with
  | [] => (Ok tt, d)
  | line :: rest =>
      match parse_study line with
      | Raise e => (Raise e, d)
      | Ok s =>
          load_studies rest
            {| _header := _header d; _studies := _studies d ++ [s] |}
      end
  end.

(** [load] on the lines of the file; it starts with [self.clear()]. *)
Definition load (lines : list string) : res unit * DesignMatrix :=
  match scan_break (Py.startswith Py.dquote) 0 lines with
  | Raise e => (Raise e, clear)
  | Ok (counter, _) =>
      load_studies (drop counter lines)
        {| _header := load_header (take_py (Z.of_nat counter - 1) lines)
                                  (_header clear);
           _studies := [] |}
  end.

(** [bool(v)] for a header value. *)
Definition truthy (v : hval) : bool :=
  match v with
  | HInt z => negb (z =? 0)
  | HStr t => negb (String.eqb t "")
  | HList l => negb (Nat.eqb (length l) 0)
  end.

Definition header_set (k : string) (v : hval) (d : DesignMatrix)
  : DesignMatrix :=
  {| _header := od_set k v (_header d); _studies := _studies d |}.

(** The property [rfx_glm] and its setter, which stores [int(value)] of a
    boolean. *)
Definition rfx_glm (d : DesignMatrix) : res bool :=
  res_bind (od_get "RFX-GLM" (_header d)) (fun v => Ok (truthy v)).

Definition set_rfx_glm (value : bool) (d : DesignMatrix) : DesignMatrix :=
  header_set "RFX-GLM" (HInt (if value then 1 else 0)) d.

(** The property [separate_predictors] and its setter. *)
Definition separate_predictors (d : DesignMatrix) : res bool :=
  res_bind (od_get "SeparatePredictors" (_header d)) (fun v =>
    Ok (truthy v)).

Definition set_separate_predictors (value : bool) (d : DesignMatrix)
  : DesignMatrix :=
  header_set "SeparatePredictors" (HInt (if value then 1 else 0)) d.

(** The property [transformation]: the name of the transformation whose
    flag is 1, the percent signal change first; Python's [None] when
    neither flag is 1. *)
Definition transformation (d : DesignMatrix) : res (option string) :=
  res_bind (od_get "PSCTransformation" (_header d)) (fun p =>
    if hval_eq_int p 1 then Ok (Some "psc"%string)
    else res_bind (od_get "zTransformation" (_header d)) (fun z =>
           if hval_eq_int z 1 then Ok (Some "z"%string) else Ok None)).

(** The setter of [transformation]. *)
Definition set_transformation (value : string) (d : DesignMatrix)
  : res unit * DesignMatrix :=
  if String.eqb (Py.lower value) "psc"
  then (Ok tt, header_set "zTransformation" (HInt 0)
                 (header_set "PSCTransformation" (HInt 1) d))
  else if String.eqb (Py.lower value) "z"
       then (Ok tt, header_set "PSCTransformation" (HInt 0)
                      (header_set "zTransformation" (HInt 1) d))
       else (Raise ValueError, d).

End Mdm.

(** [l[i]] for an integer index: a negative one counts from the end. *)
Definition index_py {A : Type} (l : list A) (i : Z) : res A :=
  if 0 <=? i then Py.index l (Z.to_nat i)
  else if 0 <=? Z.of_nat (length l) + i
       then Py.index l (Z.to_nat (Z.of_nat (length l) + i))
       else Raise IndexError.

(** [range(a, b)] *)
Definition range_py (a b : Z) : list Z :=
  map (fun k => a + Z.of_nat k) (seq 0 (Z.to_nat (b - a))).

(** ** [prt]: stimulation protocols

    [Condition] objects are shared by reference: a caller creates one and
    hands it to [add_condition], which may change it and the conditions
    already in the protocol.  The store [heap] holds the objects, a
    reference is an index into it, and the protocol lists references. *)

Module Prt.

Record Condition : Type := {
  name : string;
  data : list (list Z);
  colour : list Z
}.

(** A reference: the position of the object in the store. *)
Abbreviation loc := nat (only parsing).

Record world : Type := {
  heap : list Condition;
  _header : header;
  _conditions : list loc
}.

Definition set_data (d : list (list Z)) (c : Condition) : Condition :=
  {| name := name c; data := d; colour := colour c |}.

(** *** State and exception passing *)

Definition M (A : Type) : Type := world -> res A * world.

Definition ret {A : Type} (a : A) : M A := fun w => (Ok a, w).

Definition raise {A : Type} (e : exn) : M A := fun w => (Raise e, w).

Definition lift {A : Type} (r : res A) : M A := fun w => (r, w).

Definition bind {A B : Type} (m : M A) (k : A -> M B) : M B :=
  fun w =>
    match m w with
    | (Ok a, w') => k a w'
    | (Raise e, w') => (Raise e, w')
    end.

(** [try: m except IndexError: pass] *)
Definition try_index (m : M unit) : M unit :=
  fun w =>
    match m w with
    | (Raise IndexError, w') => (Ok tt, w')
    | r => r
    end.

Declare Scope prt_scope.
Delimit Scope prt_scope with prt.
Notation "x <- m ;; k" := (bind m (fun x => k))
  (at level 100, m at next level, right associativity) : prt_scope.
Notation "m ;;; k" := (bind m (fun _ => k))
  (at level 100, right associativity) : prt_scope.
Local Open Scope prt_scope.

Definition get_header : M header := fun w => (Ok (_header w), w).

Definition put_header (h : header) : M unit :=
  fun w => (Ok tt, {| heap := heap w; _header := h;
                      _conditions := _conditions w |}).

(** [self._header[k] = v] *)
Definition header_set (k : string) (v : hval) : M unit :=
  h <- get_header ;; put_header (od_set k v h).

(** [self._header[k]] *)
Definition header_get (k : string) : M hval :=
  h <- get_header ;; lift (od_get k h).

(** Reading an object through a reference.  A Python reference always
    names an object; the embedding reports a reference outside the
    store as a [KeyError] of the store. *)
Definition deref (l : loc) : M Condition :=
  fun w => (of_option KeyError (heap w !! l), w).

(** [obj.data = d] *)
Definition store_data (l : loc) (d : list (list Z)) : M unit :=
  fun w => (Ok tt, {| heap := alter (set_data d) l (heap w);
                      _header := _header w;
                      _conditions := _conditions w |}).

(** [Condition(name, data, colour)] with a colour given as a sequence:
    a new object that keeps the first three colour entries. *)
Definition new_condition (n : string) (d : list (list Z)) (col : list Z)
  : M loc :=
  fun w => (Ok (length (heap w)),
            {| heap := heap w ++ [ {| name := n; data := d;
                                      colour := take 3 col |} ];
               _header := _header w;
               _conditions := _conditions w |}).

(** [np.append(d, np.array([len(d) * [1]]).T, axis=1)] *)
Definition append_ones (d : list (list Z)) : list (list Z) :=
  map (fun r => r ++ [1]) d.

(** [clear] *)
Definition default_header : header :=
  [("FileVersion"%string, HInt 2);
   ("ResolutionOfTime"%string, HStr "Volumes");
   ("Experiment"%string, HStr "untitled");
   ("BackgroundColor"%string, HList [0; 0; 0]);
   ("TextColor"%string, HList [255; 255; 255]);
   ("TimeCourseColor"%string, HList [255; 255; 255]);
   ("TimeCourseThick"%string, HInt 3);
   ("ReferenceFuncColor"%string, HList [0; 0; 80]);
   ("ReferenceFuncThick"%string, HInt 3);
   ("ParametricWeights"%string, HInt 0);
   ("NrOfConditions"%string, HInt 0)].

Definition clear : M unit :=
  fun w => (Ok tt, {| heap := heap w; _header := default_header;
                      _conditions := [] |}).

(** [StimulationProtocol(experiment_name, time_units)] without [load]. *)
Definition init (experiment_name time_units : string) : M unit :=
  clear ;;;
  header_set "Experiment" (HStr experiment_name) ;;;
  (if String.eqb time_units "Volumes" || String.eqb time_units "msec"
   then header_set "ResolutionOfTime" (HStr time_units)
   else raise ValueError).

(** The retrofit loop of [add_condition]
    ([src/src/brainvoyagertools/prt.py]): every condition of the
    protocol with fewer than three columns gets a column of ones. *)
Fixpoint retrofit (ls : list loc) : M unit :=
  match ls with
  | [] => ret tt
  | l :: rest =>
      c <- deref l ;;
      k <- lift (Np.shape1 (data c)) ;;
      (if (k <? 3)%nat then store_data l (append_ones (data c))
       else ret tt) ;;;
      retrofit rest
  end.

(** [h["FileVersion"] == 3 and h["ParametricWeights"] == 1] *)
Definition weighted : M bool :=
  fv <- header_get "FileVersion" ;;
  if hval_eq_int fv 3
  then pw <- header_get "ParametricWeights" ;; ret (hval_eq_int pw 1)
  else ret false.

Definition append_condition (l : loc) : M unit :=
  fun w => (Ok tt, {| heap := heap w; _header := _header w;
                      _conditions := _conditions w ++ [l] |}).

Definition header_incr (k : string) : M unit :=
  h <- get_header ;; h' <- lift (od_incr k h) ;; put_header h'.

(** [add_condition] of [src/src/brainvoyagertools/prt.py] *)
Definition add_condition (l : loc) : M unit :=
  c <- deref l ;;
  k <- lift (Np.shape1 (data c)) ;;
  (if (2 <? k)%nat
   then header_set "FileVersion" (HInt 3) ;;;
        header_set "ParametricWeights" (HInt 1) ;;;
        ls <- (fun w => (Ok (_conditions w), w)) ;;
        retrofit ls
   else b <- weighted ;;
        if b then store_data l (append_ones (data c)) else ret tt) ;;;
  append_condition l ;;;
  header_incr "NrOfConditions".

(** *** [convert_to_msec] *)

(** The inner loop over the rows of one array.  The rows are changed
    in place, so a row that is too short stops the loop with the rows
    before it (and its own onset, if it has one) already converted. *)
Fixpoint convert_rows (tr : Z) (rows : list (list Z))
  : res unit * list (list Z) :=
  match rows with
  | [] => (Ok tt, [])
  | [] :: _ => (Raise IndexError, rows)
  | [a] :: rest => (Raise IndexError, [(a - 1) * tr] :: rest)
  | (a :: b :: t) :: rest =>
      let (r, rest') := convert_rows tr rest in
      (r, ((a - 1) * tr :: b * tr :: t) :: rest')
  end.

Fixpoint convert_conditions (tr : Z) (ls : list loc) : M unit :=
  match ls with
  | [] => ret tt
  | l :: rest =>
      c <- deref l ;;
      (let (r, d) := convert_rows tr (data c) in
       store_data l d ;;; lift r) ;;;
      convert_conditions tr rest
  end.

Definition convert_to_msec (tr : Z) : M unit :=
  u <- header_get "ResolutionOfTime" ;;
  if hval_eq_str u "msec" then ret tt
  else ls <- (fun w => (Ok (_conditions w), w)) ;;
       convert_conditions tr ls ;;;
       header_set "ResolutionOfTime" (HStr "msec").

(** *** Derived views *)

(** An event of [event_list]: the condition name followed by the
    entries of one row, so that [x[1]] is the onset, [x[2]] the offset
    and [x[3]] the weight. *)
Definition event : Type := (string * list Z)%type.

Definition event_onset (e : event) : res Z := Py.index (snd e) 0.
Definition event_offset (e : event) : res Z := Py.index (snd e) 1.

Fixpoint events_of (hp : list Condition) (ls : list loc)
  : res (list event) :=
  match ls with
  | [] => Ok []
  | l :: rest =>
      res_bind (of_option KeyError (hp !! l)) (fun c =>
      res_bind (events_of hp rest) (fun es =>
        Ok (map (fun r => (name c, r)) (data c) ++ es)))
  end.

(** [sorted(l, key=...)]: the keys are computed first, the sort is
    stable. *)
Fixpoint insert_keyed {A : Type} (k : Z) (x : A) (l : list (Z * A))
  : list (Z * A) :=
  match l with
  | [] => [(k, x)]
  | (k', y) :: l' =>
      if k <=? k' then (k, x) :: l else (k', y) :: insert_keyed k x l'
  end.

Definition sort_keyed {A : Type} (l : list (Z * A)) : list (Z * A) :=
  foldr (fun kx acc => insert_keyed (fst kx) (snd kx) acc) [] l.

Definition sorted_by {A : Type} (key : A -> res Z) (l : list A)
  : res (list A) :=
  res_bind (map_res key l) (fun ks =>
    Ok (map snd (sort_keyed (zip ks l)))).

Definition event_list (w : world) : res (list event) :=
  res_bind (events_of (heap w) (_conditions w)) (sorted_by event_onset).

Definition time_units (w : world) : res hval :=
  od_get "ResolutionOfTime" (_header w).

Definition event_durations (w : world) : res (list Z) :=
  res_bind (time_units w) (fun u =>
  res_bind (event_list w) (fun es =>
    map_res (fun x =>
               res_bind (event_offset x) (fun off =>
               res_bind (event_onset x) (fun on =>
                 Ok (if hval_eq_str u "msec" then off - on
                     else off - on + 1)))) es)).

Definition conditions (w : world) : res (list Condition) :=
  map_res (fun l => of_option KeyError (heap w !! l)) (_conditions w).

(** [c.data[:,1] - c.data[:,0]], and the same plus one. *)
Definition column_difference (plus : Z) (c : Condition) : res (list Z) :=
  res_bind (Np.column 1 (data c)) (fun offs =>
  res_bind (Np.column 0 (data c)) (fun ons =>
    Ok (zip_with (fun off on => off - on + plus) offs ons))).

Definition condition_durations (w : world) : res (list (list Z)) :=
  res_bind (time_units w) (fun u =>
  res_bind (conditions w) (fun cs =>
    map_res (column_difference (if hval_eq_str u "msec" then 0 else 1))
            cs)).

(** *** [Condition.__add__] *)

Fixpoint insert_sorted (x : Z) (l : list Z) : list Z :=
  match l with
  | [] => [x]
  | y :: l' => if x <=? y then x :: l else y :: insert_sorted x l'
  end.

Definition sort_Z (l : list Z) : list Z := foldr insert_sorted [] l.

(** [np.sort(m, axis=0)] on a grid of [k] columns: every column is
    sorted on its own. *)
Fixpoint sort_axis0 (k : nat) (m : list (list Z)) : list (list Z) :=
  match k with
  | O => m
  | S k' =>
      zip_with cons (sort_Z (map (fun r => hd 0 r) m))
               (sort_axis0 k' (map (fun r => tl r) m))
  end.

(** Python's [<=] on lists of integers. *)
Fixpoint list_le (a b : list Z) : bool :=
  match a, b with
  | [], _ => true
  | _ :: _, [] => false
  | x :: a', y :: b' =>
      if x <? y then true else if y <? x then false else list_le a' b'
  end.

Fixpoint insert_row (x : list Z) (l : list (list Z)) : list (list Z) :=
  match l with
  | [] => [x]
  | y :: l' => if list_le x y then x :: l else y :: insert_row x l'
  end.

(** [np.sort(np.concatenate((a, b)), axis=0)].  Two grids must have the
    same number of columns; two one-dimensional arrays (no rows, or rows
    of unequal length kept as objects) are joined and their rows
    compared as lists; a grid and a one-dimensional array do not
    concatenate. *)
Definition sort_concatenate (a b : list (list Z)) : res (list (list Z)) :=
  match Np.shape1 a, Np.shape1 b with
  | Ok ka, Ok kb =>
      if Nat.eqb ka kb then Ok (sort_axis0 ka (a ++ b))
      else Raise ValueError
  | Raise _, Raise _ => Ok (foldr insert_row [] (a ++ b))
  | _, _ => Raise ValueError
  end.

Definition colour_sum (a b : list Z) (i : nat) : res Z :=
  res_bind (Py.index a i) (fun x =>
  res_bind (Py.index b i) (fun y => Ok (Z.min (x + y) 255))).

(** [self + other]: the fields of the new [Condition]. *)
Definition Condition_add (self other : Condition) : res Condition :=
  let n := name self +:+ "+" +:+ name other in
  res_bind (sort_concatenate (data self) (data other)) (fun d =>
  res_bind (colour_sum (colour self) (colour other) 0) (fun r =>
  res_bind (colour_sum (colour self) (colour other) 1) (fun g =>
  res_bind (colour_sum (colour self) (colour other) 2) (fun b =>
    Ok {| name := n; data := d; colour := take 3 [r; g; b] |})))).

(** *** Text of a condition and of the header *)

(** [_format_data]: every entry right-justified to the width of the
    widest offset. *)
Definition _format_data (c : Condition) : res string :=
  res_bind (map_res (fun r => res_bind (Py.index r 1) (fun off =>
                       Ok (String.length (Py.str_of_Z off))))
                    (data c)) (fun widths =>
    let width := foldr Nat.max 0%nat widths in
    Ok (Py.join Py.nl
          (map (fun r => " " +:+ Py.join "  "
                  (map (fun x => Py.rjust width (Py.str_of_Z x)) r))
               (data c)))).

Definition _format_colour (c : Condition) : string :=
  "Color: " +:+ Py.join " " (map Py.str_of_Z (colour c)).

(** [str(condition)] *)
Definition Condition_str (c : Condition) : res string :=
  res_bind (_format_data c) (fun rows =>
    Ok (name c +:+ Py.nl
        +:+ Py.str_of_Z (Z.of_nat (length (data c))) +:+ Py.nl
        +:+ rows +:+ Py.nl +:+ _format_colour c)).

(** The text of a header value in a [.prt] file: a list is unpacked
    into exactly three numbers. *)
Definition value_text (v : hval) : res string :=
  match v with
  | HList [r; g; b] =>
      Ok (Py.str_of_Z r +:+ " " +:+ Py.str_of_Z g +:+ " " +:+ Py.str_of_Z b)
  | HList _ => Raise ValueError
  | _ => Ok (format_hval v)
  end.

(** The loop of [_format_header]: entry number 9 is written only for
    file version 3. *)
Fixpoint format_entries (all : header) (c len : nat) (h : header)
  : res string :=
  match h with
  | [] => Ok EmptyString
  | (k, v) :: h' =>
      res_bind (if Nat.eqb c 9
                then res_bind (od_get "FileVersion" all) (fun fv =>
                       Ok (hval_eq_int fv 3))
                else Ok true) (fun emit =>
      res_bind (if emit
                then res_bind (value_text v) (fun value =>
                       Ok (Py.ljust 20 (k +:+ ":") +:+ value
                           +:+ (if (c <? len - 1)%nat then Py.nl
                                else EmptyString)
                           +:+ (if existsb (Nat.eqb c) [0; 1; 2; 8; 9]%nat
                                then Py.nl else EmptyString)))
                else Ok EmptyString) (fun s =>
      res_bind (format_entries all (S c) len h') (fun rest =>
        Ok (s +:+ rest))))
  end.

Definition _format_header (w : world) : res string :=
  format_entries (_header w) 0 (length (_header w)) (_header w).

(** [_format_conditions] of [src/src/brainvoyagertools/prt.py] *)
Definition _format_conditions (w : world) : res string :=
  res_bind (conditions w) (fun cs =>
  res_bind (map_res Condition_str cs) (fun texts =>
    Ok (Py.join (Py.nl +:+ Py.nl) texts))).

(** [save]: the text written, when every [write] is reached. *)
Definition save (w : world) : res string :=
  res_bind (_format_header w) (fun h =>
  res_bind (_format_conditions w) (fun cs =>
    Ok (Py.nl +:+ h +:+ Py.nl +:+ Py.nl +:+ cs))).

(** *** [load] of [src/src/brainvoyagertools/prt.py] *)

(** The lines as [load] prepares them: neighbouring duplicates dropped,
    tabs widened, blanks stripped, empty lines removed. *)
Definition prepare (lines : list string) : list string :=
  filter (fun line => negb (String.eqb (Py.strip line) ""))
    (map (fun x => Py.strip (Py.replace_char Py.tab "  " x))
         (Py.groupby_keys lines)).

(** The typed value of a header line: an integer, a list of integers,
    or the text. *)
Definition header_value (raw : string) : hval :=
  let value := Py.split " " raw in
  if (1 <? length value)%nat
  then match map_res Py.int value with
       | Ok l => HList l
       | Raise _ => HStr (Py.join " " value)
       end
  else match Py.int (hd EmptyString value) with
       | Ok z => HInt z
       | Raise _ => HStr (hd EmptyString value)
       end.

Fixpoint load_header (lines : list string) : M unit :=
  match lines with
  | [] => ret tt
  | line :: rest =>
      raw <- lift (Py.index (Py.split1 ":" line) 1) ;;
      header_set (Py.strip (hd EmptyString (Py.split1 ":" line)))
                 (header_value (Py.strip raw)) ;;;
      load_header rest
  end.

(** [int_or_float].  The embedding has integers only: a token [int]
    refuses is reported with the [ValueError] that [float] raises for a
    token that is no number; fractional tokens are outside the
    embedding. *)
Definition int_or_float (x : string) : res Z := Py.int x.

Definition nonempty (x : string) : bool := negb (String.eqb x "").

(** [[int_or_float(i) for i in line.split(" ") if i]] *)
Definition parse_row (line : string) : res (list Z) :=
  map_res int_or_float (filter nonempty (Py.split " " line)).

Definition read_rows (lines : list string) (start stop : Z)
  : res (list (list Z)) :=
  map_res (fun x => res_bind (index_py lines x) parse_row)
          (range_py start stop).

Definition read_colour (lines : list string) (stop : Z)
  : res (list Z) :=
  res_bind (index_py lines stop) (fun line =>
    map_res Py.int (Py.split " " (Py.slice_from 7 line))).

(** The first statements of the [try] block: the name and the declared
    number of events. *)
Definition read_count (lines : list string) (counter : Z)
  : res (string * Z) :=
  res_bind (index_py lines counter) (fun name_line =>
  res_bind (index_py lines (counter + 1)) (fun count_line =>
  res_bind (Py.int count_line) (fun number_events =>
    Ok (Py.strip name_line, number_events)))).

(** The rest of the [try] block, once [number_events] is bound. *)
Definition block_tail (lines : list string) (counter : Z)
           (n : string) (number_events : Z) : M unit :=
  let start := counter + 2 in
  let stop := start + number_events in
  rows <- lift (read_rows lines start stop) ;;
  col <- lift (read_colour lines stop) ;;
  l <- new_condition n rows col ;;
  add_condition l.

(** [counter = counter + number_events + 3] after the [try]; the name
    [number_events] may still be unbound. *)
Definition advance (counter : Z) (number_events : option Z)
  : M (Z * option Z) :=
  match number_events with
  | None => raise UnboundLocalError
  | Some n => ret (counter + n + 3, number_events)
  end.

(** One turn of the loop over the declared conditions; [prev] is the
    value [number_events] holds from earlier turns. *)
Definition load_block (lines : list string) (counter : Z)
           (prev : option Z) : M (Z * option Z) :=
  match read_count lines counter with
  | Raise IndexError => advance counter prev
  | Raise e => raise e
  | Ok (n, number_events) =>
      try_index (block_tail lines counter n number_events) ;;;
      advance counter (Some number_events)
  end.

Fixpoint load_blocks (lines : list string) (turns : nat) (counter : Z)
         (prev : option Z) : M unit :=
  match turns with
  | O => ret tt
  | S turns' =>
      st <- load_block lines counter prev ;;
      load_blocks lines turns' (fst st) (snd st)
  end.

(** [load] on the lines [readlines] gave.  There is no [clear]: the
    state before the call is where the assignments start from. *)
Definition load (raw : list string) : M unit :=
  let lines := prepare raw in
  found <- lift (scan_break (Py.startswith "NrOfConditions") 0 lines) ;;
  let counter := fst found in
  load_header (take counter lines) ;;;
  line <- lift (Py.index lines counter) ;;
  field <- lift (Py.index (Py.split1 ":" line) 1) ;;
  conds <- lift (Py.int (Py.strip field)) ;;
  load_blocks lines (Z.to_nat conds) (Z.of_nat counter + 1) None.

(** *** Further views *)

(** [event_names] and [event_onsets] *)
Definition event_names (w : world) : res (list string) :=
  res_bind (event_list w) (fun es => Ok (map fst es)).

Definition event_onsets (w : world) : res (list Z) :=
  res_bind (event_list w) (map_res event_onset).

(** [event_weights]: the fourth entry of every event, or, when one of
    them is missing, a 1 for every event. *)
Definition event_weights (w : world) : res (list Z) :=
  match res_bind (event_list w)
                 (map_res (fun x : event => Py.index (snd x) 2)) with
  | Raise IndexError =>
      res_bind (event_list w) (fun es => Ok (map (fun _ => 1) es))
  | r => r
  end.

(** [condition_names] and [condition_onsets] *)
Definition condition_names (w : world) : res (list string) :=
  res_bind (conditions w) (fun cs => Ok (map name cs)).

Definition condition_onsets (w : world) : res (list (list Z)) :=
  res_bind (conditions w) (map_res (fun c => Np.column 0 (data c))).

(** [condition_weights]: the third column of every condition, or, when
    one of them has none, ones for every row of every condition. *)
Definition condition_weights (w : world) : res (list (list Z)) :=
  match res_bind (conditions w)
                 (map_res (fun c => Np.column 2 (data c))) with
  | Raise IndexError =>
      res_bind (conditions w) (fun cs =>
        Ok (map (fun c => repeat 1 (length (data c))) cs))
  | r => r
  end.

End Prt.

(** ** [prt], package version ([src/prt/__init__.py])

    The classes are those of [Prt]; [clear], [convert_to_msec] and
    [_format_header] have the same text in both files.  [add_condition],
    [_format_conditions] and [load] differ and are embedded here. *)

Module PrtOld.

Import Prt.
Local Open Scope prt_scope.

(** [Condition(name, data, colour)]: here the array is built without
    [dtype=object], and numpy (1.24 and later) refuses rows of unequal
    length. *)
Definition new_condition (n : string) (d : list (list Z)) (col : list Z)
  : M loc :=
  match d with
  | r :: _ =>
      if Np.rectangular (length r) d then Prt.new_condition n d col
      else raise ValueError
  | [] => Prt.new_condition n d col
  end.

(** [add_condition].  The retrofit loop is written
    [for condition in self.conditions], so it rebinds the parameter:
    after a loop that ran at least once, [condition] is the last
    condition of the protocol. *)
Definition add_condition (l : loc) : M unit :=
  c <- deref l ;;
  k <- lift (Np.shape1 (data c)) ;;
  condition <-
    (if (2 <? k)%nat
     then header_set "FileVersion" (HInt 3) ;;;
          header_set "ParametricWeights" (HInt 1) ;;;
          ls <- (fun w => (Ok (_conditions w), w)) ;;
          retrofit ls ;;;
          ret (default l (last ls))
     else b <- weighted ;;
          (if b then store_data l (append_ones (data c)) else ret tt) ;;;
          ret l) ;;
  append_condition condition ;;;
  header_incr "NrOfConditions".

(** [_format_conditions] calls [repr(condition)].  [Condition] defines
    no [__repr__], so this is the text Python prints for any object,
    which names the class and the address of the object; [repr_of]
    gives that text for each reference. *)
Definition _format_conditions (repr_of : loc -> string) (w : world)
  : string :=
  Py.join (Py.nl +:+ Py.nl) (map repr_of (_conditions w)).

Definition save (repr_of : loc -> string) (w : world) : res string :=
  res_bind (_format_header w) (fun h =>
    Ok (Py.nl +:+ h +:+ Py.nl +:+ Py.nl +:+ _format_conditions repr_of w)).

Definition header_value (raw : string) : res hval :=
  let value := Py.split " " raw in
  if (1 <? length value)%nat
  then res_bind (map_res Py.int value) (fun l => Ok (HList l))
  else Ok match Py.int (hd EmptyString value) with
          | Ok z => HInt z
          | Raise _ => HStr (hd EmptyString value)
          end.

Fixpoint load_header (lines : list string) : M unit :=
  match lines with
  | [] => ret tt
  | line :: rest =>
      (if String.eqb (Py.strip line) "" then ret tt
       else v <- lift (header_value (Py.strip (Py.slice_from 20 line))) ;;
            header_set (Py.strip_chars ": " (Py.slice_to 20 line)) v) ;;;
      load_header rest
  end.

Definition parse_row (line : string) : res (list Z) :=
  map_res Py.int (filter nonempty (Py.split " " line)).

(** The [try] block entered at every empty line [idx] after the
    [NrOfConditions] line. *)
Definition block (lines : list string) (idx : Z) : M unit :=
  name_line <- lift (index_py lines (idx + 1)) ;;
  let start := idx + 3 in
  count_line <- lift (index_py lines (idx + 2)) ;;
  n <- lift (Py.int count_line) ;;
  let stop := start + n in
  rows <- lift (map_res (fun x => res_bind (index_py lines x) parse_row)
                        (range_py start stop)) ;;
  col <- lift (read_colour lines stop) ;;
  l <- new_condition (Py.strip name_line) rows col ;;
  add_condition l.

Fixpoint load_blocks (lines : list string) (idx : Z) (rest : list string)
  : M unit :=
  match rest with
  | [] => ret tt
  | line :: rest' =>
      let idx' := idx + 1 in
      (if String.eqb (Py.strip line) ""
       then try_index (block lines idx') else ret tt) ;;;
      load_blocks lines idx' rest'
  end.

(** [load]: no [clear] here either. *)
Definition load (lines : list string) : M unit :=
  found <- lift (scan_break (Py.startswith "NrOfConditions") 0 lines) ;;
  let counter := fst found in
  load_header (take counter lines) ;;;
  load_blocks lines (Z.of_nat counter) (drop (S counter) lines).

End PrtOld.

(** ** [voi]: volumes of interest ([src/voi/__init__.py]) *)

Module Voi.

Record VOI : Type := {
  name : string;
  data : list (list Z);
  colour : list Z
}.

Record VOIsDefinition : Type := {
  _header : header;
  _vois : list VOI;
  _vtcs : list string
}.

Definition clear : VOIsDefinition :=
  {| _header := [("FileVersion"%string, HInt 4);
                 ("ReferenceSpace"%string, HStr "BV");
                 ("OriginalVMRResolutionX"%string, HInt 1);
                 ("OriginalVMRResolutionY"%string, HInt 1);
                 ("OriginalVMRResolutionZ"%string, HInt 1);
                 ("OriginalVMROffsetX"%string, HInt 0);
                 ("OriginalVMROffsetY"%string, HInt 0);
                 ("OriginalVMROffsetZ"%string, HInt 0);
                 ("OriginalVMRFramingCubeDim"%string, HInt 256);
                 ("LeftRightConvention"%string, HInt 1);
                 ("SubjectVOINamingConvention"%string,
                  HStr "<VOI>_<SUBJ>")];
     _vois := [];
     _vtcs := [] |}.

Definition add_voi (v : VOI) (d : VOIsDefinition) : VOIsDefinition :=
  {| _header := _header d; _vois := _vois d ++ [v]; _vtcs := _vtcs d |}.

Definition add_vtc (v : string) (d : VOIsDefinition) : VOIsDefinition :=
  {| _header := _header d; _vois := _vois d; _vtcs := _vtcs d ++ [v] |}.

Fixpoint load_header (lines : list string) (h : header) : header :=
  match lines with
  | [] => h
  | line :: rest =>
      if String.eqb (Py.strip line) "" then load_header rest h
      else
        let first :=
          hd EmptyString (Py.split " " (Py.strip (Py.slice_from 27 line))) in
        load_header rest
          (od_set (Py.strip_chars ": " (Py.slice_to 27 line))
             match Py.int first with
             | Ok z => HInt z
             | Raise _ => HStr first
             end h)
  end.

Definition parse_row (line : string) : res (list Z) :=
  map_res Py.int (filter Prt.nonempty (Py.split " " line)).

Definition after_colon (line : string) : res string :=
  res_bind (Py.index (Py.split ":" line) 1) (fun x => Ok (Py.strip x)).

(** The [try] block for a line [idx] that starts with [NameOfVOI]:
    the VOI it builds. *)
Definition block (lines : list string) (idx : Z) (line : string)
  : res VOI :=
  res_bind (after_colon line) (fun n =>
  res_bind (index_py lines (idx + 1)) (fun colour_line =>
  res_bind (after_colon colour_line) (fun colour_text =>
  res_bind (map_res Py.int (Py.split " " colour_text)) (fun col =>
  res_bind (index_py lines (idx + 3)) (fun count_line =>
  res_bind (after_colon count_line) (fun count_text =>
  res_bind (Py.int count_text) (fun nvoxels =>
  let start := idx + 4 in
  let stop := start + nvoxels in
  res_bind (map_res (fun x => res_bind (index_py lines x) parse_row)
                    (range_py start stop)) (fun rows =>
    Ok {| name := n; data := rows; colour := take 3 col |})))))))).

(** The loop over the lines after [NrOfVOIs]; it returns the value of
    [idx] after the loop. *)
Fixpoint load_vois (lines : list string) (idx : Z) (rest : list string)
         (d : VOIsDefinition) : res Z * VOIsDefinition :=
  match rest with
  | [] => (Ok idx, d)
  | line :: rest' =>
      let idx' := idx + 1 in
      if Py.startswith "NrOfVOIVTCs" line then (Ok idx', d)
      else if Py.startswith "NameOfVOI" line
           then match block lines idx' line with
                | Ok v => load_vois lines idx' rest' (add_voi v d)
                | Raise IndexError => load_vois lines idx' rest' d
                | Raise e => (Raise e, d)
                end
           else load_vois lines idx' rest' d
  end.

(** [l[a:]] for an integer [a]. *)
Definition drop_py {A : Type} (a : Z) (l : list A) : list A :=
  if 0 <=? a then drop (Z.to_nat a) l
  else drop (length l - Z.to_nat (- a)) l.

(** [load] on the lines of the file; it starts with [self.clear()]. *)
Definition load (raw : list string) : res unit * VOIsDefinition :=
  let lines := Py.groupby_keys raw in
  match scan_break (Py.startswith "NrOfVOIs") 0 lines with
  | Raise e => (Raise e, clear)
  | Ok (counter, _) =>
      let d := {| _header :=
                    load_header (take_py (Z.of_nat counter - 1) lines)
                                (_header clear);
                  _vois := []; _vtcs := [] |} in
      match load_vois lines (Z.of_nat counter) (drop (S counter) lines) d
      with
      | (Raise e, d') => (Raise e, d')
      | (Ok idx, d') =>
          (Ok tt,
           foldl (fun acc line => add_vtc (Py.strip line) acc) d'
                 (drop_py (idx + 1) lines))
      end
  end.

End Voi.

(** * Vocabulary of the statements and example documents *)

(** The grid whose columns are the given series of length [n]. *)
Fixpoint by_rows {A : Type} (n : nat) (series : list (list A))
  : list (list A) :=
  match series with
  | [] => repeat [] n
  | d :: rest => zip_with cons d (by_rows n rest)
  end.

(** The order of keyed elements that [sorted] establishes. *)
Definition key_le {A : Type} (x y : Z * A) : Prop := fst x <= fst y.

(** A contrasts definition with two contrasts over three values. *)
Definition ctr_two : Ctr.ContrastsDefinition :=
  {| Ctr._header := [("FileVersion"%string, HInt 1);
                     ("NrOfContrasts"%string, HInt 2);
                     ("NrOfValues"%string, HInt 3)];
     Ctr._contrasts := [ {| Ctr.name := "A > B"; Ctr.data := [1; -1; 0] |};
                         {| Ctr.name := "B > C"; Ctr.data := [0; 1; -1] |} ] |}.

(** One contrast over two values. *)
Definition contrast_ab : Ctr.Contrast :=
  {| Ctr.name := "A > B"; Ctr.data := [1; -1] |}.

(** A study with one functional file (VTC data) and one with two (MTC
    data). *)
Definition study_vtc : Mdm.Study :=
  {| Mdm.data_files := ["s1.vtc"%string]; Mdm.sdm_file := "s1.sdm" |}.

Definition study_mtc : Mdm.Study :=
  {| Mdm.data_files := ["s2.ssm"%string; "s2.mtc"%string];
     Mdm.sdm_file := "s2.sdm" |}.

(** The design matrix with the VTC study, the file [save] writes for it,
    and the design matrix [load] builds from that file. *)
Definition mdm_one : Mdm.DesignMatrix :=
  snd (Mdm.add_study study_vtc Mdm.clear).

Definition mdm_one_file : string := Mdm.save mdm_one.

Definition mdm_loaded : Mdm.DesignMatrix :=
  snd (Mdm.load (Py.readlines mdm_one_file)).

(** The kind of functional data of a study. *)
Definition study_kind (s : Mdm.Study) : string :=
  if (1 <? length (Mdm.data_files s))%nat then "MTC" else "VTC".

(** The header counts the studies of the body and names their common
    kind. *)
Definition mdm_consistent (d : Mdm.DesignMatrix) : Prop :=
  exists t,
    od_get "NrOfStudies" (Mdm._header d)
    = Ok (HInt (Z.of_nat (length (Mdm._studies d))))
    /\ od_get "TypeOfFunctionalData" (Mdm._header d) = Ok (HStr t)
    /\ Forall (fun s => study_kind s = t) (Mdm._studies d)
    /\ (Mdm._studies d = [] -> t = "VTC"%string).

(** For contrasts and predictors the length is fixed in the header by
    the first record added and stays fixed over every later call. *)
Definition ctr_fixed (len : Z) (d : Ctr.ContrastsDefinition) : Prop :=
  exists n,
    od_get "NrOfContrasts" (Ctr._header d) = Ok (HInt n) /\ 0 < n
    /\ od_get "NrOfValues" (Ctr._header d) = Ok (HInt len).

Definition sdm_fixed {V : Type} (len : Z) (d : Sdm.DesignMatrix V) : Prop :=
  exists n f,
    od_get "NrOfPredictors" (Sdm._header d) = Ok (HInt n) /\ 0 < n
    /\ od_get "NrOfDataPoints" (Sdm._header d) = Ok (HInt len)
    /\ od_get "FirstConfoundPredictor" (Sdm._header d) = Ok (HInt f).

(** What one pass over a list of references does to the store when the
    function applied at each reference is [f]. *)
Definition alter_all (f : Prt.Condition -> Prt.Condition)
           (ls : list Prt.loc) (hp : list Prt.Condition) : list Prt.Condition :=
  foldl (fun h l => alter f l h) hp ls.

(** The conversion of one interval: onset and offset change, further
    columns (the weight) stay. *)
Definition conv_row (tr : Z) (r : list Z) : list Z :=
  match r with
  | onset :: offset :: t => (onset - 1) * tr :: offset * tr :: t
  | _ => r
  end.

Definition converted (tr : Z) (c : Prt.Condition) : Prt.Condition :=
  Prt.set_data (map (conv_row tr) (Prt.data c)) c.

(** Every row carries at least an onset and an offset. *)
Definition has_intervals (c : Prt.Condition) : Prop :=
  Forall (fun r => (2 <= length r)%nat) (Prt.data c).

(** Two conditions in volumes, created by the caller. *)
Definition cond_a : Prt.Condition :=
  {| Prt.name := "A"; Prt.data := [[2; 3]; [8; 9]]; Prt.colour := [255; 0; 0] |}.

Definition cond_b : Prt.Condition :=
  {| Prt.name := "B"; Prt.data := [[5; 6]]; Prt.colour := [0; 255; 0] |}.

(** The store with the two objects, before any protocol is set up. *)
Definition store_ab : Prt.world :=
  {| Prt.heap := [cond_a; cond_b]; Prt._header := []; Prt._conditions := [] |}.

(** The protocol [StimulationProtocol()] after [add_condition(a)] and
    [add_condition(b)]. *)
Definition protocol_ab : Prt.world :=
  snd (Prt.bind (Prt.init "untitled" "Volumes") (fun _ =>
       Prt.bind (Prt.add_condition 0%nat) (fun _ =>
       Prt.add_condition 1%nat)) store_ab).

(** The protocol in which the caller added the object [a] twice. *)
Definition protocol_aa : Prt.world :=
  snd (Prt.bind (Prt.init "untitled" "Volumes") (fun _ =>
       Prt.bind (Prt.add_condition 0%nat) (fun _ =>
       Prt.add_condition 0%nat)) store_ab).

(** The onset and the offset of a row with at least two entries. *)
Definition row_onset (r : list Z) : Z := nth 0 r 0.

Definition row_offset (r : list Z) : Z := nth 1 r 0.

(** The rows of a protocol's conditions as events, in the order of the
    condition list. *)
Definition flat_events (cs : list Prt.Condition) : list Prt.event :=
  concat (map (fun c => map (fun r => (Prt.name c, r)) (Prt.data c)) cs).

(** Every condition of the protocol is a grid with columns for onset and
    offset at least. *)
Definition interval_grids (w : Prt.world) : Prop :=
  forall l, In l (Prt._conditions w) ->
    exists c k, Prt.heap w !! l = Some c
                /\ Np.shape1 (Prt.data c) = Ok k /\ (2 <= k)%nat.

(** What the views return when a duration is computed by [dur onset
    offset]: the conditions [cs] of the protocol, the event list [evs] as
    a rearrangement of all their rows in ascending order of the onset,
    one duration per event and one per row of every condition. *)
Definition views_with (dur : Z -> Z -> Z) (w : Prt.world) : Prop :=
  exists (cs : list Prt.Condition) (evs : list Prt.event),
    Prt.conditions w = Ok cs
    /\ Prt.event_list w = Ok evs
    /\ Permutation evs (flat_events cs)
    /\ StronglySorted
         (fun x y => row_onset (snd x) <= row_onset (snd y)) evs
    /\ Prt.event_durations w
       = Ok (map (fun e => dur (row_onset (snd e)) (row_offset (snd e))) evs)
    /\ Prt.condition_durations w
       = Ok (map (fun c => map (fun r => dur (row_onset r) (row_offset r))
                               (Prt.data c)) cs).

(** The example of the specification: conditions A with the interval
    (1, 3) and B with (5, 6), in volumes. *)
Definition protocol_example : Prt.world :=
  snd (Prt.bind (Prt.init "untitled" "Volumes") (fun _ =>
       Prt.bind (Prt.add_condition 0%nat) (fun _ =>
       Prt.add_condition 1%nat))
         {| Prt.heap := [ {| Prt.name := "A"; Prt.data := [[1; 3]];
                             Prt.colour := [255; 0; 0] |};
                          {| Prt.name := "B"; Prt.data := [[5; 6]];
                             Prt.colour := [0; 255; 0] |} ];
            Prt._header := []; Prt._conditions := [] |}).

(** A condition after the retrofit: every row has a trailing weight 1. *)
Definition widened (c : Prt.Condition) : Prt.Condition :=
  Prt.set_data (Prt.append_ones (Prt.data c)) c.

(** What one turn of the retrofit loop does to the object it visits. *)
Definition retrofitted (c : Prt.Condition) : Prt.Condition :=
  match Np.shape1 (Prt.data c) with
  | Ok k => if (k <? 3)%nat then widened c else c
  | Raise _ => c
  end.

Definition two_or_three (c : Prt.Condition) : Prop :=
  Np.shape1 (Prt.data c) = Ok 2%nat \/ Np.shape1 (Prt.data c) = Ok 3%nat.

(** A condition with a weight column. *)
Definition cond_weighted : Prt.Condition :=
  {| Prt.name := "W"; Prt.data := [[11; 12; 5]]; Prt.colour := [0; 0; 255] |}.

Definition store_aw : Prt.world :=
  {| Prt.heap := [cond_a; cond_weighted]; Prt._header := [];
     Prt._conditions := [] |}.

(** The package version of the protocol holding the two-column condition
    [a], and the same protocol in the newer module. *)
Definition old_protocol_a : Prt.world :=
  snd (Prt.bind (Prt.init "untitled" "Volumes") (fun _ =>
       PrtOld.add_condition 0%nat) store_aw).

(** Two conditions with one weighted interval each, and two conditions
    whose intervals overlap. *)
Definition cond_early : Prt.Condition :=
  {| Prt.name := "Early"; Prt.data := [[1; 2; 5]];
     Prt.colour := [200; 10; 0] |}.

Definition cond_late : Prt.Condition :=
  {| Prt.name := "Late"; Prt.data := [[3; 4; 1]];
     Prt.colour := [100; 20; 0] |}.

Definition cond_long : Prt.Condition :=
  {| Prt.name := "Long"; Prt.data := [[1; 10]]; Prt.colour := [0; 0; 0] |}.

Definition cond_short : Prt.Condition :=
  {| Prt.name := "Short"; Prt.data := [[5; 6]]; Prt.colour := [0; 0; 0] |}.

Definition text_of (r : res string) : string :=
  match r with
  | Ok f => f
  | Raise _ => EmptyString
  end.

(** The file [save] writes for [protocol_ab]: version 2, volumes,
    experiment [untitled], the conditions [A] and [B]. *)
Definition file_ab : string := text_of (Prt.save protocol_ab).

(** A protocol in use: experiment [pilot] in [msec] with the weighted
    condition [W], hence file version 3 with parametric weights. *)
Definition protocol_prior : Prt.world :=
  snd (Prt.bind (Prt.init "pilot" "msec") (fun _ =>
       Prt.add_condition 0%nat)
         {| Prt.heap := [cond_weighted]; Prt._header := [];
            Prt._conditions := [] |}).

(** A file whose first block declares [many] events. *)
Definition file_bad_count : string :=
  ("FileVersion: 2" +:+ Py.nl +:+ "ResolutionOfTime: Volumes" +:+ Py.nl
   +:+ "Experiment: other" +:+ Py.nl +:+ "NrOfConditions: 1" +:+ Py.nl
   +:+ "A" +:+ Py.nl +:+ "many" +:+ Py.nl +:+ " 1 2" +:+ Py.nl
   +:+ "Color: 1 2 3")%string.


(** The protocol [StimulationProtocol()] sets up. *)
Definition new_protocol : Prt.world :=
  snd (Prt.init "untitled" "Volumes"
         {| Prt.heap := []; Prt._header := []; Prt._conditions := [] |}).



(** The text Python prints for an object without [__repr__], here for
    one address; the embedding does not model addresses. *)
Definition object_repr (l : Prt.loc) : string :=
  "<prt.Condition object at 0x7f3c2a1b4e50>".

(** The file the package version of [prt] writes for the protocol that
    holds the condition [A]. *)
Definition old_file_a : string :=
  text_of (PrtOld.save object_repr old_protocol_a).

(** ** Vocabulary of the further properties *)


(** The layout of a design matrix: the predictors of interest [mains],
    then the confounds [confs], then [tail], the constant if there is
    one; all series have [n] points and the header says so. *)
Definition sdm_layout {V : Type} (n : nat)
           (mains confs tail : list (Sdm.Predictor V))
           (d : Sdm.DesignMatrix V) : Prop :=
  Sdm._predictors d = mains ++ confs ++ tail
  /\ Forall (fun p => length (Sdm.data p) = n) (mains ++ confs ++ tail)
  /\ od_get "NrOfPredictors" (Sdm._header d)
     = Ok (HInt (Z.of_nat (length (mains ++ confs ++ tail))))
  /\ od_get "FirstConfoundPredictor" (Sdm._header d)
     = Ok (HInt (Z.of_nat (length mains) + 1))
  /\ od_get "IncludesConstant" (Sdm._header d)
     = Ok (HInt (Z.of_nat (length tail)))
  /\ (exists v, od_get "NrOfDataPoints" (Sdm._header d) = Ok (HInt v))
  /\ (mains ++ confs ++ tail <> [] ->
      od_get "NrOfDataPoints" (Sdm._header d) = Ok (HInt (Z.of_nat n))).

(** The predictor [add_constant] builds for a matrix of [n] rows. *)
Definition constant_predictor {V : Type} (one : V) (n : nat)
  : Sdm.Predictor V :=
  {| Sdm.name := "Constant"; Sdm.data := repeat one n;
     Sdm.colour := [255; 255; 255] |}.


(** A script of [add_study] calls in which every refused call is caught
    and the script goes on. *)
Definition add_studies (ss : list Mdm.Study) (d : Mdm.DesignMatrix)
  : Mdm.DesignMatrix :=
  foldl (fun acc s => snd (Mdm.add_study s acc)) d ss.

Definition same_kind (s0 s : Mdm.Study) : bool :=
  String.eqb (study_kind s) (study_kind s0).

(** A script of [add_condition] calls that stops at the first
    exception. *)
Fixpoint add_conditions (ls : list Prt.loc) : Prt.M unit :=
  match ls with
  | [] => Prt.ret tt
  | l :: rest => Prt.bind (Prt.add_condition l) (fun _ => add_conditions rest)
  end.

(** Every condition of the protocol is a grid of [k] columns. *)
Definition uniform_columns (k : nat) (w : Prt.world) : Prop :=
  forall l, In l (Prt._conditions w) ->
    exists c, Prt.heap w !! l = Some c /\ Np.shape1 (Prt.data c) = Ok k.

(** The state [add_condition] keeps: all objects of the store are grids
    of two or three columns, the header counts the conditions, and the
    conditions of the protocol have three columns when the header
    announces parametric weights in file version 3, two otherwise. *)
Definition protocol_invariant (w : Prt.world) : Prop :=
  (forall i c, Prt.heap w !! i = Some c -> two_or_three c)
  /\ (forall l, In l (Prt._conditions w) -> is_Some (Prt.heap w !! l))
  /\ od_get "NrOfConditions" (Prt._header w)
     = Ok (HInt (Z.of_nat (length (Prt._conditions w))))
  /\ exists fv pw,
       od_get "FileVersion" (Prt._header w) = Ok fv
       /\ od_get "ParametricWeights" (Prt._header w) = Ok pw
       /\ uniform_columns
            (if hval_eq_int fv 3 && hval_eq_int pw 1 then 3 else 2)%nat w.

(** An event of a converted condition. *)
Definition conv_event (tr : Z) (e : Prt.event) : Prt.event :=
  (fst e, conv_row tr (snd e)).

(** The weight of a row with three entries. *)
Definition row_weight (r : list Z) : Z := nth 2 r 0.

(** A condition with a weight column, and one with onsets and offsets
    only. *)
Definition weighted_grid (c : Prt.Condition) : Prop :=
  exists k, Np.shape1 (Prt.data c) = Ok k /\ (3 <= k)%nat.

Definition unweighted_grid (c : Prt.Condition) : Prop :=
  Np.shape1 (Prt.data c) = Ok 2%nat.

(** Column [j] of a grid. *)
Definition grid_column (j : nat) (m : list (list Z)) : list Z :=
  map (fun r => nth j r 0) m.

(** The number a run of decimal digits stands for, read from the left
    with [acc] as the value of the digits before it. *)
Fixpoint uint_value (d : Decimal.uint) (acc : Z) : Z :=
  match d with
  | Decimal.Nil => acc
  | Decimal.D0 l => uint_value l (10 * acc)
  | Decimal.D1 l => uint_value l (10 * acc + 1)
  | Decimal.D2 l => uint_value l (10 * acc + 2)
  | Decimal.D3 l => uint_value l (10 * acc + 3)
  | Decimal.D4 l => uint_value l (10 * acc + 4)
  | Decimal.D5 l => uint_value l (10 * acc + 5)
  | Decimal.D6 l => uint_value l (10 * acc + 6)
  | Decimal.D7 l => uint_value l (10 * acc + 7)
  | Decimal.D8 l => uint_value l (10 * acc + 8)
  | Decimal.D9 l => uint_value l (10 * acc + 9)
  end.

(** The characters [str] of an integer is made of. *)
Definition numeral_char (c : ascii) : bool :=
  Ascii.eqb c "-"%char
  || match Py.digit_val c with Some _ => true | None => false end.
(** One row of the grid as [_format_data] of [ctr] writes it. *)
Definition ctr_row_text (x : list Z) : string :=
  Py.join " " (map (fun y => Py.rjust 3 (Py.str_of_Z y)) x).

(** The line ends a grid line of a [.ctr] file can have: none (the last
    line of the file) or a newline. *)
Definition line_end (s : string) : Prop := s = EmptyString \/ s = Py.nl.
(** A value whose text has at most three characters, and the check of
    what [_format_data] makes of it: a field of three characters that
    does not begin with a line end. *)
Definition three_chars (y : Z) : Prop := -99 <= y <= 999.

Definition field_ok (y : Z) : bool :=
  match Py.rjust 3 (Py.str_of_Z y) with
  | String a (String _ (String _ EmptyString)) =>
      negb (Py.mem_char (String (ascii_of_nat 13) Py.nl) a)
  | _ => false
  end.

(** A text none of whose characters is in [set]. *)
Definition free_of (set : string) (s : string) : Prop :=
  Forall (fun c => Py.mem_char set c = false) (list_ascii_of_string s).

(** The text of a file with the lines [ls], each closed by a newline,
    and a last line [last] without one. *)
Definition file_text (ls : list string) (last : string) : string :=
  foldr (fun l acc => l +:+ Py.nl +:+ acc) last ls.

(** A contrast name that the names line of a [.ctr] file can carry: not
    empty, without quotes and without line ends. *)
Definition plain_name (s : string) : Prop :=
  s <> EmptyString
  /\ free_of (Py.dquote +:+ String (ascii_of_nat 13) Py.nl) s.
(** A contrasts definition with the three header fields of the format
    and the contrasts [cs]. *)
Definition ctr_document (v n m : Z) (cs : list Ctr.Contrast)
  : Ctr.ContrastsDefinition :=
  {| Ctr._header := [("FileVersion"%string, HInt v);
                     ("NrOfContrasts"%string, HInt n);
                     ("NrOfValues"%string, HInt m)];
     Ctr._contrasts := cs |}.

(** A contrast that a [.ctr] file can carry: a plain name and [len]
    values of at most three characters. *)
Definition storable (len : nat) (c : Ctr.Contrast) : Prop :=
  plain_name (Ctr.name c)
  /\ length (Ctr.data c) = len
  /\ Forall three_chars (Ctr.data c).

(** The lines of the file of [ctr_document v n m cs] before the grid. *)
Definition ctr_head_lines (v n m : Z) (names : list string) : list string :=
  [ EmptyString;
    ("FileVersion:    " +:+ Py.spaces 6) +:+ Py.str_of_Z v;
    ("NrOfContrasts:  " +:+ Py.spaces 6) +:+ Py.str_of_Z n;
    ("NrOfValues:     " +:+ Py.spaces 6) +:+ Py.str_of_Z m;
    EmptyString;
    Py.dquote +:+ Py.join (Py.dquote +:+ " " +:+ Py.dquote) names
      +:+ Py.dquote ].

(** A protocol whose one condition holds the same interval twice in a
    row. *)
Definition protocol_twice : Prt.world :=
  snd (Prt.bind (Prt.init "untitled" "Volumes") (fun _ =>
       Prt.add_condition 0%nat)
         {| Prt.heap := [ {| Prt.name := "A"; Prt.data := [[1; 2]; [1; 2]];
                             Prt.colour := [255; 0; 0] |} ];
            Prt._header := []; Prt._conditions := [] |}).

(** A multi-subject design matrix with the seven header fields of the
    format and the studies [studies]. *)
Definition mdm_document (v : Z) (t : string) (r p z s n : Z)
           (studies : list Mdm.Study) : Mdm.DesignMatrix :=
  {| Mdm._header := [("FileVersion"%string, HInt v);
                     ("TypeOfFunctionalData"%string, HStr t);
                     ("RFX-GLM"%string, HInt r);
                     ("PSCTransformation"%string, HInt p);
                     ("zTransformation"%string, HInt z);
                     ("SeparatePredictors"%string, HInt s);
                     ("NrOfStudies"%string, HInt n)];
     Mdm._studies := studies |}.

(** A file path that a line of studies can carry: not blank, without
    quotes and without line ends. *)
Definition plain_path (s : string) : Prop :=
  String.eqb (Py.strip s) "" = false
  /\ free_of (Py.dquote +:+ String (ascii_of_nat 13) Py.nl) s.

(** A study with one or two data files and plain paths. *)
Definition storable_study (s : Mdm.Study) : Prop :=
  (length (Mdm.data_files s) = 1%nat \/ length (Mdm.data_files s) = 2%nat)
  /\ Forall plain_path (Mdm.data_files s)
  /\ plain_path (Mdm.sdm_file s).

(** The line [_format_studies] writes for a study, without its end. *)
Definition study_line (x : Mdm.Study) : string :=
  Py.dquote
    +:+ Py.join (Py.dquote +:+ " " +:+ Py.dquote) (Mdm.data_files x)
    +:+ Py.dquote +:+ " " +:+ Py.dquote +:+ Mdm.sdm_file x +:+ Py.dquote.

(** The lines of the file of [mdm_document] before the studies. *)
Definition mdm_head_lines (v : Z) (t : string) (r p z s n : Z)
  : list string :=
  [ EmptyString;
    "FileVersion:          " +:+ Py.str_of_Z v;
    "TypeOfFunctionalData: " +:+ t;
    EmptyString;
    "RFX-GLM:              " +:+ Py.str_of_Z r;
    EmptyString;
    "PSCTransformation:    " +:+ Py.str_of_Z p;
    "zTransformation:      " +:+ Py.str_of_Z z;
    "SeparatePredictors:   " +:+ Py.str_of_Z s;
    EmptyString;
    "NrOfStudies:          " +:+ Py.str_of_Z n ].

(** * Properties *)

(** ** Header lemmas *)

Lemma od_get_set_same (k : string) (v : hval) (h : header) :
  od_get k (od_set k v h) = Ok v.
Proof.
  induction h as [|[k' v'] h IH]; simpl.
  - now rewrite String.eqb_refl.
  - destruct (String.eqb k k') eqn:E; simpl.
    + now rewrite String.eqb_refl.
    + now rewrite E.
Qed.

Lemma od_get_set_other (k k' : string) (v : hval) (h : header) :
  k <> k' -> od_get k (od_set k' v h) = od_get k h.
Proof.
  intros Hne. induction h as [|[k0 v0] h IH]; simpl.
  - destruct (String.eqb k k') eqn:E; [apply String.eqb_eq in E; congruence|reflexivity].
  - destruct (String.eqb k' k0) eqn:E; simpl.
    + apply String.eqb_eq in E. subst k0.
      destruct (String.eqb k k') eqn:E'; [apply String.eqb_eq in E'; congruence|reflexivity].
    + destruct (String.eqb k k0); [reflexivity|exact IH].
Qed.

(** ** The [data] accessor *)

Section Stack.

Context {A : Type}.

Lemma by_rows_length (n : nat) (series : list (list A)) :
  Forall (fun d => length d = n) series ->
  length (by_rows n series) = n.
Proof.
  induction 1 as [|d rest Hd _ IH]; simpl.
  - apply repeat_length.
  - rewrite length_zip_with. lia.
Qed.

Lemma by_rows_entry (n : nat) (series : list (list A)) (i j : nat)
      (r d : list A) :
  Forall (fun d => length d = n) series ->
  by_rows n series !! i = Some r ->
  series !! j = Some d ->
  r !! j = d !! i.
Proof.
  intros Hall. revert i j r d.
  induction Hall as [|d0 rest Hd0 Hrest IH]; intros i j r d Hr Hj.
  - destruct j; discriminate.
  - simpl in Hr. apply lookup_zip_with_Some in Hr.
    destruct Hr as (x & r' & -> & Hx & Hr').
    destruct j as [|j]; simpl in *.
    + injection Hj as <-. now rewrite Hx.
    + eapply IH; eauto.
Qed.

Lemma by_rows_width (n : nat) (series : list (list A)) :
  Forall (fun r => length r = length series) (by_rows n series).
Proof.
  induction series as [|d rest IH]; simpl.
  - apply Forall_forall. intros r Hr. apply list_elem_of_In, repeat_spec in Hr. now subst.
  - apply Forall_forall. intros r Hr.
    apply elem_of_lookup_zip_with in Hr.
    destruct Hr as (i & x & r' & -> & _ & Hr').
    simpl. f_equal.
    rewrite Forall_forall in IH. apply IH.
    eapply list_elem_of_lookup_2; eauto.
Qed.

Lemma zip_app_snoc (m : list (list A)) (d : list A) (t : list (list A)) :
  length m = length d -> length t = length d ->
  zip_with app (zip_with (fun r x => r ++ [x]) m d) t
  = zip_with app m (zip_with cons d t).
Proof.
  revert d t. induction m as [|r m IH]; intros [|x d] [|y t]; simpl;
    try discriminate; try reflexivity.
  intros H1 H2. rewrite <- app_assoc. simpl. f_equal. apply IH; lia.
Qed.

Lemma stack_loop_some (n : nat) (rest : list (list A)) :
  Forall (fun d => length d = n) rest ->
  forall m : Np.array2 A,
    length (Np.rows m) = n ->
    Np.stack_loop (Some m) rest
    = Ok {| Np.ncols := Np.ncols m + length rest;
            Np.rows := zip_with app (Np.rows m) (by_rows n rest) |}.
Proof.
  induction 1 as [|d rest Hd Hrest IH]; intros m Hm; simpl.
  - f_equal. destruct m as [k rs]; simpl in *. f_equal; [lia|].
    subst n. clear. induction rs; simpl; [reflexivity|].
    rewrite app_nil_r. now f_equal.
  - unfold Np.append_column. rewrite Hm, Hd, Nat.eqb_refl. simpl.
    rewrite IH by (simpl; rewrite length_zip_with; lia).
    simpl. f_equal. f_equal; [lia|].
    apply zip_app_snoc; [lia|].
    rewrite by_rows_length; [lia|assumption].
Qed.

Lemma stack_columns_nonempty (n : nat) (series : list (list A)) :
  series <> [] ->
  Forall (fun d => length d = n) series ->
  Np.stack_columns series
  = Ok {| Np.ncols := length series; Np.rows := by_rows n series |}.
Proof.
  intros Hne Hall. destruct series as [|d rest]; [congruence|].
  inversion Hall as [|? ? Hd Hrest]; subst.
  unfold Np.stack_columns. simpl.
  rewrite (stack_loop_some (length d)); simpl;
    [|assumption|now rewrite length_map].
  f_equal. f_equal.
  generalize (by_rows_length _ _ Hrest).
  generalize (by_rows (length d) rest). clear.
  induction d as [|x d IH]; intros [|r t]; simpl; try reflexivity; try discriminate.
  intros H. f_equal. apply IH. lia.
Qed.

(** What the accessor returns, stated on the series of the records. *)
Lemma stack_columns_spec (n : nat) (series : list (list A)) :
  series <> [] ->
  Forall (fun d => length d = n) series ->
  exists m : Np.array2 A,
    Np.stack_columns series = Ok m
    /\ Np.ncols m = length series
    /\ length (Np.rows m) = n
    /\ Forall (fun r => length r = length series) (Np.rows m)
    /\ forall (i j : nat) (r d : list A),
         Np.rows m !! i = Some r -> series !! j = Some d ->
         r !! j = d !! i.
Proof.
  intros Hne Hall. eexists. split; [apply stack_columns_nonempty; eassumption|].
  simpl. repeat split.
  - now apply by_rows_length.
  - apply by_rows_width.
  - intros. eapply by_rows_entry; eauto.
Qed.

End Stack.

(** C10. Reading [data] of a [ContrastsDefinition] or of a single-subject
    [DesignMatrix] without records raises (the result variable was never
    bound) instead of returning an empty matrix.  With at least one
    record, the records' series all having the length [n] that the format
    fixes, it returns a matrix of [n] rows with one column per record, in
    the stored order: entry [j] of row [i] is entry [i] of record [j]. *)
Theorem data_accessor_columns :
  (forall h, Ctr.data_matrix {| Ctr._header := h; Ctr._contrasts := [] |}
             = Raise UnboundLocalError)
  /\ (forall (V : Type) h,
        Sdm.data_matrix {| Sdm._header := h; Sdm._predictors := @nil (Sdm.Predictor V) |}
        = Raise UnboundLocalError)
  /\ (forall (d : Ctr.ContrastsDefinition) (n : nat),
        Ctr._contrasts d <> [] ->
        Forall (fun c => length (Ctr.data c) = n) (Ctr._contrasts d) ->
        exists m,
          Ctr.data_matrix d = Ok m
          /\ Np.ncols m = length (Ctr._contrasts d)
          /\ length (Np.rows m) = n
          /\ Forall (fun r => length r = length (Ctr._contrasts d)) (Np.rows m)
          /\ forall i j r c,
               Np.rows m !! i = Some r -> Ctr._contrasts d !! j = Some c ->
               r !! j = Ctr.data c !! i)
  /\ (forall (V : Type) (d : Sdm.DesignMatrix V) (n : nat),
        Sdm._predictors d <> [] ->
        Forall (fun p => length (Sdm.data p) = n) (Sdm._predictors d) ->
        exists m,
          Sdm.data_matrix d = Ok m
          /\ Np.ncols m = length (Sdm._predictors d)
          /\ length (Np.rows m) = n
          /\ Forall (fun r => length r = length (Sdm._predictors d)) (Np.rows m)
          /\ forall i j r p,
               Np.rows m !! i = Some r -> Sdm._predictors d !! j = Some p ->
               r !! j = Sdm.data p !! i).
Proof.
  split; [reflexivity|]. split; [reflexivity|]. split.
  - intros d n Hne Hall. unfold Ctr.data_matrix.
    destruct (stack_columns_spec n (map Ctr.data (Ctr._contrasts d)))
      as (m & Hm & Hc & Hr & Hw & He).
    + destruct (Ctr._contrasts d); [congruence|discriminate].
    + now apply Forall_map.
    + exists m. rewrite length_map in *. repeat split; try assumption.
      intros i j r c Hi Hj. apply (He i j r (Ctr.data c) Hi).
      now rewrite list_lookup_fmap, Hj.
  - intros V d n Hne Hall. unfold Sdm.data_matrix.
    destruct (stack_columns_spec n (map Sdm.data (Sdm._predictors d)))
      as (m & Hm & Hc & Hr & Hw & He).
    + destruct (Sdm._predictors d); [congruence|discriminate].
    + now apply Forall_map.
    + exists m. rewrite length_map in *. repeat split; try assumption.
      intros i j r p Hi Hj. apply (He i j r (Sdm.data p) Hi).
      now rewrite list_lookup_fmap, Hj.
Qed.

Lemma data_accessor_columns_witness :
  exists m,
    Ctr.data_matrix ctr_two = Ok m
    /\ Np.ncols m = 2%nat
    /\ length (Np.rows m) = 3%nat
    /\ Forall (fun r => length r = 2%nat) (Np.rows m)
    /\ forall i j r c,
         Np.rows m !! i = Some r -> Ctr._contrasts ctr_two !! j = Some c ->
         r !! j = Ctr.data c !! i.
Proof.
  apply (proj1 (proj2 (proj2 data_accessor_columns)) ctr_two 3%nat).
  - discriminate.
  - repeat constructor.
Defined.

(** ** Adding records: validation and counters *)

(** [add_contrast] never touches the list of contrasts. *)
Lemma add_contrast_body (c : Ctr.Contrast) (d : Ctr.ContrastsDefinition) :
  Ctr._contrasts (snd (Ctr.add_contrast c d)) = Ctr._contrasts d.
Proof.
  unfold Ctr.add_contrast.
  destruct (od_get "NrOfContrasts" (Ctr._header d)) as [n|e]; [|reflexivity].
  destruct (hval_eq_int n 0).
  - destruct (od_incr _ _); reflexivity.
  - destruct (od_get "NrOfValues" (Ctr._header d)) as [v|e]; simpl; [|reflexivity].
    destruct (negb _); simpl; [reflexivity|].
    destruct (od_incr _ _); reflexivity.
Qed.

(** A contrast of another length than the one recorded is refused, and
    the refused call changes nothing. *)
Lemma add_contrast_rejects (c : Ctr.Contrast) (d : Ctr.ContrastsDefinition)
      (n v : Z) :
  od_get "NrOfContrasts" (Ctr._header d) = Ok (HInt n) -> n <> 0 ->
  od_get "NrOfValues" (Ctr._header d) = Ok (HInt v) ->
  v <> Z.of_nat (length (Ctr.data c)) ->
  Ctr.add_contrast c d = (Raise ValueError, d).
Proof.
  intros Hn Hn0 Hv Hne. unfold Ctr.add_contrast. rewrite Hn. simpl.
  destruct (Z.eqb_spec n 0); [contradiction|].
  rewrite Hv. simpl.
  destruct (Z.eqb_spec v (Z.of_nat (length (Ctr.data c)))); [contradiction|].
  reflexivity.
Qed.

(** The same for a predictor of a single-subject design matrix. *)
Lemma add_predictor_rejects (V : Type) (p : Sdm.Predictor V) (conf : bool)
      (d : Sdm.DesignMatrix V) (n v : Z) :
  od_get "NrOfPredictors" (Sdm._header d) = Ok (HInt n) -> 0 < n ->
  od_get "NrOfDataPoints" (Sdm._header d) = Ok (HInt v) ->
  v <> Z.of_nat (length (Sdm.data p)) ->
  Sdm.add_predictor p conf d = (Raise ValueError, d).
Proof.
  intros Hn Hn0 Hv Hne. unfold Sdm.add_predictor, Sdm.add_position, Sdm.get_int.
  rewrite Hn. simpl.
  destruct (Z.ltb_spec 0 n); [|lia].
  rewrite Hv. simpl.
  destruct (Z.eqb_spec v (Z.of_nat (length (Sdm.data p)))); [contradiction|].
  reflexivity.
Qed.

(** The same for a study whose kind of functional data is not the one
    the header records for the studies counted so far. *)
Lemma add_study_rejects (s : Mdm.Study) (d : Mdm.DesignMatrix) (n : Z)
      (t : string) :
  od_get "NrOfStudies" (Mdm._header d) = Ok (HInt n) -> 0 < n ->
  od_get "TypeOfFunctionalData" (Mdm._header d) = Ok (HStr t) ->
  t = (if (1 <? length (Mdm.data_files s))%nat then "VTC" else "MTC")%string ->
  Mdm.add_study s d = (Raise ValueError, d).
Proof.
  intros Hn Hn0 Ht Hk. unfold Mdm.add_study, Mdm.check_type, Mdm.holds_other.
  rewrite Hn, Ht. simpl.
  destruct (Z.ltb_spec 0 n); [|lia].
  destruct (1 <? length (Mdm.data_files s))%nat; subst t; reflexivity.
Qed.

(** A successful [add_study] appends the study and counts it. *)
Lemma add_study_appends (s : Mdm.Study) (d d' : Mdm.DesignMatrix) (n : Z) :
  od_get "NrOfStudies" (Mdm._header d) = Ok (HInt n) ->
  Mdm.add_study s d = (Ok tt, d') ->
  Mdm._studies d' = Mdm._studies d ++ [s]
  /\ od_get "NrOfStudies" (Mdm._header d') = Ok (HInt (n + 1)).
Proof.
  intros Hn. unfold Mdm.add_study.
  destruct (Mdm.check_type s (Mdm._header d)) as [h1|e] eqn:Hc; [|discriminate].
  assert (Hn1 : od_get "NrOfStudies" h1 = Ok (HInt n)).
  { revert Hc. unfold Mdm.check_type.
    destruct (1 <? length (Mdm.data_files s))%nat.
    - destruct (Mdm.holds_other "VTC" (Mdm._header d)) as [[|]|]; simpl; try discriminate.
      intros [= <-]. rewrite od_get_set_other by discriminate. exact Hn.
    - destruct (Mdm.holds_other "MTC" (Mdm._header d)) as [[|]|]; simpl; try discriminate.
      intros [= <-]. exact Hn. }
  unfold od_incr. rewrite Hn1. simpl. intros [= <-]. simpl.
  split; [reflexivity|apply od_get_set_same].
Qed.

(** A successful [add_predictor] puts the predictor into the list and
    counts it. *)
Lemma add_predictor_counts (V : Type) (p : Sdm.Predictor V) (conf : bool)
      (d d' : Sdm.DesignMatrix V) (n : Z) :
  od_get "NrOfPredictors" (Sdm._header d) = Ok (HInt n) ->
  Sdm.add_predictor p conf d = (Ok tt, d') ->
  length (Sdm._predictors d') = S (length (Sdm._predictors d))
  /\ In p (Sdm._predictors d')
  /\ od_get "NrOfPredictors" (Sdm._header d') = Ok (HInt (n + 1)).
Proof.
  intros Hn. unfold Sdm.add_predictor.
  destruct (Sdm.add_position V p conf (Sdm._header d)) as [pos|e]; [|discriminate].
  unfold Sdm.add_counters. rewrite Hn.
  set (h1 := if hval_eq_int (HInt n) 0 then _ else _).
  assert (Hn1 : od_get "NrOfPredictors" h1 = Ok (HInt n)).
  { subst h1. destruct (hval_eq_int (HInt n) 0); [|exact Hn].
    rewrite od_get_set_other by discriminate. exact Hn. }
  unfold od_incr. rewrite Hn1. simpl.
  assert (Hlen : forall l : list (Sdm.Predictor V),
             length (insert_py pos p l) = S (length l) /\ In p (insert_py pos p l)).
  { intros l. unfold insert_py. split.
    - rewrite length_app. simpl. rewrite length_take, length_drop. lia.
    - apply in_or_app. right. now left. }
  destruct conf.
  - intros [= <-]. simpl. repeat split; try apply Hlen. apply od_get_set_same.
  - rewrite od_get_set_other by discriminate.
    destruct (od_get "FirstConfoundPredictor" h1) as [[z| |]|]; simpl; try discriminate.
    intros [= <-]. simpl. repeat split; try apply Hlen.
    rewrite od_get_set_other by discriminate. apply od_get_set_same.
Qed.

(** C5. [add_contrast] on a valid contrast returns normally and counts
    the contrast in [NrOfContrasts], but no statement of it appends to
    [_contrasts]: on the empty definition the counter becomes 1 while the
    body still has no record, and in general the body after the call is
    the body before it. *)
Theorem add_contrast_counts_without_appending :
  Ctr.add_contrast contrast_ab Ctr.clear
  = (Ok tt, {| Ctr._header := [("FileVersion"%string, HInt 1);
                               ("NrOfContrasts"%string, HInt 1);
                               ("NrOfValues"%string, HInt 2)];
               Ctr._contrasts := [] |})
  /\ (forall c d, Ctr._contrasts (snd (Ctr.add_contrast c d)) = Ctr._contrasts d).
Proof.
  split; [reflexivity|apply add_contrast_body].
Qed.

(** C3. On the design matrix built by [add_study] the MTC study is
    refused and nothing changes.  On the design matrix loaded from the
    file of that same document it is accepted: [load] takes the header
    from [lines[:counter-1]], which leaves out the [NrOfStudies] line
    directly above the first study, so the loaded header counts no study
    although the body holds one, and the guard of [add_study] does not
    fire.  The body then mixes a VTC and an MTC study. *)
Theorem add_study_after_load_accepts_mixed :
  Mdm.add_study study_mtc mdm_one = (Raise ValueError, mdm_one)
  /\ fst (Mdm.load (Py.readlines mdm_one_file)) = Ok tt
  /\ Mdm._studies mdm_loaded = [study_vtc]
  /\ od_get "NrOfStudies" (Mdm._header mdm_loaded) = Ok (HInt 0)
  /\ fst (Mdm.add_study study_mtc mdm_loaded) = Ok tt
  /\ Mdm._studies (snd (Mdm.add_study study_mtc mdm_loaded))
     = [study_vtc; study_mtc].
Proof.
  repeat split; vm_compute; reflexivity.
Qed.

(** *** Documents built by the add operations

    On a document that was set up empty and filled by add calls the
    header records what the guards need, so there the refusal is
    triggered by the records added before. *)

Lemma mdm_consistent_clear : mdm_consistent Mdm.clear.
Proof.
  exists "VTC"%string. repeat split; try reflexivity. constructor.
Qed.

Lemma add_study_consistent (s : Mdm.Study) (d : Mdm.DesignMatrix) :
  mdm_consistent d -> mdm_consistent (snd (Mdm.add_study s d)).
Proof.
  intros (t & Hn & Ht & Hall & Hempty).
  unfold Mdm.add_study, Mdm.check_type, Mdm.holds_other.
  rewrite Hn, Ht. simpl.
  assert (Hkind : Mdm._studies d <> [] -> t = "VTC"%string \/ t = "MTC"%string).
  { intros Hne. destruct (Mdm._studies d) as [|s0 l]; [congruence|].
    inversion Hall as [|? ? Hs0 _]; subst. unfold study_kind.
    destruct (1 <? length (Mdm.data_files s0))%nat; auto. }
  assert (Hlen : forall l : list Mdm.Study,
             (0 <? Z.of_nat (length l)) = false -> l = []).
  { intros [|x l] H; [reflexivity|]. simpl in H.
    destruct (Z.ltb_spec 0 (Z.pos (Pos.of_succ_nat (length l)))); [discriminate|lia]. }
  assert (Hincr : forall h, od_get "NrOfStudies" h
                            = Ok (HInt (Z.of_nat (length (Mdm._studies d)))) ->
             od_incr "NrOfStudies" h
             = Ok (od_set "NrOfStudies"
                     (HInt (Z.of_nat (length (Mdm._studies d ++ [s])))) h)).
  { intros h Hh. unfold od_incr. rewrite Hh. simpl.
    rewrite length_app. simpl. do 3 f_equal. lia. }
  assert (Hsingle : forall k, study_kind s = k ->
                               Forall (fun x => study_kind x = k) [s])
    by (intros k Hk; constructor; [exact Hk|constructor]).
  assert (Hnonempty : Mdm._studies d ++ [s] = [] -> False)
    by (destruct (Mdm._studies d); discriminate).
  destruct (1 <? length (Mdm.data_files s))%nat eqn:Hs.
  - assert (Hks : study_kind s = "MTC"%string)
      by (unfold study_kind; now rewrite Hs).
    destruct (0 <? Z.of_nat (length (Mdm._studies d))) eqn:Hpos; simpl.
    + assert (Hne : Mdm._studies d <> [])
        by (intros H; rewrite H in Hpos; discriminate).
      destruct (String.eqb t "VTC") eqn:Hvtc; simpl.
      * exists t. auto.
      * destruct (Hkind Hne) as [->| ->]; [discriminate|].
        rewrite Hincr by (now rewrite od_get_set_other by discriminate).
        simpl. exists "MTC"%string. simpl. rewrite od_get_set_same.
        rewrite od_get_set_other by discriminate. rewrite od_get_set_same.
        split; [reflexivity|]. split; [reflexivity|]. split.
        -- apply Forall_app. split; [assumption|now apply Hsingle].
        -- intros H. now apply Hnonempty in H.
    + rewrite Hincr by (now rewrite od_get_set_other by discriminate).
      simpl. exists "MTC"%string. simpl. rewrite od_get_set_same.
      rewrite od_get_set_other by discriminate. rewrite od_get_set_same.
      rewrite (Hlen _ Hpos).
      split; [reflexivity|]. split; [reflexivity|]. split.
      * now apply Hsingle.
      * discriminate.
  - assert (Hks : study_kind s = "VTC"%string)
      by (unfold study_kind; now rewrite Hs).
    destruct (0 <? Z.of_nat (length (Mdm._studies d))) eqn:Hpos; simpl.
    + assert (Hne : Mdm._studies d <> [])
        by (intros H; rewrite H in Hpos; discriminate).
      destruct (String.eqb t "MTC") eqn:Hmtc; simpl.
      * exists t. auto.
      * destruct (Hkind Hne) as [->| ->]; [|discriminate].
        rewrite Hincr by assumption. simpl. exists "VTC"%string. simpl.
        rewrite od_get_set_same. rewrite od_get_set_other by discriminate.
        split; [reflexivity|]. split; [assumption|]. split.
        -- apply Forall_app. split; [assumption|now apply Hsingle].
        -- intros H. now apply Hnonempty in H.
    + rewrite Hincr by assumption. simpl. exists t. simpl.
      rewrite od_get_set_same. rewrite od_get_set_other by discriminate.
      assert (Hnil := Hlen _ Hpos). rewrite Hnil in *.
      split; [reflexivity|]. split; [assumption|]. split.
      * apply Hsingle. rewrite Hks. symmetry. now apply Hempty.
      * discriminate.
Qed.

(** On a consistent design matrix a study of another kind than a study
    of the body is refused, and the refused call changes nothing. *)
Lemma add_study_refuses_other_kind (s s' : Mdm.Study) (d : Mdm.DesignMatrix) :
  mdm_consistent d ->
  In s' (Mdm._studies d) ->
  study_kind s <> study_kind s' ->
  Mdm.add_study s d = (Raise ValueError, d).
Proof.
  intros (t & Hn & Ht & Hall & _) Hin Hne.
  rewrite Forall_forall in Hall. apply list_elem_of_In in Hin.
  assert (Hs' := Hall s' Hin).
  apply (add_study_rejects s d (Z.of_nat (length (Mdm._studies d))) t);
    try assumption.
  - destruct (Mdm._studies d); [inversion Hin|simpl; lia].
  - rewrite <- Hs'. revert Hne. unfold study_kind.
    destruct (1 <? length (Mdm.data_files s))%nat,
             (1 <? length (Mdm.data_files s'))%nat; congruence.
Qed.

Lemma add_contrast_first (c : Ctr.Contrast) :
  fst (Ctr.add_contrast c Ctr.clear) = Ok tt
  /\ ctr_fixed (Z.of_nat (length (Ctr.data c)))
               (snd (Ctr.add_contrast c Ctr.clear)).
Proof.
  split; [reflexivity|]. exists 1. repeat split; try reflexivity; lia.
Qed.

Lemma add_contrast_fixed (len : Z) (c : Ctr.Contrast)
      (d : Ctr.ContrastsDefinition) :
  ctr_fixed len d -> ctr_fixed len (snd (Ctr.add_contrast c d)).
Proof.
  intros (n & Hn & Hpos & Hv). unfold Ctr.add_contrast. rewrite Hn. simpl.
  destruct (Z.eqb_spec n 0); [lia|].
  rewrite Hv. simpl.
  destruct (len =? Z.of_nat (length (Ctr.data c))); simpl.
  - unfold od_incr. rewrite Hn. simpl. exists (n + 1). simpl.
    rewrite od_get_set_same. rewrite od_get_set_other by discriminate.
    repeat split; try assumption; lia.
  - exists n. auto.
Qed.

Lemma add_contrast_refuses_other_length (len : Z) (c : Ctr.Contrast)
      (d : Ctr.ContrastsDefinition) :
  ctr_fixed len d ->
  Z.of_nat (length (Ctr.data c)) <> len ->
  Ctr.add_contrast c d = (Raise ValueError, d).
Proof.
  intros (n & Hn & Hpos & Hv) Hne.
  apply (add_contrast_rejects c d n len); try assumption; lia.
Qed.

Lemma add_predictor_first (V : Type) (p : Sdm.Predictor V) (conf : bool) :
  fst (Sdm.add_predictor p conf Sdm.clear) = Ok tt
  /\ sdm_fixed (Z.of_nat (length (Sdm.data p)))
               (snd (Sdm.add_predictor p conf Sdm.clear)).
Proof.
  destruct conf; (split; [reflexivity|]).
  - exists 1, 1. repeat split; try reflexivity; lia.
  - exists 1, 2. repeat split; try reflexivity; lia.
Qed.

Lemma add_predictor_fixed (V : Type) (len : Z) (p : Sdm.Predictor V)
      (conf : bool) (d : Sdm.DesignMatrix V) :
  sdm_fixed len d -> sdm_fixed len (snd (Sdm.add_predictor p conf d)).
Proof.
  intros (n & f & Hn & Hpos & Hv & Hf).
  unfold Sdm.add_predictor.
  destruct (Sdm.add_position V p conf (Sdm._header d));
    [|exists n, f; auto].
  unfold Sdm.add_counters. rewrite Hn. simpl.
  destruct (Z.eqb_spec n 0); [lia|].
  unfold od_incr. rewrite Hn. simpl.
  destruct conf; simpl.
  - exists (n + 1), f. simpl. rewrite od_get_set_same.
    rewrite !od_get_set_other by discriminate.
    repeat split; try assumption; lia.
  - rewrite od_get_set_other by discriminate. rewrite Hf. simpl.
    exists (n + 1), (f + 1). simpl. rewrite od_get_set_same.
    rewrite !od_get_set_other by discriminate. rewrite od_get_set_same.
    repeat split; try lia.
    now rewrite !od_get_set_other by discriminate.
Qed.

Lemma add_predictor_refuses_other_length (V : Type) (len : Z)
      (p : Sdm.Predictor V) (conf : bool) (d : Sdm.DesignMatrix V) :
  sdm_fixed len d ->
  Z.of_nat (length (Sdm.data p)) <> len ->
  Sdm.add_predictor p conf d = (Raise ValueError, d).
Proof.
  intros (n & f & Hn & Hpos & Hv & Hf) Hne.
  apply (add_predictor_rejects V p conf d n len); try assumption; lia.
Qed.

(** ** Stimulation protocols: the store *)

Lemma alter_at_lookup {A : Type} (f g : A -> A) (l : nat) (hp : list A) (c : A) :
  hp !! l = Some c -> f c = g c -> alter f l hp = alter g l hp.
Proof.
  revert l. induction hp as [|x hp IH]; intros [|l] H Hfg; simpl in *;
    try discriminate.
  - injection H as ->. now rewrite Hfg.
  - f_equal. now apply IH.
Qed.

Lemma alter_all_length f ls hp : length (alter_all f ls hp) = length hp.
Proof.
  revert hp. induction ls as [|l ls IH]; intros hp; simpl; [reflexivity|].
  unfold alter_all in *. simpl. rewrite IH. apply length_alter.
Qed.

Lemma alter_all_outside f ls hp x :
  ~ In x ls -> alter_all f ls hp !! x = hp !! x.
Proof.
  revert hp. induction ls as [|l ls IH]; intros hp Hx; [reflexivity|].
  unfold alter_all in *. simpl. rewrite IH by (intros H; apply Hx; now right).
  apply list_lookup_alter_ne. intros ->. apply Hx. now left.
Qed.

Lemma alter_all_once f ls hp x :
  NoDup ls -> In x ls -> alter_all f ls hp !! x = f <$> hp !! x.
Proof.
  intros Hnd. revert hp. induction Hnd as [|l ls Hl Hnd IH]; intros hp Hx.
  - destruct Hx.
  - unfold alter_all in *. simpl. destruct Hx as [->|Hx].
    + fold (alter_all f ls (alter f x hp)).
      rewrite alter_all_outside by (now rewrite <- list_elem_of_In).
      apply list_lookup_alter_eq.
    + rewrite IH by assumption.
      rewrite list_lookup_alter_ne; [reflexivity|].
      intros ->. apply Hl. now apply list_elem_of_In.
Qed.

(** ** [convert_to_msec] *)

Lemma convert_rows_ok (tr : Z) (rows : list (list Z)) :
  Forall (fun r => (2 <= length r)%nat) rows ->
  Prt.convert_rows tr rows = (Ok tt, map (conv_row tr) rows).
Proof.
  induction 1 as [|r rows Hr _ IH]; [reflexivity|].
  destruct r as [|a [|b t]]; simpl in Hr; try lia.
  simpl. now rewrite IH.
Qed.

Lemma has_intervals_converted (tr : Z) (c : Prt.Condition) :
  has_intervals c -> has_intervals (converted tr c).
Proof.
  unfold has_intervals, converted. simpl. intros H. apply Forall_map.
  eapply Forall_impl; [exact H|]. simpl. intros r Hr.
  destruct r as [|a [|b t]]; simpl in *; lia.
Qed.

Lemma convert_conditions_ok (tr : Z) (ls : list Prt.loc) :
  forall hp hd cs,
    (forall l, In l ls -> exists c, hp !! l = Some c /\ has_intervals c) ->
    Prt.convert_conditions tr ls
      {| Prt.heap := hp; Prt._header := hd; Prt._conditions := cs |}
    = (Ok tt, {| Prt.heap := alter_all (converted tr) ls hp;
                 Prt._header := hd; Prt._conditions := cs |}).
Proof.
  induction ls as [|l ls IH]; intros hp hd cs Hwf; [reflexivity|].
  destruct (Hwf l (or_introl eq_refl)) as (c & Hc & Hrows).
  simpl. unfold Prt.bind at 1. unfold Prt.deref at 1. simpl. rewrite Hc. simpl.
  rewrite (convert_rows_ok tr _ Hrows).
  unfold Prt.bind at 1. unfold Prt.bind at 1. unfold Prt.store_data. simpl.
  unfold Prt.lift. simpl.
  rewrite (alter_at_lookup (Prt.set_data (map (conv_row tr) (Prt.data c)))
             (converted tr) l hp c Hc eq_refl).
  rewrite IH; [reflexivity|].
  intros l' Hl'. destruct (Hwf l' (or_intror Hl')) as (c' & Hc' & Hrows').
  destruct (Nat.eq_dec l l') as [<-|Hne].
  - exists (converted tr c). split.
    + rewrite list_lookup_alter_eq, Hc. reflexivity.
    + now apply has_intervals_converted.
  - exists c'. split; [|assumption].
    rewrite list_lookup_alter_ne by assumption. assumption.
Qed.

Ltac prt_unfold :=
  unfold Prt.bind, Prt.ret, Prt.lift, Prt.raise, Prt.header_get,
    Prt.header_set, Prt.header_incr, Prt.get_header, Prt.put_header,
    Prt.append_condition, Prt.store_data, Prt.deref;
  simpl.

Lemma convert_conditions_frame (tr : Z) (ls : list Prt.loc) :
  forall w r w',
    Prt.convert_conditions tr ls w = (r, w') ->
    Prt._header w' = Prt._header w /\ Prt._conditions w' = Prt._conditions w.
Proof.
  induction ls as [|l ls IH]; intros w r w'; simpl.
  - intros [= <- <-]. now split.
  - prt_unfold. destruct (Prt.heap w !! l) as [c|]; simpl.
    + destruct (Prt.convert_rows tr (Prt.data c)) as [[[]|e] d]; simpl.
      * intros H. apply IH in H. simpl in H. exact H.
      * intros [= <- <-]. now split.
    + intros [= <- <-]. now split.
Qed.

(** C7, as the code has it.  With the time unit already [msec] the call
    changes nothing.  Otherwise, for a protocol that lists no [Condition]
    object twice and whose rows all carry an onset and an offset, every
    interval gets the onset [(onset - 1) * tr] and the offset
    [offset * tr], objects outside the protocol are untouched, and the
    time unit becomes [msec].  A second call after a call that returned
    leaves the state of the first. *)
Theorem convert_to_msec_spec :
  (forall (tr : Z) (w : Prt.world),
      Prt.time_units w = Ok (HStr "msec") ->
      Prt.convert_to_msec tr w = (Ok tt, w))
  /\ (forall (tr : Z) (w : Prt.world) (u : hval),
        Prt.time_units w = Ok u ->
        hval_eq_str u "msec" = false ->
        NoDup (Prt._conditions w) ->
        (forall l, In l (Prt._conditions w) ->
                   exists c, Prt.heap w !! l = Some c /\ has_intervals c) ->
        exists w',
          Prt.convert_to_msec tr w = (Ok tt, w')
          /\ Prt._conditions w' = Prt._conditions w
          /\ Prt._header w'
             = od_set "ResolutionOfTime" (HStr "msec") (Prt._header w)
          /\ Prt.time_units w' = Ok (HStr "msec")
          /\ (forall l c, In l (Prt._conditions w) ->
                          Prt.heap w !! l = Some c ->
                          Prt.heap w' !! l = Some (converted tr c))
          /\ (forall l, ~ In l (Prt._conditions w) ->
                        Prt.heap w' !! l = Prt.heap w !! l))
  /\ (forall (tr : Z) (w w' : Prt.world),
        Prt.convert_to_msec tr w = (Ok tt, w') ->
        Prt.convert_to_msec tr w' = (Ok tt, w')).
Proof.
  split; [|split].
  - intros tr w Hu. unfold Prt.time_units in Hu.
    unfold Prt.convert_to_msec. prt_unfold. rewrite Hu. reflexivity.
  - intros tr [hp hd cs] u Hu Hms Hnd Hwf. unfold Prt.time_units in Hu.
    simpl in *.
    eexists. split.
    + unfold Prt.convert_to_msec. prt_unfold. rewrite Hu. simpl. rewrite Hms. cbn [Prt._conditions].
      rewrite (convert_conditions_ok tr cs hp hd cs Hwf). prt_unfold. reflexivity.
    + simpl. repeat split.
      * unfold Prt.time_units. simpl. apply od_get_set_same.
      * intros l c Hl Hc. rewrite alter_all_once by assumption.
        now rewrite Hc.
      * intros l Hl. now apply alter_all_outside.
  - intros tr w w'. unfold Prt.convert_to_msec. prt_unfold.
    destruct (od_get "ResolutionOfTime" (Prt._header w)) as [u|e] eqn:Hu;
      simpl; [|discriminate].
    destruct (hval_eq_str u "msec") eqn:Hms.
    + intros [= <-]. rewrite Hu. simpl. now rewrite Hms.
    + destruct (Prt.convert_conditions tr (Prt._conditions w) w)
        as [[[]|e] w1] eqn:Hcc; simpl; [|discriminate].
      intros [= <-]. simpl. rewrite od_get_set_same. reflexivity.
Qed.

Lemma convert_to_msec_spec_witness :
  exists w',
    Prt.convert_to_msec 2000 protocol_ab = (Ok tt, w')
    /\ Prt._conditions w' = Prt._conditions protocol_ab
    /\ Prt._header w'
       = od_set "ResolutionOfTime" (HStr "msec") (Prt._header protocol_ab)
    /\ Prt.time_units w' = Ok (HStr "msec")
    /\ (forall l c, In l (Prt._conditions protocol_ab) ->
                    Prt.heap protocol_ab !! l = Some c ->
                    Prt.heap w' !! l = Some (converted 2000 c))
    /\ (forall l, ~ In l (Prt._conditions protocol_ab) ->
                  Prt.heap w' !! l = Prt.heap protocol_ab !! l).
Proof.
  apply (proj1 (proj2 convert_to_msec_spec) 2000 protocol_ab (HStr "Volumes")).
  - reflexivity.
  - reflexivity.
  - apply (bool_decide_unpack _). vm_compute. exact I.
  - vm_compute. intros l [<-|[<-|[]]]; eexists; split; try reflexivity;
      repeat constructor.
Defined.

(** C7 as stated fails on [protocol_aa]: the loop meets the shared object
    once per entry of the condition list and converts its rows in place
    each time, so the onset 2 becomes [((2 - 1) * 1000 - 1) * 1000], not
    [(2 - 1) * 1000]. *)
Lemma convert_to_msec_shared_object :
  Prt.time_units protocol_aa = Ok (HStr "Volumes")
  /\ Prt.heap protocol_aa !! 0%nat = Some cond_a
  /\ fst (Prt.convert_to_msec 1000 protocol_aa) = Ok tt
  /\ Prt.heap (snd (Prt.convert_to_msec 1000 protocol_aa)) !! 0%nat
     = Some (Prt.set_data [[999000; 3000000]; [6999000; 9000000]] cond_a)
  /\ Prt.heap (snd (Prt.convert_to_msec 1000 protocol_aa)) !! 0%nat
     <> Some (converted 1000 cond_a).
Proof.
  repeat split; try (vm_compute; reflexivity).
  vm_compute. discriminate.
Qed.

(** ** Derived views *)

Section Sorting.

Context {A : Type}.

Lemma insert_keyed_perm (k : Z) (x : A) (l : list (Z * A)) :
  Permutation (Prt.insert_keyed k x l) ((k, x) :: l).
Proof.
  induction l as [|[k' y] l IH]; simpl; [reflexivity|].
  destruct (k <=? k'); [reflexivity|].
  rewrite IH. apply perm_swap.
Qed.

Lemma insert_keyed_sorted (k : Z) (x : A) (l : list (Z * A)) :
  StronglySorted key_le l ->
  StronglySorted key_le (Prt.insert_keyed k x l).
Proof.
  induction 1 as [|[k' y] l Hs IH Hall]; simpl.
  - repeat constructor.
  - destruct (Z.leb_spec k k') as [Hle|Hgt].
    + constructor; [now constructor|].
      constructor; [exact Hle|].
      eapply Forall_impl; [exact Hall|].
      unfold key_le. simpl. intros [k2 z]. simpl. lia.
    + constructor; [exact IH|].
      rewrite (insert_keyed_perm k x l).
      constructor; [unfold key_le; simpl; lia|exact Hall].
Qed.

Lemma sort_keyed_perm (l : list (Z * A)) :
  Permutation (Prt.sort_keyed l) l.
Proof.
  induction l as [|[k x] l IH]; simpl; [reflexivity|].
  rewrite insert_keyed_perm. now constructor.
Qed.

Lemma sort_keyed_sorted (l : list (Z * A)) :
  StronglySorted key_le (Prt.sort_keyed l).
Proof.
  induction l as [|[k x] l IH]; simpl; [constructor|].
  now apply insert_keyed_sorted.
Qed.


Lemma map_res_zip {B : Type} (f : A -> res B) (l : list A) (ys : list B) :
  map_res f l = Ok ys -> Forall (fun p => f (snd p) = Ok (fst p)) (zip ys l).
Proof.
  revert ys. induction l as [|x l IH]; simpl; intros ys.
  - intros [= <-]. constructor.
  - destruct (f x) eqn:Hx; simpl; [|discriminate].
    destruct (map_res f l); simpl; [|discriminate].
    intros [= <-]. simpl. constructor; [exact Hx|]. now apply IH.
Qed.

Lemma map_res_total {B : Type} (f : A -> res B) (g : A -> B) (l : list A) :
  Forall (fun x => f x = Ok (g x)) l -> map_res f l = Ok (map g l).
Proof.
  induction 1 as [|x l Hx _ IH]; simpl; [reflexivity|].
  now rewrite Hx, IH.
Qed.

(** [sorted(l, key=key)] returns a rearrangement of [l] in ascending
    order of the keys. *)
Lemma sorted_by_spec (key : A -> res Z) (g : A -> Z) (l : list A) :
  Forall (fun x => key x = Ok (g x)) l ->
  exists s,
    Prt.sorted_by key l = Ok s
    /\ Permutation s l
    /\ StronglySorted (fun x y => g x <= g y) s.
Proof.
  intros Hkey. unfold Prt.sorted_by.
  rewrite (map_res_total key g l Hkey). simpl.
  eexists. split; [reflexivity|]. split.
  - rewrite sort_keyed_perm. rewrite snd_zip; [reflexivity|].
    rewrite length_map. lia.
  - assert (Hrel : Forall (fun p => fst p = g (snd p))
                          (Prt.sort_keyed (zip (map g l) l))).
    { rewrite sort_keyed_perm. clear. induction l; simpl; constructor; auto. }
    assert (Hs := sort_keyed_sorted (zip (map g l) l)).
    induction Hs as [|p s Hs IH Hall]; simpl; [constructor|].
    inversion Hrel as [|? ? Hp Hrest]; subst.
    constructor; [now apply IH|].
    apply Forall_map.
    rewrite Forall_forall in Hall, Hrest. apply Forall_forall.
    intros q Hq. specialize (Hall q Hq). specialize (Hrest q Hq).
    unfold key_le in Hall. lia.
Qed.

End Sorting.

Lemma shape1_rows {A : Type} (m : list (list A)) (k : nat) :
  Np.shape1 m = Ok k -> Forall (fun r => length r = k) m.
Proof.
  unfold Np.shape1. destruct m as [|r m]; [discriminate|].
  destruct (Np.rectangular (length r) (r :: m)) eqn:Hr; [|discriminate].
  intros [= <-]. unfold Np.rectangular in Hr.
  rewrite forallb_forall in Hr. apply Forall_forall. intros x Hx.
  apply list_elem_of_In in Hx. apply Hr in Hx. now apply Nat.eqb_eq in Hx.
Qed.

Lemma conditions_ok (w : Prt.world) :
  (forall l, In l (Prt._conditions w) -> exists c, Prt.heap w !! l = Some c) ->
  exists cs, Prt.conditions w = Ok cs
             /\ Forall2 (fun l c => Prt.heap w !! l = Some c) (Prt._conditions w) cs.
Proof.
  unfold Prt.conditions. generalize (Prt._conditions w).
  induction l as [|l ls IH]; intros H; simpl.
  - exists []. split; [reflexivity|constructor].
  - destruct (H l (or_introl eq_refl)) as (c & Hc).
    destruct IH as (cs & Hcs & Hall); [intros; apply H; now right|].
    exists (c :: cs). rewrite Hc, Hcs. simpl. split; [reflexivity|].
    now constructor.
Qed.

Lemma events_of_ok (hp : list Prt.Condition) (ls : list Prt.loc)
      (cs : list Prt.Condition) :
  Forall2 (fun l c => hp !! l = Some c) ls cs ->
  Prt.events_of hp ls = Ok (flat_events cs).
Proof.
  induction 1 as [|l c ls cs Hc _ IH]; simpl; [reflexivity|].
  rewrite Hc, IH. reflexivity.
Qed.

Lemma column_ok (x : nat) (m : list (list Z)) (k : nat) :
  Np.shape1 m = Ok k -> (x < k)%nat ->
  Np.column x m = Ok (map (fun r => nth x r 0) m).
Proof.
  intros Hs Hx. unfold Np.column. rewrite Hs. simpl.
  destruct (Nat.ltb_spec x k); [|lia].
  apply map_res_total. eapply Forall_impl; [apply (shape1_rows _ _ Hs)|].
  simpl. intros r Hr. unfold Py.index.
  destruct (r !! x) eqn:E.
  - simpl. f_equal. symmetry. now apply nth_lookup_Some with (d := 0) in E.
  - apply lookup_ge_None in E. lia.
Qed.

Lemma index_nth (r : list Z) (i : nat) :
  (i < length r)%nat -> Py.index r i = Ok (nth i r 0).
Proof.
  intros H. unfold Py.index. destruct (r !! i) eqn:E.
  - simpl. f_equal. symmetry. now apply nth_lookup_Some with (d := 0) in E.
  - apply lookup_ge_None in E. lia.
Qed.

Lemma zip_with_columns (plus : Z) (m : list (list Z)) :
  zip_with (fun off on => off - on + plus)
           (map (fun r => nth 1 r 0) m) (map (fun r => nth 0 r 0) m)
  = map (fun r => row_offset r - row_onset r + plus) m.
Proof.
  induction m as [|r m IH]; simpl; [reflexivity|]. now rewrite IH.
Qed.

Lemma views_general (w : Prt.world) (u : hval) :
  Prt.time_units w = Ok u ->
  interval_grids w ->
  views_with (fun onset offset =>
                if hval_eq_str u "msec" then offset - onset
                else offset - onset + 1) w.
Proof.
  intros Hu Hwf.
  destruct (conditions_ok w) as (cs & Hcs & Hall).
  { intros l Hl. destruct (Hwf l Hl) as (c & k & Hc & _). eauto. }
  assert (Hgrid : Forall (fun c => exists k, Np.shape1 (Prt.data c) = Ok k
                                             /\ (2 <= k)%nat) cs).
  { clear Hcs. unfold interval_grids in Hwf. revert Hwf Hall.
    generalize (Prt._conditions w). intros ls Hwf Hall.
    induction Hall as [|l c ls cs Hc _ IH]; constructor.
    - destruct (Hwf l (or_introl eq_refl)) as (c' & k & Hc' & Hk).
      rewrite Hc in Hc'. injection Hc' as <-. eauto.
    - apply IH. intros; apply Hwf; now right. }
  assert (Hrows : Forall (fun e : Prt.event => (2 <= length (snd e))%nat)
                         (flat_events cs)).
  { clear Hcs Hall. unfold flat_events.
    induction Hgrid as [|c cs (k & Hk & Hk2) _ IH]; simpl; [constructor|].
    apply Forall_app. split; [|exact IH].
    apply Forall_map. simpl.
    eapply Forall_impl; [apply (shape1_rows _ _ Hk)|]. simpl. lia. }
  destruct (sorted_by_spec Prt.event_onset (fun e => row_onset (snd e))
                           (flat_events cs)) as (evs & Hevs & Hperm & Hsorted).
  { eapply Forall_impl; [exact Hrows|]. simpl. intros e He.
    unfold Prt.event_onset, row_onset. apply index_nth. lia. }
  assert (Hel : Prt.event_list w = Ok evs).
  { unfold Prt.event_list. rewrite (events_of_ok _ _ _ Hall). exact Hevs. }
  exists cs, evs. repeat split; try assumption.
  - unfold Prt.event_durations. rewrite Hu, Hel. simpl.
    apply map_res_total. rewrite Hperm.
    eapply Forall_impl; [exact Hrows|]. simpl. intros e He.
    unfold Prt.event_offset, Prt.event_onset, row_onset, row_offset.
    rewrite !index_nth by lia. reflexivity.
  - unfold Prt.condition_durations. rewrite Hu, Hcs. simpl.
    apply map_res_total.
    eapply Forall_impl; [exact Hgrid|]. simpl. intros c (k & Hk & Hk2).
    unfold Prt.column_difference.
    rewrite (column_ok 1 _ k Hk) by lia. simpl.
    rewrite (column_ok 0 _ k Hk) by lia. simpl.
    rewrite zip_with_columns. f_equal.
    apply map_ext. intros r.
    destruct (hval_eq_str u "msec"); lia.
Qed.

(** C8. For a protocol whose conditions are grids of intervals: in
    [msec] the duration views give [offset - onset] for every interval,
    in [Volumes] they give [offset - onset + 1], and the event list holds
    all rows of all conditions in ascending order of the onset. *)
Theorem duration_views :
  (forall w : Prt.world,
      Prt.time_units w = Ok (HStr "msec") ->
      interval_grids w ->
      views_with (fun onset offset => offset - onset) w)
  /\ (forall w : Prt.world,
        Prt.time_units w = Ok (HStr "Volumes") ->
        interval_grids w ->
        views_with (fun onset offset => offset - onset + 1) w).
Proof.
  split; intros w Hu Hwf; exact (views_general w _ Hu Hwf).
Qed.

Lemma duration_views_witness :
  views_with (fun onset offset => offset - onset + 1) protocol_ab.
Proof.
  apply (proj2 duration_views protocol_ab).
  - reflexivity.
  - intros l Hl. vm_compute in Hl.
    destruct Hl as [<-|[<-|[]]]; eexists; exists 2%nat;
      (split; [vm_compute; reflexivity|split; [reflexivity|lia]]).
Defined.

Example event_list_example :
  Prt.event_list protocol_example
  = Ok [("A"%string, [1; 3]); ("B"%string, [5; 6])]
  /\ Prt.condition_durations protocol_example = Ok [[3]; [2]].
Proof. split; reflexivity. Qed.

(** ** [add_condition] and the weight column *)

Lemma shape1_append_ones (d : list (list Z)) (k : nat) :
  Np.shape1 d = Ok k -> Np.shape1 (Prt.append_ones d) = Ok (S k).
Proof.
  intros H. assert (Hr := shape1_rows _ _ H).
  destruct d as [|r d]; [discriminate|].
  unfold Np.shape1, Prt.append_ones. simpl map.
  inversion Hr as [|? ? Hlen Hrest]; subst.
  assert (Hrect : Np.rectangular (length (r ++ [1]))
                    ((r ++ [1]) :: map (fun r0 => r0 ++ [1]) d) = true).
  { unfold Np.rectangular. apply forallb_forall. intros x Hx.
    apply Nat.eqb_eq. destruct Hx as [<-|Hx]; [reflexivity|].
    apply in_map_iff in Hx. destruct Hx as (y & <- & Hy).
    rewrite Forall_forall in Hrest. apply list_elem_of_In in Hy.
    rewrite !length_app, (Hrest y Hy). reflexivity. }
  rewrite Hrect. rewrite length_app. simpl. f_equal. lia.
Qed.

Lemma retrofitted_two (c : Prt.Condition) :
  Np.shape1 (Prt.data c) = Ok 2%nat ->
  retrofitted c = widened c /\ Np.shape1 (Prt.data (widened c)) = Ok 3%nat.
Proof.
  intros H. unfold retrofitted. rewrite H. split; [reflexivity|].
  simpl. now apply shape1_append_ones.
Qed.

Lemma retrofitted_three (c : Prt.Condition) :
  Np.shape1 (Prt.data c) = Ok 3%nat -> retrofitted c = c.
Proof. intros H. unfold retrofitted. now rewrite H. Qed.

Lemma retrofitted_stable (c : Prt.Condition) :
  two_or_three c ->
  Np.shape1 (Prt.data (retrofitted c)) = Ok 3%nat
  /\ retrofitted (retrofitted c) = retrofitted c.
Proof.
  intros [H|H].
  - destruct (retrofitted_two c H) as [-> H3]. split; [exact H3|].
    now apply retrofitted_three.
  - rewrite (retrofitted_three c H). split; [exact H|].
    now apply retrofitted_three.
Qed.

Lemma retrofit_spec (ls : list Prt.loc) :
  forall hp hd cs,
    (forall l, In l ls -> exists c, hp !! l = Some c /\ two_or_three c) ->
    exists hp',
      Prt.retrofit ls {| Prt.heap := hp; Prt._header := hd;
                         Prt._conditions := cs |}
      = (Ok tt, {| Prt.heap := hp'; Prt._header := hd;
                   Prt._conditions := cs |})
      /\ (forall x, In x ls -> hp' !! x = retrofitted <$> hp !! x)
      /\ (forall x, ~ In x ls -> hp' !! x = hp !! x).
Proof.
  induction ls as [|l ls IH]; intros hp hd cs Hwf.
  - exists hp. split; [reflexivity|]. split; [intros x []|reflexivity].
  - destruct (Hwf l (or_introl eq_refl)) as (c & Hc & Hk).
    set (hp1 := alter retrofitted l hp).
    assert (Hstep :
      Prt.retrofit (l :: ls) {| Prt.heap := hp; Prt._header := hd;
                                Prt._conditions := cs |}
      = Prt.retrofit ls {| Prt.heap := hp1; Prt._header := hd;
                           Prt._conditions := cs |}).
    { simpl. prt_unfold. rewrite Hc. simpl.
      destruct Hk as [Hk|Hk]; rewrite Hk; simpl.
      - f_equal. f_equal. subst hp1.
        apply (alter_at_lookup _ _ l hp c Hc).
        now rewrite (proj1 (retrofitted_two c Hk)).
      - f_equal. f_equal. subst hp1. symmetry.
        apply list_eq. intros i. destruct (Nat.eq_dec l i) as [<-|Hne].
        + rewrite list_lookup_alter_eq, Hc. simpl.
          now rewrite (retrofitted_three c Hk).
        + now rewrite list_lookup_alter_ne. }
    assert (Hhp1 : forall x, hp1 !! x
                             = if Nat.eq_dec l x then retrofitted <$> hp !! x
                               else hp !! x).
    { intros x. subst hp1. destruct (Nat.eq_dec l x) as [<-|Hne].
      - apply list_lookup_alter_eq.
      - now apply list_lookup_alter_ne. }
    destruct (IH hp1 hd cs) as (hp' & Hrun & Hin & Hout).
    { intros x Hx. rewrite Hhp1. destruct (Nat.eq_dec l x) as [<-|Hne].
      - rewrite Hc. simpl. eexists. split; [reflexivity|].
        right. apply (retrofitted_stable c Hk).
      - apply Hwf. now right. }
    exists hp'. split; [now rewrite Hstep|]. split.
    + intros x Hx. destruct (In_dec Nat.eq_dec x ls) as [Hxl|Hxl].
      * rewrite (Hin x Hxl), Hhp1.
        destruct (Nat.eq_dec l x) as [<-|Hne]; [|reflexivity].
        rewrite Hc. simpl. f_equal. apply (retrofitted_stable c Hk).
      * rewrite (Hout x Hxl), Hhp1.
        destruct Hx as [<-|Hx]; [|contradiction].
        destruct (Nat.eq_dec l l); [reflexivity|congruence].
    + intros x Hx. rewrite Hout by (intros H; apply Hx; now right).
      rewrite Hhp1. destruct (Nat.eq_dec l x) as [<-|Hne]; [|reflexivity].
      exfalso. apply Hx. now left.
Qed.

(** [add_condition] of [src/src/brainvoyagertools/prt.py] does what C4
    says: with only two-column conditions in the protocol, adding a
    three-column condition widens every condition of the protocol by a
    column of ones, appends the new condition untouched, sets
    [FileVersion] to 3 and [ParametricWeights] to 1 and counts the
    condition. *)
Lemma add_condition_retrofits (w : Prt.world) (l : Prt.loc)
      (c : Prt.Condition) (n : Z) :
  Prt.heap w !! l = Some c ->
  Np.shape1 (Prt.data c) = Ok 3%nat ->
  (forall x, In x (Prt._conditions w) ->
     exists cx, Prt.heap w !! x = Some cx
                /\ Np.shape1 (Prt.data cx) = Ok 2%nat) ->
  od_get "NrOfConditions" (Prt._header w) = Ok (HInt n) ->
  exists w',
    Prt.add_condition l w = (Ok tt, w')
    /\ Prt._conditions w' = Prt._conditions w ++ [l]
    /\ (forall x cx, In x (Prt._conditions w) -> Prt.heap w !! x = Some cx ->
          Prt.heap w' !! x = Some (widened cx)
          /\ Np.shape1 (Prt.data (widened cx)) = Ok 3%nat)
    /\ Prt.heap w' !! l = Some c
    /\ od_get "FileVersion" (Prt._header w') = Ok (HInt 3)
    /\ od_get "ParametricWeights" (Prt._header w') = Ok (HInt 1)
    /\ od_get "NrOfConditions" (Prt._header w') = Ok (HInt (n + 1)).
Proof.
  intros Hc Hk Hwf Hn. destruct w as [hp hd cs]. simpl in *.
  set (hd1 := od_set "ParametricWeights" (HInt 1)
                (od_set "FileVersion" (HInt 3) hd)).
  destruct (retrofit_spec cs hp hd1 cs) as (hp' & Hrun & Hin & Hout).
  { intros x Hx. destruct (Hwf x Hx) as (cx & Hcx & Hkx).
    exists cx. split; [assumption|now left]. }
  assert (Hl : ~ In l cs).
  { intros Hx. destruct (Hwf l Hx) as (cx & Hcx & Hkx). congruence. }
  assert (Hn1 : od_get "NrOfConditions" hd1 = Ok (HInt n)).
  { subst hd1. now rewrite !od_get_set_other by discriminate. }
  eexists. split.
  - unfold Prt.add_condition. prt_unfold. rewrite Hc. simpl. rewrite Hk. simpl.
    fold hd1. rewrite Hrun. prt_unfold. unfold od_incr. rewrite Hn1. simpl.
    reflexivity.
  - simpl. repeat split.
    + rewrite (Hin x H), H0. simpl. f_equal.
      destruct (Hwf x H) as (cx' & Hcx' & Hkx). rewrite H0 in Hcx'.
      injection Hcx' as <-. apply (retrofitted_two cx Hkx).
    + destruct (Hwf x H) as (cx' & Hcx' & Hkx). rewrite H0 in Hcx'.
      injection Hcx' as <-. apply (retrofitted_two cx Hkx).
    + now rewrite (Hout l Hl).
    + rewrite od_get_set_other by discriminate. subst hd1.
      rewrite od_get_set_other by discriminate. apply od_get_set_same.
    + rewrite od_get_set_other by discriminate. subst hd1.
      apply od_get_set_same.
    + apply od_get_set_same.
Qed.

(** [add_condition] of [src/prt/__init__.py] under the same conditions,
    for a protocol that is not empty: the reference appended is the last
    reference of the protocol, never the new one. *)
Lemma old_add_condition_appends_last (w : Prt.world) (l x : Prt.loc)
      (c : Prt.Condition) (n : Z) :
  Prt.heap w !! l = Some c ->
  Np.shape1 (Prt.data c) = Ok 3%nat ->
  (forall y, In y (Prt._conditions w) ->
     exists cy, Prt.heap w !! y = Some cy
                /\ Np.shape1 (Prt.data cy) = Ok 2%nat) ->
  od_get "NrOfConditions" (Prt._header w) = Ok (HInt n) ->
  last (Prt._conditions w) = Some x ->
  exists w',
    PrtOld.add_condition l w = (Ok tt, w')
    /\ Prt._conditions w' = Prt._conditions w ++ [x]
    /\ x <> l
    /\ ~ In l (Prt._conditions w').
Proof.
  intros Hc Hk Hwf Hn Hlast. destruct w as [hp hd cs]. simpl in *.
  set (hd1 := od_set "ParametricWeights" (HInt 1)
                (od_set "FileVersion" (HInt 3) hd)).
  destruct (retrofit_spec cs hp hd1 cs) as (hp' & Hrun & _ & _).
  { intros y Hy. destruct (Hwf y Hy) as (cy & Hcy & Hky).
    exists cy. split; [assumption|now left]. }
  assert (Hl : ~ In l cs).
  { intros Hy. destruct (Hwf l Hy) as (cy & Hcy & Hky). congruence. }
  assert (Hx : In x cs).
  { apply list_elem_of_In. apply last_Some_elem_of. exact Hlast. }
  assert (Hn1 : od_get "NrOfConditions" hd1 = Ok (HInt n)).
  { subst hd1. now rewrite !od_get_set_other by discriminate. }
  eexists. split.
  - unfold PrtOld.add_condition. prt_unfold. rewrite Hc. simpl. rewrite Hk.
    simpl. fold hd1. rewrite Hrun. prt_unfold. rewrite Hlast. simpl.
    unfold od_incr. rewrite Hn1. simpl. reflexivity.
  - simpl. split; [reflexivity|]. split; [congruence|].
    intros Hy. apply in_app_or in Hy. destruct Hy as [Hy|[<-|[]]]; congruence.
Qed.

(** C4. Adding the weighted condition [W] (reference 1) to the protocol
    that holds [A] (reference 0): [add_condition] of
    [src/prt/__init__.py] widens [A], sets the header fields and counts
    two conditions, but the reference it appends is that of [A] again,
    because its retrofit loop reuses the name [condition]; [W] is not in
    the body.  [add_condition] of [src/src/brainvoyagertools/prt.py]
    appends [W]. *)
Theorem add_condition_package_version_appends_wrong_object :
  Prt._conditions old_protocol_a = [0%nat]
  /\ fst (PrtOld.add_condition 1%nat old_protocol_a) = Ok tt
  /\ Prt._conditions (snd (PrtOld.add_condition 1%nat old_protocol_a))
     = [0%nat; 0%nat]
  /\ Prt.heap (snd (PrtOld.add_condition 1%nat old_protocol_a)) !! 0%nat
     = Some (widened cond_a)
  /\ od_get "NrOfConditions"
       (Prt._header (snd (PrtOld.add_condition 1%nat old_protocol_a)))
     = Ok (HInt 2)
  /\ od_get "FileVersion"
       (Prt._header (snd (PrtOld.add_condition 1%nat old_protocol_a)))
     = Ok (HInt 3)
  /\ Prt._conditions (snd (Prt.add_condition 1%nat old_protocol_a))
     = [0%nat; 1%nat].
Proof.
  repeat split; vm_compute; reflexivity.
Qed.

(** ** Combining two conditions *)

(** The name and the colour of a sum are as C9 says. *)
Lemma Condition_add_name_colour (a b c : Prt.Condition) :
  Prt.Condition_add a b = Ok c ->
  Prt.name c = (Prt.name a +:+ "+" +:+ Prt.name b)%string
  /\ exists ra ga ba rb gb bb,
       Prt.colour a !! 0%nat = Some ra /\ Prt.colour a !! 1%nat = Some ga
       /\ Prt.colour a !! 2%nat = Some ba
       /\ Prt.colour b !! 0%nat = Some rb /\ Prt.colour b !! 1%nat = Some gb
       /\ Prt.colour b !! 2%nat = Some bb
       /\ Prt.colour c = [Z.min (ra + rb) 255; Z.min (ga + gb) 255;
                          Z.min (ba + bb) 255].
Proof.
  unfold Prt.Condition_add, Prt.colour_sum, Py.index.
  destruct (Prt.sort_concatenate _ _) as [d|]; simpl; [|discriminate].
  destruct (Prt.colour a !! 0%nat) as [ra|]; simpl; [|discriminate].
  destruct (Prt.colour b !! 0%nat) as [rb|]; simpl; [|discriminate].
  destruct (Prt.colour a !! 1%nat) as [ga|]; simpl; [|discriminate].
  destruct (Prt.colour b !! 1%nat) as [gb|]; simpl; [|discriminate].
  destruct (Prt.colour a !! 2%nat) as [ba|]; simpl; [|discriminate].
  destruct (Prt.colour b !! 2%nat) as [bb|]; simpl; [|discriminate].
  intros [= <-]. simpl. split; [reflexivity|].
  exists ra, ga, ba, rb, gb, bb. repeat split; reflexivity.
Qed.

(** C9. The name and the clamped colour of a sum are right, but the data
    are not the rows of the two conditions ordered by onset:
    [np.sort(..., axis=0)] orders every column on its own.  The sum of
    [Early] and [Late] pairs the interval (1, 2) with the weight 1 of the
    other condition and (3, 4) with the weight 5; the sum of [Long] and
    [Short] has the intervals (1, 6) and (5, 10), neither of which is a
    row of an operand. *)
Theorem condition_sum_sorts_columns_apart :
  Prt.Condition_add cond_early cond_late
  = Ok {| Prt.name := "Early+Late";
          Prt.data := [[1; 2; 1]; [3; 4; 5]];
          Prt.colour := [255; 30; 0] |}
  /\ ~ In [1; 2; 1] (Prt.data cond_early ++ Prt.data cond_late)
  /\ Prt.Condition_add cond_long cond_short
     = Ok {| Prt.name := "Long+Short";
             Prt.data := [[1; 6]; [5; 10]];
             Prt.colour := [0; 0; 0] |}
  /\ ~ In [1; 6] (Prt.data cond_long ++ Prt.data cond_short).
Proof.
  repeat split; try reflexivity;
    simpl; intros [H|[H|[]]]; discriminate.
Qed.

(** ** Loading into a protocol that is in use *)

(** [load] never drops a condition, whatever the file: every operation
    it is made of leaves the condition list as it is or appends to it. *)
Definition grows {A : Type} (m : Prt.M A) : Prop :=
  forall w, Prt._conditions w `prefix_of` Prt._conditions (snd (m w)).

Create HintDb grows.

Lemma grows_ret {A : Type} (a : A) : grows (Prt.ret a).
Proof. intros w. reflexivity. Qed.

Lemma grows_raise {A : Type} (e : exn) : grows (@Prt.raise A e).
Proof. intros w. reflexivity. Qed.

Lemma grows_lift {A : Type} (r : res A) : grows (Prt.lift r).
Proof. intros w. reflexivity. Qed.

Lemma grows_bind {A B : Type} (m : Prt.M A) (k : A -> Prt.M B) :
  grows m -> (forall a, grows (k a)) -> grows (Prt.bind m k).
Proof.
  intros Hm Hk w. unfold Prt.bind. specialize (Hm w).
  destruct (m w) as [[a|e] w1]; simpl in *; [|exact Hm].
  etransitivity; [exact Hm|apply Hk].
Qed.

Lemma grows_try_index (m : Prt.M unit) : grows m -> grows (Prt.try_index m).
Proof.
  intros Hm w. unfold Prt.try_index. specialize (Hm w).
  destruct (m w) as [[a|[]] w1]; exact Hm.
Qed.

Lemma grows_get_header : grows Prt.get_header.
Proof. intros w. reflexivity. Qed.

Lemma grows_put_header (h : header) : grows (Prt.put_header h).
Proof. intros w. reflexivity. Qed.

Lemma grows_deref (l : Prt.loc) : grows (Prt.deref l).
Proof. intros w. reflexivity. Qed.

Lemma grows_store_data (l : Prt.loc) (d : list (list Z)) :
  grows (Prt.store_data l d).
Proof. intros w. reflexivity. Qed.

Lemma grows_new_condition (n : string) (d : list (list Z)) (col : list Z) :
  grows (Prt.new_condition n d col).
Proof. intros w. reflexivity. Qed.

Lemma grows_append_condition (l : Prt.loc) : grows (Prt.append_condition l).
Proof. intros w. simpl. now apply prefix_app_r. Qed.

Lemma grows_read_conditions :
  grows (fun w : Prt.world => (Ok (Prt._conditions w), w)).
Proof. intros w. reflexivity. Qed.

#[local] Hint Resolve grows_ret grows_raise grows_lift grows_try_index
  grows_get_header grows_put_header grows_deref grows_store_data
  grows_new_condition grows_append_condition grows_read_conditions : grows.

Ltac grows_step :=
  repeat first
    [ apply grows_bind; [|intros ?]
    | match goal with
      | |- grows (if ?b then _ else _) => destruct b
      | |- grows (let (_, _) := ?p in _) => destruct p
      | |- grows (match ?r with Ok _ => _ | Raise _ => _ end) => destruct r
      end
    | solve [auto with grows] ].

Lemma grows_header_set (k : string) (v : hval) : grows (Prt.header_set k v).
Proof. unfold Prt.header_set. grows_step. Qed.

Lemma grows_header_get (k : string) : grows (Prt.header_get k).
Proof. unfold Prt.header_get. grows_step. Qed.

Lemma grows_header_incr (k : string) : grows (Prt.header_incr k).
Proof. unfold Prt.header_incr. grows_step. Qed.

#[local] Hint Resolve grows_header_set grows_header_get grows_header_incr
  : grows.

Lemma grows_retrofit (ls : list Prt.loc) : grows (Prt.retrofit ls).
Proof. induction ls as [|l ls IH]; simpl; grows_step. Qed.

Lemma grows_weighted : grows Prt.weighted.
Proof. unfold Prt.weighted. grows_step. Qed.

#[local] Hint Resolve grows_retrofit grows_weighted : grows.

Lemma grows_add_condition (l : Prt.loc) : grows (Prt.add_condition l).
Proof. unfold Prt.add_condition. grows_step. Qed.

#[local] Hint Resolve grows_add_condition : grows.

Lemma grows_load_header (lines : list string) : grows (Prt.load_header lines).
Proof. induction lines as [|line rest IH]; simpl; grows_step. Qed.

Lemma grows_advance (counter : Z) (ne : option Z) :
  grows (Prt.advance counter ne).
Proof. destruct ne; simpl; auto with grows. Qed.

#[local] Hint Resolve grows_load_header grows_advance : grows.

Lemma grows_block_tail (lines : list string) (counter : Z) (n : string)
      (ne : Z) : grows (Prt.block_tail lines counter n ne).
Proof. unfold Prt.block_tail. grows_step. Qed.

#[local] Hint Resolve grows_block_tail : grows.

Lemma grows_load_block (lines : list string) (counter : Z) (prev : option Z) :
  grows (Prt.load_block lines counter prev).
Proof.
  unfold Prt.load_block.
  destruct (Prt.read_count lines counter) as [[n ne]|[]]; grows_step.
Qed.

#[local] Hint Resolve grows_load_block : grows.

Lemma grows_load_blocks (lines : list string) (turns : nat) :
  forall counter prev, grows (Prt.load_blocks lines turns counter prev).
Proof. induction turns as [|turns IH]; intros; simpl; grows_step. Qed.

#[local] Hint Resolve grows_load_blocks : grows.

(** Whatever the file holds and however the call ends, the conditions a
    protocol held before [load] are still the first conditions after
    it. *)
Lemma load_keeps_conditions (raw : list string) (w : Prt.world) :
  Prt._conditions w `prefix_of` Prt._conditions (snd (Prt.load raw w)).
Proof.
  assert (H : grows (Prt.load raw)); [|apply H].
  unfold Prt.load. grows_step.
Qed.

(** C2. [load] of either [prt] module has no [self.clear()], although
    its docstring announces that it overwrites header and conditions.
    Loading the file of [protocol_ab] into [protocol_prior] returns
    normally and leaves the old condition [W] in front of the two loaded
    ones, counts three conditions where the file declares two, and keeps
    [ParametricWeights = 1] of the old header next to [FileVersion = 2]
    of the file.  A load that fails at the first block leaves the header
    of the file with the conditions of the old protocol.  For every file
    and every protocol, the conditions held before the call are still
    the first conditions after it. *)
Theorem prt_load_merges_with_prior_state :
  Prt.save protocol_ab = Ok file_ab
  /\ fst (Prt.load (Py.readlines file_ab) protocol_prior) = Ok tt
  /\ Prt.conditions (snd (Prt.load (Py.readlines file_ab) protocol_prior))
     = Ok [cond_weighted; cond_a; cond_b]
  /\ od_get "NrOfConditions"
       (Prt._header (snd (Prt.load (Py.readlines file_ab) protocol_prior)))
     = Ok (HInt 3)
  /\ od_get "ParametricWeights"
       (Prt._header (snd (Prt.load (Py.readlines file_ab) protocol_prior)))
     = Ok (HInt 1)
  /\ od_get "FileVersion"
       (Prt._header (snd (Prt.load (Py.readlines file_ab) protocol_prior)))
     = Ok (HInt 2)
  /\ PrtOld.load (Py.readlines file_ab) protocol_prior
     = Prt.load (Py.readlines file_ab) protocol_prior
  /\ fst (Prt.load (Py.readlines file_bad_count) protocol_prior)
     = Raise ValueError
  /\ od_get "Experiment"
       (Prt._header
          (snd (Prt.load (Py.readlines file_bad_count) protocol_prior)))
     = Ok (HStr "other")
  /\ Prt.conditions
       (snd (Prt.load (Py.readlines file_bad_count) protocol_prior))
     = Ok [cond_weighted]
  /\ (forall (raw : list string) (w : Prt.world),
        Prt._conditions w `prefix_of` Prt._conditions (snd (Prt.load raw w))).
Proof.
  repeat split; try (vm_compute; reflexivity).
  apply load_keeps_conditions.
Qed.

(** ** Blocks with a declared row count *)












Section ConditionBlock.

(** A block of the [.prt] loader at line [counter]: a name line, then a
    line declaring [n] events. *)
Variables (lines : list string) (counter n : Z).
Variables (name_line count_line : string).
Hypothesis Hcounter : 0 <= counter.
Hypothesis Hname : lines !! Z.to_nat counter = Some name_line.
Hypothesis Hcount : lines !! Z.to_nat (counter + 1) = Some count_line.
Hypothesis Hdeclared : Py.int count_line = Ok n.
Hypothesis Hn : 0 <= n.




(** The list of lines ends before the [n] rows and the colour line are
    through; the rows that are there hold numbers. *)
Hypothesis Hshort : Z.of_nat (length lines) <= counter + 2 + n.
Hypothesis Hpresent :
  forall x line, counter + 2 <= x -> lines !! Z.to_nat x = Some line ->
                 is_ok (Prt.parse_row line) = true.





End ConditionBlock.

Section VoiBlock.

(** A block of the [.voi] loader: line [idx] names the VOI, the next
    line gives its colour and line [idx + 3] declares [n] voxels. *)
Variables (lines : list string) (idx n : Z).
Variables (line colour_line count_line nm colour_text count_text : string).
Variable col : list Z.
Hypothesis Hidx : 0 <= idx.
Hypothesis Hnm : Voi.after_colon line = Ok nm.
Hypothesis Hcolour_line : lines !! Z.to_nat (idx + 1) = Some colour_line.
Hypothesis Hcolour_text : Voi.after_colon colour_line = Ok colour_text.
Hypothesis Hcol : map_res Py.int (Py.split " " colour_text) = Ok col.
Hypothesis Hcount_line : lines !! Z.to_nat (idx + 3) = Some count_line.
Hypothesis Hcount_text : Voi.after_colon count_line = Ok count_text.
Hypothesis Hdeclared : Py.int count_text = Ok n.
Hypothesis Hn : 0 <= n.



Hypothesis Hshort : Z.of_nat (length lines) < idx + 4 + n.
Hypothesis Hpresent :
  forall x row_line, idx + 4 <= x -> lines !! Z.to_nat x = Some row_line ->
                     is_ok (Voi.parse_row row_line) = true.



End VoiBlock.




(** ** Saving what was loaded *)

(** Whatever the text of [repr] is, the package version writes nothing of
    a condition but that text: two protocols with the same header and the
    same references give the same file, whatever the names, rows and
    colours of their conditions. *)
Lemma old_save_ignores_conditions (repr_of : Prt.loc -> string)
      (hp1 hp2 : list Prt.Condition) (hd : header) (cs : list Prt.loc) :
  PrtOld.save repr_of
    {| Prt.heap := hp1; Prt._header := hd; Prt._conditions := cs |}
  = PrtOld.save repr_of
      {| Prt.heap := hp2; Prt._header := hd; Prt._conditions := cs |}.
Proof. reflexivity. Qed.

(** The canonical form does round-trip for a contrasts file and for a
    protocol file of the newer [prt] module. *)
Example ctr_round_trip :
  exists f, Ctr.save ctr_two = Ok f
            /\ Ctr.load (Py.readlines f) = (Ok tt, ctr_two)
            /\ Ctr.save (snd (Ctr.load (Py.readlines f))) = Ok f.
Proof. eexists. repeat split; vm_compute; reflexivity. Qed.

Example prt_round_trip :
  fst (Prt.load (Py.readlines file_ab) new_protocol) = Ok tt
  /\ Prt.save (snd (Prt.load (Py.readlines file_ab) new_protocol))
     = Ok file_ab.
Proof. split; vm_compute; reflexivity. Qed.

(** C1. Three documents whose saved file does not come back.
    - [prt], package version: [_format_conditions] writes
      [repr(condition)] where the newer module writes [str(condition)],
      so the file of a protocol with the condition [A] has one line of
      object text in place of the block; loading it finds no condition,
      and saving the loaded protocol gives another file.
    - [mdm]: the loader skips the [NrOfStudies] line, so the file of a
      one-study design matrix comes back with [NrOfStudies] 0; the file
      of the empty design matrix does not load at all.
    - [ctr]: the empty definition, and a definition filled by
      [add_contrast], cannot be saved: [_format_data] reads [data], which
      raises when the body is empty. *)
Theorem save_after_load_differs :
  PrtOld.save object_repr old_protocol_a = Ok old_file_a
  /\ fst (PrtOld.load (Py.readlines old_file_a) new_protocol) = Ok tt
  /\ Prt._conditions (snd (PrtOld.load (Py.readlines old_file_a) new_protocol))
     = []
  /\ PrtOld.save object_repr
       (snd (PrtOld.load (Py.readlines old_file_a) new_protocol))
     <> Ok old_file_a
  /\ fst (Mdm.load (Py.readlines mdm_one_file)) = Ok tt
  /\ Mdm.save (snd (Mdm.load (Py.readlines mdm_one_file))) <> mdm_one_file
  /\ fst (Mdm.load (Py.readlines (Mdm.save Mdm.clear))) = Raise IndexError
  /\ Ctr.save Ctr.clear = Raise UnboundLocalError
  /\ Ctr.save (snd (Ctr.add_contrast contrast_ab Ctr.clear))
     = Raise UnboundLocalError.
Proof.
  repeat split; try (vm_compute; reflexivity).
  - vm_compute. discriminate.
  - vm_compute. discriminate.
Qed.

(** * Further properties *)

(** ** Single-subject design matrices: the order of the predictors *)

Ltac od_simpl :=
  repeat first [ rewrite od_get_set_same
               | rewrite od_get_set_other by discriminate ].

Lemma insert_py_at {A : Type} (x : A) (l1 l2 : list A) :
  insert_py (Z.of_nat (length l1)) x (l1 ++ l2) = l1 ++ x :: l2.
Proof.
  unfold insert_py.
  destruct (Z.ltb_spec (Z.of_nat (length l1)) 0); [lia|].
  rewrite length_app.
  replace (Z.to_nat (Z.min (Z.of_nat (length l1))
                           (Z.of_nat (length l1 + length l2))))
    with (length l1) by lia.
  now rewrite take_app_length, drop_app_length.
Qed.


Section SdmLayout.

Context {V : Type}.
Variables (n : nat) (mains confs tail : list (Sdm.Predictor V)).
Variable d : Sdm.DesignMatrix V.
Hypothesis Hlayout : sdm_layout n mains confs tail d.
Variable p : Sdm.Predictor V.

Lemma layout_position (conf : bool) :
  length (Sdm.data p) = n ->
  Sdm.add_position V p conf (Sdm._header d)
  = Ok (if conf then Z.of_nat (length (mains ++ confs))
        else Z.of_nat (length mains)).
Proof.
  intros Hp. destruct Hlayout as (Hps & Hall & HN & HF & HC & [v Hv] & Hn).
  unfold Sdm.add_position, Sdm.get_int. rewrite HN. simpl.
  assert (Hcheck :
    (if 0 <? Z.of_nat (length (mains ++ confs ++ tail))
     then res_bind (od_get "NrOfDataPoints" (Sdm._header d))
            (fun v0 => if negb (hval_eq_int v0 (Z.of_nat (length (Sdm.data p))))
                       then Raise ValueError else Ok tt)
     else Ok tt) = Ok tt).
  { destruct (Z.ltb_spec 0 (Z.of_nat (length (mains ++ confs ++ tail))));
      [|reflexivity].
    rewrite Hn by (intros E; rewrite E in *; simpl in *; lia).
    simpl. rewrite Hp, Z.eqb_refl. reflexivity. }
  rewrite Hcheck. simpl. destruct conf.
  - rewrite HC. simpl. f_equal. rewrite !length_app. lia.
  - rewrite HF. simpl. f_equal. lia.
Qed.

Lemma layout_counters (conf : bool) :
  length (Sdm.data p) = n ->
  exists h,
    Sdm.add_counters V p conf (Sdm._header d) = (Ok tt, h)
    /\ od_get "NrOfPredictors" h
       = Ok (HInt (Z.of_nat (S (length (mains ++ confs ++ tail)))))
    /\ od_get "FirstConfoundPredictor" h
       = Ok (HInt (Z.of_nat (length mains + (if conf then 0 else 1)) + 1))
    /\ od_get "IncludesConstant" h = Ok (HInt (Z.of_nat (length tail)))
    /\ od_get "NrOfDataPoints" h = Ok (HInt (Z.of_nat n)).
Proof.
  intros Hp. destruct Hlayout as (Hps & Hall & HN & HF & HC & [v Hv] & Hn).
  unfold Sdm.add_counters. rewrite HN.
  set (h1 := if hval_eq_int _ 0 then _ else _).
  assert (H1 : od_get "NrOfPredictors" h1
               = Ok (HInt (Z.of_nat (length (mains ++ confs ++ tail))))
               /\ od_get "FirstConfoundPredictor" h1
                  = Ok (HInt (Z.of_nat (length mains) + 1))
               /\ od_get "IncludesConstant" h1
                  = Ok (HInt (Z.of_nat (length tail)))
               /\ od_get "NrOfDataPoints" h1 = Ok (HInt (Z.of_nat n))).
  { subst h1. simpl.
    destruct (Z.eqb_spec (Z.of_nat (length (mains ++ confs ++ tail))) 0)
      as [E|E].
    - rewrite !od_get_set_other by discriminate. rewrite od_get_set_same.
      rewrite Hp. auto.
    - repeat split; try assumption. apply Hn. intros E'. rewrite E' in E.
      now apply E. }
  destruct H1 as (HN1 & HF1 & HC1 & HD1).
  unfold od_incr. rewrite HN1. simpl.
  destruct conf.
  - eexists. split; [reflexivity|].
    repeat split; od_simpl; try assumption.
    + do 2 f_equal. lia.
    + rewrite HF1. do 2 f_equal. lia.
  - rewrite od_get_set_other by discriminate. rewrite HF1. simpl.
    eexists. split; [reflexivity|].
    repeat split; od_simpl; try assumption.
    + do 2 f_equal. lia.
    + do 2 f_equal. lia.
Qed.

(** A predictor of interest goes behind the predictors of interest. *)
Lemma layout_add_main :
  length (Sdm.data p) = n ->
  exists d',
    Sdm.add_predictor p false d = (Ok tt, d')
    /\ sdm_layout n (mains ++ [p]) confs tail d'.
Proof.
  intros Hp. unfold Sdm.add_predictor.
  rewrite (layout_position false Hp).
  destruct (layout_counters false Hp) as (h & -> & HN & HF & HC & HD).
  destruct Hlayout as (Hps & Hall & _).
  eexists. split; [reflexivity|].
  assert (Hlist : insert_py (Z.of_nat (length mains)) p (Sdm._predictors d)
                  = (mains ++ [p]) ++ confs ++ tail).
  { rewrite Hps, insert_py_at, <- app_assoc. reflexivity. }
  repeat split; simpl.
  - exact Hlist.
  - rewrite <- app_assoc. simpl. apply Forall_app. apply Forall_app in Hall.
    destruct Hall as [Hm Hrest]. split; [assumption|].
    now constructor.
  - rewrite HN. do 3 f_equal. rewrite !length_app. simpl. lia.
  - rewrite HF. do 2 f_equal. rewrite length_app. simpl. lia.
  - exact HC.
  - eauto.
  - intros _. exact HD.
Qed.

(** A confound goes behind the confounds and in front of the constant. *)
Lemma layout_add_confound :
  length (Sdm.data p) = n ->
  exists d',
    Sdm.add_predictor p true d = (Ok tt, d')
    /\ sdm_layout n mains (confs ++ [p]) tail d'.
Proof.
  intros Hp. unfold Sdm.add_predictor.
  rewrite (layout_position true Hp).
  destruct (layout_counters true Hp) as (h & -> & HN & HF & HC & HD).
  destruct Hlayout as (Hps & Hall & _).
  eexists. split; [reflexivity|].
  assert (Hlist : insert_py (Z.of_nat (length (mains ++ confs))) p
                            (Sdm._predictors d)
                  = mains ++ (confs ++ [p]) ++ tail).
  { rewrite Hps, app_assoc, insert_py_at, <- !app_assoc. reflexivity. }
  repeat split; simpl.
  - exact Hlist.
  - rewrite !app_assoc in Hall. rewrite !app_assoc.
    apply Forall_app in Hall. destruct Hall as [Hmc Ht].
    apply Forall_app. split; [|assumption].
    apply Forall_app. split; [assumption|]. now constructor.
  - rewrite HN. do 3 f_equal. rewrite !length_app. simpl. lia.
  - rewrite HF. do 2 f_equal. lia.
  - exact HC.
  - eauto.
  - intros _. exact HD.
Qed.

End SdmLayout.




(** X2. For a design matrix in this layout that holds a predictor, the
    [data] accessor returns a matrix whose column count is the header's
    [NrOfPredictors] and whose row count is the header's
    [NrOfDataPoints], with the series of predictor [j] as column [j]. *)
Theorem design_matrix_shape_matches_header :
  forall (V : Type) (n : nat) (mains confs tail : list (Sdm.Predictor V))
         (d : Sdm.DesignMatrix V),
    sdm_layout n mains confs tail d ->
    Sdm._predictors d <> [] ->
    exists m,
      Sdm.data_matrix d = Ok m
      /\ od_get "NrOfPredictors" (Sdm._header d)
         = Ok (HInt (Z.of_nat (Np.ncols m)))
      /\ od_get "NrOfDataPoints" (Sdm._header d)
         = Ok (HInt (Z.of_nat (length (Np.rows m))))
      /\ forall i j r p,
           Np.rows m !! i = Some r -> Sdm._predictors d !! j = Some p ->
           r !! j = Sdm.data p !! i.
Proof.
  intros V n mains confs tail d (Hps & Hall & HN & _ & _ & _ & Hn) Hne.
  destruct (stack_columns_spec n (map Sdm.data (Sdm._predictors d)))
    as (m & Hm & Hc & Hr & _ & He).
  - destruct (Sdm._predictors d); [congruence|discriminate].
  - rewrite Hps. now apply Forall_map.
  - exists m. unfold Sdm.data_matrix. rewrite Hm.
    rewrite length_map in Hc. repeat split.
    + rewrite HN, Hc, Hps. reflexivity.
    + rewrite Hr. apply Hn. now rewrite <- Hps.
    + intros i j r p Hi Hj. apply (He i j r (Sdm.data p) Hi).
      now rewrite list_lookup_fmap, Hj.
Qed.

Lemma design_matrix_shape_matches_header_witness :
  exists m,
    Sdm.data_matrix
      (snd (Sdm.add_predictor
              {| Sdm.name := "task"; Sdm.data := [0; 1; 0]; Sdm.colour := [] |}
              false Sdm.clear)) = Ok m
    /\ od_get "NrOfPredictors"
         (Sdm._header
            (snd (Sdm.add_predictor
                    {| Sdm.name := "task"; Sdm.data := [0; 1; 0];
                       Sdm.colour := [] |} false Sdm.clear)))
       = Ok (HInt (Z.of_nat (Np.ncols m))).
Proof.
  destruct (design_matrix_shape_matches_header Z 3%nat
              [ {| Sdm.name := "task"; Sdm.data := [0; 1; 0];
                   Sdm.colour := [] |} ] [] []
              (snd (Sdm.add_predictor
                      {| Sdm.name := "task"; Sdm.data := [0; 1; 0];
                         Sdm.colour := [] |} false Sdm.clear)))
    as (m & Hm & HN & _).
  - repeat split; try reflexivity.
    + repeat constructor.
    + now exists 3.
  - discriminate.
  - exists m. now split.
Defined.

(** ** Single-subject design matrices: the constant *)

(** X3. [add_constant] on a design matrix without predictors raises (the
    accessor it reads has nothing to return) and changes nothing.  On a
    design matrix in the layout above that holds a predictor and no
    constant it appends a series of [n] ones as the last predictor and
    sets [IncludesConstant]; predictors added afterwards go in front of
    the constant. *)
Theorem add_constant_goes_last :
  (forall (V : Type) (one : V) (h : header),
      Sdm.add_constant one {| Sdm._header := h; Sdm._predictors := [] |}
      = (Raise UnboundLocalError,
         {| Sdm._header := h; Sdm._predictors := [] |}))
  /\ (forall (V : Type) (one : V) (n : nat)
             (mains confs : list (Sdm.Predictor V)) (d : Sdm.DesignMatrix V),
        sdm_layout n mains confs [] d ->
        Sdm._predictors d <> [] ->
        exists d',
          Sdm.add_constant one d = (Ok tt, d')
          /\ Sdm._predictors d'
             = Sdm._predictors d ++ [constant_predictor one n]
          /\ sdm_layout n mains confs [constant_predictor one n] d'
          /\ forall (p : Sdm.Predictor V) (conf : bool),
               length (Sdm.data p) = n ->
               exists d'',
                 Sdm.add_predictor p conf d' = (Ok tt, d'')
                 /\ last (Sdm._predictors d'')
                    = Some (constant_predictor one n)).
Proof.
  split; [reflexivity|].
  intros V one n mains confs d Hd Hne.
  destruct (design_matrix_shape_matches_header V n mains confs [] d Hd Hne)
    as (m & Hm & _ & HD & _).
  assert (Hrows : length (Np.rows m) = n).
  { destruct Hd as (Hps & _ & _ & _ & _ & _ & Hn).
    rewrite Hn in HD by (now rewrite <- Hps).
    injection HD as HD. lia. }
  assert (Hlen : length (Sdm.data (constant_predictor one n)) = n)
    by apply repeat_length.
  destruct (layout_add_confound n mains confs [] d Hd
              (constant_predictor one n) Hlen) as (d1 & Hrun & Hd1).
  assert (Hd' : sdm_layout n mains confs [constant_predictor one n]
                  {| Sdm._header := od_set "IncludesConstant" (HInt 1)
                                      (Sdm._header d1);
                     Sdm._predictors := Sdm._predictors d1 |}).
  { destruct Hd1 as (Hps & Hall & HN & HF & HC & [v Hv] & Hn).
    assert (E : (confs ++ [constant_predictor one n]) ++ []
                = confs ++ [constant_predictor one n]) by apply app_nil_r.
    rewrite E in Hps, Hall, HN, Hn.
    assert (Hn' := Hn ltac:(destruct mains, confs; discriminate)).
    repeat split; simpl; od_simpl; try assumption; try reflexivity.
    eauto. }
  eexists. split.
  - unfold Sdm.add_constant. rewrite Hm, Hrows.
    change {| Sdm.name := "Constant"; Sdm.data := repeat one n;
              Sdm.colour := take 3 [255; 255; 255] |}
      with (constant_predictor one n).
    rewrite Hrun. reflexivity.
  - split; [|split; [exact Hd'|]].
    + simpl. rewrite (proj1 Hd1), (proj1 Hd), !app_nil_r.
      now rewrite <- app_assoc.
    + intros p conf Hp. destruct conf.
      * destruct (layout_add_confound n mains confs _ _ Hd' p Hp)
          as (d2 & Hrun2 & Hd2).
        exists d2. split; [exact Hrun2|].
        rewrite (proj1 Hd2), !app_assoc. apply last_snoc.
      * destruct (layout_add_main n mains confs _ _ Hd' p Hp)
          as (d2 & Hrun2 & Hd2).
        exists d2. split; [exact Hrun2|].
        rewrite (proj1 Hd2), !app_assoc. apply last_snoc.
Qed.

Lemma add_constant_goes_last_witness :
  exists d',
    Sdm.add_constant 1
      (snd (Sdm.add_predictor
              {| Sdm.name := "P1"; Sdm.data := [0; 1; 0; 1]; Sdm.colour := [] |}
              false Sdm.clear)) = (Ok tt, d')
    /\ map Sdm.data (Sdm._predictors d') = [[0; 1; 0; 1]; [1; 1; 1; 1]].
Proof.
  destruct (proj2 add_constant_goes_last Z 1 4%nat
              [ {| Sdm.name := "P1"; Sdm.data := [0; 1; 0; 1];
                   Sdm.colour := [] |} ] []
              (snd (Sdm.add_predictor
                      {| Sdm.name := "P1"; Sdm.data := [0; 1; 0; 1];
                         Sdm.colour := [] |} false Sdm.clear)))
    as (d' & Hrun & Hps & _).
  - repeat split; try reflexivity.
    + repeat constructor.
    + now exists 4.
  - discriminate.
  - exists d'. split; [exact Hrun|]. rewrite Hps. reflexivity.
Defined.

(** ** Single-subject design matrices: derivatives *)







(** ** Multi-subject design matrices: the options *)

Lemma od_get_some_set (k k' : string) (v : hval) (h : header) :
  is_ok (od_get k h) = true -> is_ok (od_get k (od_set k' v h)) = true.
Proof.
  intros H. destruct (String.eqb_spec k k') as [->|Hne].
  - now rewrite od_get_set_same.
  - now rewrite od_get_set_other.
Qed.

(** X5. The options of a multi-subject design matrix.  Setting
    [transformation] to [psc] or [z], in any mix of upper and lower
    case, is read back as that name in lower case and leaves exactly one
    of the two flags at 1; any other value raises [ValueError] and
    changes nothing.  [rfx_glm] and [separate_predictors] read back the
    boolean that was set.  None of the setters touches the studies. *)
Theorem mdm_options_read_back :
  (forall (value : string) (d d' : Mdm.DesignMatrix),
      Mdm.set_transformation value d = (Ok tt, d') ->
      Mdm.transformation d' = Ok (Some (Py.lower value))
      /\ (Py.lower value = "psc" \/ Py.lower value = "z")%string
      /\ od_get "PSCTransformation" (Mdm._header d')
         = Ok (HInt (if String.eqb (Py.lower value) "psc" then 1 else 0))
      /\ od_get "zTransformation" (Mdm._header d')
         = Ok (HInt (if String.eqb (Py.lower value) "z" then 1 else 0))
      /\ Mdm._studies d' = Mdm._studies d)
  /\ (forall (value : string) (d : Mdm.DesignMatrix),
        Py.lower value <> "psc"%string -> Py.lower value <> "z"%string ->
        Mdm.set_transformation value d = (Raise ValueError, d))
  /\ (forall (value : bool) (d : Mdm.DesignMatrix),
        Mdm.rfx_glm (Mdm.set_rfx_glm value d) = Ok value
        /\ Mdm._studies (Mdm.set_rfx_glm value d) = Mdm._studies d)
  /\ (forall (value : bool) (d : Mdm.DesignMatrix),
        Mdm.separate_predictors (Mdm.set_separate_predictors value d)
        = Ok value
        /\ Mdm._studies (Mdm.set_separate_predictors value d)
           = Mdm._studies d).
Proof.
  split; [|split; [|split]].
  - intros value d d'. unfold Mdm.set_transformation.
    destruct (String.eqb_spec (Py.lower value) "psc") as [E|E].
    + intros [= <-]. rewrite E. unfold Mdm.transformation. simpl.
      od_simpl. simpl. repeat split; auto.
    + destruct (String.eqb_spec (Py.lower value) "z") as [E'|E'];
        [|discriminate].
      intros [= <-]. rewrite E'. unfold Mdm.transformation. simpl.
      od_simpl. simpl. od_simpl. simpl. repeat split; auto.
  - intros value d H1 H2. unfold Mdm.set_transformation.
    destruct (String.eqb_spec (Py.lower value) "psc"); [contradiction|].
    destruct (String.eqb_spec (Py.lower value) "z"); [contradiction|].
    reflexivity.
  - intros value d. unfold Mdm.rfx_glm, Mdm.set_rfx_glm. simpl.
    rewrite od_get_set_same. now destruct value.
  - intros value d. unfold Mdm.separate_predictors, Mdm.set_separate_predictors.
    simpl. rewrite od_get_set_same. now destruct value.
Qed.

Lemma mdm_options_read_back_witness :
  Mdm.transformation (snd (Mdm.set_transformation "Z" Mdm.clear))
  = Ok (Some "z"%string).
Proof.
  apply (proj1 mdm_options_read_back "Z"%string Mdm.clear
               (snd (Mdm.set_transformation "Z" Mdm.clear))).
  reflexivity.
Defined.

(** ** Multi-subject design matrices: the studies *)

Lemma study_kind_cases (s : Mdm.Study) :
  study_kind s = "VTC"%string \/ study_kind s = "MTC"%string.
Proof. unfold study_kind. destruct (1 <? _)%nat; auto. Qed.

Lemma add_study_accepts_same_kind (s : Mdm.Study) (d : Mdm.DesignMatrix) :
  mdm_consistent d ->
  (forall s', In s' (Mdm._studies d) -> study_kind s = study_kind s') ->
  exists d', Mdm.add_study s d = (Ok tt, d')
             /\ Mdm._studies d' = Mdm._studies d ++ [s].
Proof.
  intros (t & Hn & Ht & Hall & Hempty) Hsame.
  assert (Hgo : forall h, od_get "NrOfStudies" h
                          = Ok (HInt (Z.of_nat (length (Mdm._studies d)))) ->
            exists h', od_incr "NrOfStudies" h = Ok h').
  { intros h Hh. unfold od_incr. rewrite Hh. simpl. eauto. }
  assert (Hclash : forall other,
             other <> study_kind s ->
             Mdm.holds_other other (Mdm._header d) = Ok false).
  { intros other Hother. unfold Mdm.holds_other. rewrite Hn. simpl.
    destruct (Z.ltb_spec 0 (Z.of_nat (length (Mdm._studies d))));
      [|reflexivity].
    rewrite Ht. simpl. f_equal.
    destruct (Mdm._studies d) as [|s' l] eqn:El; [simpl in *; lia|].
    inversion Hall as [|? ? Hs' _]; subst.
    rewrite <- (Hsame s' (or_introl eq_refl)).
    apply String.eqb_neq. congruence. }
  unfold Mdm.add_study, Mdm.check_type.
  destruct (1 <? length (Mdm.data_files s))%nat eqn:Hs.
  - rewrite Hclash by (unfold study_kind; rewrite Hs; discriminate). simpl.
    destruct (Hgo (od_set "TypeOfFunctionalData" (HStr "MTC") (Mdm._header d)))
      as [h' ->]; [now rewrite od_get_set_other by discriminate|].
    eexists. split; reflexivity.
  - rewrite Hclash by (unfold study_kind; rewrite Hs; discriminate). simpl.
    destruct (Hgo (Mdm._header d) Hn) as [h' ->].
    eexists. split; reflexivity.
Qed.

Lemma add_studies_filter (s0 : Mdm.Study) (ss : list Mdm.Study) :
  forall d,
    mdm_consistent d ->
    Mdm._studies d <> [] ->
    Forall (fun s => study_kind s = study_kind s0) (Mdm._studies d) ->
    mdm_consistent (add_studies ss d)
    /\ Mdm._studies (add_studies ss d)
       = Mdm._studies d ++ List.filter (same_kind s0) ss.
Proof.
  induction ss as [|s ss IH]; intros d Hd Hne Hall.
  - simpl. rewrite app_nil_r. now split.
  - unfold add_studies in *. simpl.
    pose proof (add_study_consistent s d Hd) as Hd1.
    unfold same_kind at 1.
    destruct (String.eqb_spec (study_kind s) (study_kind s0)) as [E|E].
    + destruct (add_study_accepts_same_kind s d Hd) as (d' & Hrun & Hps).
      { intros s' Hs'. rewrite Forall_forall in Hall.
        rewrite E. symmetry. apply Hall. now apply list_elem_of_In. }
      rewrite Hrun in *. simpl in *.
      destruct (IH d' Hd1) as [Hc Hs].
      * rewrite Hps. destruct (Mdm._studies d); discriminate.
      * rewrite Hps. apply Forall_app. split; [assumption|].
        now repeat constructor.
      * split; [exact Hc|]. rewrite Hs, Hps, <- app_assoc. reflexivity.
    + assert (Hs' : exists s', In s' (Mdm._studies d)).
      { destruct (Mdm._studies d) as [|s' l]; [congruence|].
        exists s'. now left. }
      destruct Hs' as [s' Hs'].
      rewrite (add_study_refuses_other_kind s s' d Hd Hs').
      * simpl. now apply IH.
      * rewrite Forall_forall in Hall.
        rewrite (Hall s'); [exact E|now apply list_elem_of_In].
Qed.

(** X6. A multi-subject design matrix filled from empty by [add_study]
    calls, refused calls being skipped: the first study is accepted and
    fixes the kind of functional data; the body then holds exactly the
    studies of that kind, in the order of the calls, [NrOfStudies] is
    their number and [TypeOfFunctionalData] names their kind. *)
Theorem first_study_fixes_the_kind :
  forall (s0 : Mdm.Study) (ss : list Mdm.Study),
    Mdm._studies (add_studies (s0 :: ss) Mdm.clear)
    = s0 :: List.filter (same_kind s0) ss
    /\ od_get "NrOfStudies" (Mdm._header (add_studies (s0 :: ss) Mdm.clear))
       = Ok (HInt (Z.of_nat (S (length (List.filter (same_kind s0) ss)))))
    /\ od_get "TypeOfFunctionalData"
         (Mdm._header (add_studies (s0 :: ss) Mdm.clear))
       = Ok (HStr (study_kind s0)).
Proof.
  intros s0 ss. unfold add_studies. simpl.
  destruct (add_study_accepts_same_kind s0 Mdm.clear mdm_consistent_clear)
    as (d1 & Hrun & Hps); [intros s' []|].
  pose proof (add_study_consistent s0 Mdm.clear mdm_consistent_clear) as Hd1.
  rewrite Hrun in *. simpl in *.
  destruct (add_studies_filter s0 ss d1 Hd1) as [Hc Hs].
  - rewrite Hps. discriminate.
  - rewrite Hps. now repeat constructor.
  - unfold add_studies in *. rewrite Hps in Hs. simpl in Hs.
    split; [exact Hs|].
    destruct Hc as (t & Hn & Ht & Hall & _).
    rewrite Hs in Hn, Hall. split; [exact Hn|].
    rewrite Ht. inversion Hall; subst. reflexivity.
Qed.

(** ** Stimulation protocols: one column count *)

Lemma two_or_three_widened (c : Prt.Condition) :
  Np.shape1 (Prt.data c) = Ok 2%nat -> two_or_three (widened c).
Proof. intros H. right. apply (retrofitted_two c H). Qed.

Lemma two_or_three_retrofitted (c : Prt.Condition) :
  two_or_three c -> two_or_three (retrofitted c).
Proof. intros H. right. apply (retrofitted_stable c H). Qed.

Lemma add_condition_keeps_invariant (w : Prt.world) (l : Prt.loc) :
  protocol_invariant w ->
  is_Some (Prt.heap w !! l) ->
  exists w',
    Prt.add_condition l w = (Ok tt, w')
    /\ protocol_invariant w'
    /\ Prt._conditions w' = Prt._conditions w ++ [l]
    /\ length (Prt.heap w') = length (Prt.heap w).
Proof.
  destruct w as [hp hd cs]. intros (Hheap & Hvalid & HN & fv & pw & Hfv & Hpw & Huni) [c Hc].
  simpl in *.
  assert (Hcs : forall x, In x cs -> exists cx, hp !! x = Some cx /\ two_or_three cx).
  { intros x Hx. destruct (Hvalid x Hx) as [cx Hcx]. eauto. }
  destruct (Hheap l c Hc) as [Hk|Hk].
  - (* a condition of two columns *)
    destruct (hval_eq_int fv 3 && hval_eq_int pw 1) eqn:Hw.
    + (* the protocol is weighted: the new condition is widened *)
      eexists. split.
      * unfold Prt.add_condition, Prt.weighted. prt_unfold.
        rewrite Hc. simpl. rewrite Hk. simpl. rewrite Hfv. simpl.
        apply andb_true_iff in Hw. destruct Hw as [Hw1 Hw2].
        rewrite Hw1. prt_unfold. rewrite Hpw. simpl. rewrite Hw2. simpl.
        unfold od_incr. rewrite HN. simpl. reflexivity.
      * simpl. split; [|split; [reflexivity|apply length_alter]].
        assert (Hl : ~ In l cs).
        { intros Hx. destruct (Huni l Hx) as (cx & Hcx & Hkx). simpl in *.
          congruence. }
        repeat split; simpl.
        -- intros i ci Hi. destruct (Nat.eq_dec l i) as [<-|Hne].
           ++ rewrite list_lookup_alter_eq, Hc in Hi. injection Hi as <-.
              now apply two_or_three_widened.
           ++ rewrite list_lookup_alter_ne in Hi by assumption. eauto.
        -- intros x Hx. destruct (Nat.eq_dec l x) as [<-|Hne].
           ++ rewrite list_lookup_alter_eq, Hc. simpl. eauto.
           ++ rewrite list_lookup_alter_ne by assumption.
              apply in_app_or in Hx. destruct Hx as [Hx|[<-|[]]]; [|congruence].
              now apply Hvalid.
        -- od_simpl. rewrite length_app. simpl. do 2 f_equal. lia.
        -- exists fv, pw. od_simpl. rewrite Hw. repeat split; try assumption.
           intros x Hx. simpl in *. destruct (Nat.eq_dec l x) as [<-|Hne].
           ++ rewrite list_lookup_alter_eq, Hc. simpl. eexists. split; [reflexivity|].
              apply (retrofitted_two c Hk).
           ++ rewrite list_lookup_alter_ne by assumption.
              apply in_app_or in Hx. destruct Hx as [Hx|[<-|[]]]; [|congruence].
              now apply Huni.
    + (* no weights: nothing is changed *)
      eexists. split.
      * unfold Prt.add_condition, Prt.weighted. prt_unfold.
        rewrite Hc. simpl. rewrite Hk. simpl. rewrite Hfv. simpl.
        destruct (hval_eq_int fv 3) eqn:Hw1.
        -- prt_unfold. rewrite Hpw. simpl. simpl in Hw. rewrite Hw. simpl.
           unfold od_incr. rewrite HN. simpl. reflexivity.
        -- prt_unfold. unfold od_incr. rewrite HN. simpl. reflexivity.
      * simpl. split; [|split; reflexivity].
        repeat split; simpl.
        -- assumption.
        -- intros x Hx. apply in_app_or in Hx.
           destruct Hx as [Hx|[<-|[]]]; [now apply Hvalid|eauto].
        -- od_simpl. rewrite length_app. simpl. do 2 f_equal. lia.
        -- exists fv, pw. od_simpl. rewrite Hw. repeat split; try assumption.
           intros x Hx. simpl in *. apply in_app_or in Hx.
           destruct Hx as [Hx|[<-|[]]]; [now apply Huni|eauto].
  - (* a condition of three columns: the protocol is retrofitted *)
    set (hd1 := od_set "ParametricWeights" (HInt 1)
                  (od_set "FileVersion" (HInt 3) hd)).
    destruct (retrofit_spec cs hp hd1 cs Hcs) as (hp' & Hrun & Hin & Hout).
    assert (HN1 : od_get "NrOfConditions" hd1
                  = Ok (HInt (Z.of_nat (length cs)))).
    { subst hd1. now od_simpl. }
    assert (Hlookup : forall x, hp' !! x = hp !! x
                                \/ hp' !! x = retrofitted <$> hp !! x).
    { intros x. destruct (In_dec Nat.eq_dec x cs); [right|left]; auto. }
    assert (Hl : hp' !! l = Some c).
    { destruct (Hlookup l) as [->| ->]; [assumption|].
      rewrite Hc. simpl. now rewrite (retrofitted_three c Hk). }
    eexists. split.
    + unfold Prt.add_condition. prt_unfold. rewrite Hc. simpl. rewrite Hk.
      simpl. fold hd1. rewrite Hrun. prt_unfold. unfold od_incr.
      rewrite HN1. simpl. reflexivity.
    + simpl. split; [|split; [reflexivity|]].
      * repeat split; simpl.
        -- intros i ci Hi. destruct (Hlookup i) as [E|E]; rewrite E in Hi.
           ++ eauto.
           ++ destruct (hp !! i) as [c0|] eqn:E0; [|discriminate].
              injection Hi as <-. apply two_or_three_retrofitted. eauto.
        -- intros x Hx. apply in_app_or in Hx.
           destruct Hx as [Hx|[<-|[]]]; [|rewrite Hl; eauto].
           rewrite (Hin x Hx). destruct (Hvalid x Hx) as [cx ->]. simpl. eauto.
        -- od_simpl. rewrite length_app. simpl. do 2 f_equal. lia.
        -- exists (HInt 3), (HInt 1). subst hd1. od_simpl.
           repeat split. simpl. intros x Hx. simpl in *.
           apply in_app_or in Hx. destruct Hx as [Hx|[<-|[]]]; [|eauto].
           rewrite (Hin x Hx). destruct (Hcs x Hx) as (cx & -> & Hkx).
           simpl. eexists. split; [reflexivity|].
           apply (retrofitted_stable cx Hkx).
      * assert (Hlen : forall a b : list Prt.Condition,
                   (forall x, a !! x = b !! x \/ a !! x = retrofitted <$> b !! x) ->
                   length a = length b).
        { clear. intros a b H.
          destruct (Nat.lt_trichotomy (length a) (length b)) as [Hlt|[E|Hgt]];
            [|exact E|].
          - destruct (lookup_lt_is_Some_2 b (length a) Hlt) as [y Hy].
            destruct (H (length a)) as [E|E]; rewrite Hy in E; simpl in E;
              apply lookup_lt_Some in E; lia.
          - destruct (lookup_lt_is_Some_2 a (length b) Hgt) as [y Hy].
            destruct (H (length b)) as [E|E]; rewrite Hy in E;
              rewrite (proj2 (lookup_ge_None b (length b))) in E by lia;
              discriminate. }
        now apply Hlen.
Qed.

Lemma add_conditions_keep_invariant (ls : list Prt.loc) :
  forall w,
    protocol_invariant w ->
    (forall l, In l ls -> (l < length (Prt.heap w))%nat) ->
    exists w',
      add_conditions ls w = (Ok tt, w')
      /\ protocol_invariant w'
      /\ Prt._conditions w' = Prt._conditions w ++ ls.
Proof.
  induction ls as [|l ls IH]; intros w Hinv Hvalid.
  - exists w. simpl. rewrite app_nil_r. now split.
  - destruct (add_condition_keeps_invariant w l Hinv)
      as (w1 & Hrun & Hinv1 & Hcs1 & Hlen1).
    { apply lookup_lt_is_Some_2. apply Hvalid. now left. }
    destruct (IH w1 Hinv1) as (w' & Hrun' & Hinv' & Hcs').
    { intros x Hx. rewrite Hlen1. apply Hvalid. now right. }
    exists w'. simpl. unfold Prt.bind. rewrite Hrun.
    split; [exact Hrun'|]. split; [exact Hinv'|].
    now rewrite Hcs', Hcs1, <- app_assoc.
Qed.

(** X7. A protocol set up by [StimulationProtocol(name, units)] and
    filled by any sequence of [add_condition] calls with conditions of
    two or three columns (the same object may be added more than once):
    every call returns, the protocol lists the conditions in the order of
    the calls, [NrOfConditions] is their number, and at the end all
    conditions of the protocol have one and the same number of columns,
    two or three. *)
Theorem conditions_share_one_column_count :
  forall (store : list Prt.Condition) (ls : list Prt.loc)
         (experiment_name time_units : string),
    (time_units = "Volumes" \/ time_units = "msec")%string ->
    Forall two_or_three store ->
    Forall (fun l => (l < length store)%nat) ls ->
    exists (w : Prt.world) (k : nat),
      Prt.bind (Prt.init experiment_name time_units)
               (fun _ => add_conditions ls)
               {| Prt.heap := store; Prt._header := [];
                  Prt._conditions := [] |}
      = (Ok tt, w)
      /\ Prt._conditions w = ls
      /\ od_get "NrOfConditions" (Prt._header w)
         = Ok (HInt (Z.of_nat (length ls)))
      /\ (k = 2 \/ k = 3)%nat
      /\ uniform_columns k w.
Proof.
  intros store ls name units Hunits Hstore Hls.
  set (w0 := {| Prt.heap := store;
                Prt._header :=
                  od_set "ResolutionOfTime" (HStr units)
                    (od_set "Experiment" (HStr name) Prt.default_header);
                Prt._conditions := [] |}).
  assert (Hinit : Prt.init name units
                    {| Prt.heap := store; Prt._header := [];
                       Prt._conditions := [] |} = (Ok tt, w0)).
  { unfold Prt.init. destruct Hunits as [-> | ->]; reflexivity. }
  assert (Hinv : protocol_invariant w0).
  { repeat split.
    - intros i c Hi. rewrite Forall_forall in Hstore. apply Hstore.
      eapply list_elem_of_lookup_2; eauto.
    - intros l [].
    - exists (HInt 2), (HInt 0). repeat split. intros l []. }
  destruct (add_conditions_keep_invariant ls w0 Hinv)
    as (w & Hrun & (_ & _ & HN & fv & pw & _ & _ & Huni) & Hcs).
  { intros l Hl. rewrite Forall_forall in Hls. apply Hls.
    now apply list_elem_of_In. }
  exists w. eexists. unfold Prt.bind. rewrite Hinit.
  split; [exact Hrun|]. simpl in Hcs. rewrite Hcs in HN.
  split; [exact Hcs|]. split; [exact HN|]. split; [|exact Huni].
  destruct (hval_eq_int fv 3 && hval_eq_int pw 1); auto.
Qed.

Lemma conditions_share_one_column_count_witness :
  exists (w : Prt.world) (k : nat),
    Prt.bind (Prt.init "untitled" "Volumes")
             (fun _ => add_conditions [0; 1; 0]%nat)
             {| Prt.heap := [cond_a; cond_weighted]; Prt._header := [];
                Prt._conditions := [] |}
    = (Ok tt, w)
    /\ Prt._conditions w = [0; 1; 0]%nat
    /\ od_get "NrOfConditions" (Prt._header w) = Ok (HInt 3)
    /\ (k = 2 \/ k = 3)%nat
    /\ uniform_columns k w.
Proof.
  apply (conditions_share_one_column_count [cond_a; cond_weighted]
           [0; 1; 0]%nat "untitled" "Volumes").
  - now left.
  - apply Forall_cons_2; [left; reflexivity|].
    apply Forall_cons_2; [right; reflexivity|]. apply Forall_nil_2.
  - apply (bool_decide_unpack _). vm_compute. exact I.
Defined.

(** ** Stimulation protocols: durations across [convert_to_msec] *)

Lemma conditions_of_lookups (w : Prt.world) (cs : list Prt.Condition) :
  Forall2 (fun l c => Prt.heap w !! l = Some c) (Prt._conditions w) cs ->
  Prt.conditions w = Ok cs.
Proof.
  unfold Prt.conditions. generalize (Prt._conditions w). intros ls H.
  induction H as [|l c ls cs Hc _ IH]; simpl; [reflexivity|].
  now rewrite Hc, IH.
Qed.

Lemma conv_row_length (tr : Z) (r : list Z) :
  length (conv_row tr r) = length r.
Proof. destruct r as [|a [|b t]]; reflexivity. Qed.

Lemma shape1_converted (tr : Z) (d : list (list Z)) (k : nat) :
  Np.shape1 d = Ok k -> Np.shape1 (map (conv_row tr) d) = Ok k.
Proof.
  unfold Np.shape1. destruct d as [|r d]; [discriminate|].
  destruct (Np.rectangular (length r) (r :: d)) eqn:Hr; [|discriminate].
  intros [= <-]. cbn [map]. rewrite conv_row_length.
  replace (Np.rectangular (length r) (conv_row tr r :: map (conv_row tr) d))
    with true; [reflexivity|].
  symmetry. unfold Np.rectangular in *.
  change (conv_row tr r :: map (conv_row tr) d)
    with (map (conv_row tr) (r :: d)).
  rewrite forallb_forall in *. intros x Hx.
  apply in_map_iff in Hx. destruct Hx as (y & <- & Hy).
  rewrite conv_row_length. now apply Hr.
Qed.

Lemma conv_row_duration (tr : Z) (r : list Z) :
  (2 <= length r)%nat ->
  row_offset (conv_row tr r) - row_onset (conv_row tr r)
  = tr * (row_offset r - row_onset r + 1).
Proof.
  destruct r as [|a [|b t]]; simpl; try lia.
  intros _. unfold row_offset, row_onset. simpl. lia.
Qed.

Lemma flat_events_converted (tr : Z) (cs : list Prt.Condition) :
  flat_events (map (converted tr) cs) = map (conv_event tr) (flat_events cs).
Proof.
  unfold flat_events. induction cs as [|c cs IH]; [reflexivity|].
  cbn [map concat]. rewrite IH, map_app. f_equal.
  unfold converted. simpl. rewrite !map_map. reflexivity.
Qed.

Section SortMonotone.

Context {A B : Type} (f : Z -> Z) (g : A -> B).
Hypothesis f_mono : forall a b, (f a <=? f b) = (a <=? b).

Lemma insert_keyed_map (k : Z) (x : A) (l : list (Z * A)) :
  Prt.insert_keyed (f k) (g x) (map (prod_map f g) l)
  = map (prod_map f g) (Prt.insert_keyed k x l).
Proof.
  induction l as [|[k' y] l IH]; [reflexivity|].
  cbn [map prod_map fst snd Prt.insert_keyed].
  rewrite f_mono. destruct (k <=? k'); [reflexivity|].
  cbn [map prod_map fst snd]. now rewrite IH.
Qed.

Lemma sort_keyed_map (l : list (Z * A)) :
  Prt.sort_keyed (map (prod_map f g) l)
  = map (prod_map f g) (Prt.sort_keyed l).
Proof.
  unfold Prt.sort_keyed.
  induction l as [|[k x] l IH]; [reflexivity|].
  cbn [map foldr prod_map fst snd]. rewrite IH. apply insert_keyed_map.
Qed.

End SortMonotone.

Lemma sorted_events_converted (tr : Z) (l : list Prt.event) :
  0 < tr ->
  Forall (fun e : Prt.event => (2 <= length (snd e))%nat) l ->
  Prt.sorted_by Prt.event_onset (map (conv_event tr) l)
  = res_bind (Prt.sorted_by Prt.event_onset l)
             (fun s => Ok (map (conv_event tr) s)).
Proof.
  intros Htr Hl. unfold Prt.sorted_by.
  rewrite (map_res_total Prt.event_onset (fun e => row_onset (snd e)) l).
  2:{ eapply Forall_impl; [exact Hl|]. simpl. intros e He.
      unfold Prt.event_onset, row_onset. apply index_nth. lia. }
  rewrite (map_res_total Prt.event_onset
             (fun e => row_onset (snd e)) (map (conv_event tr) l)).
  2:{ apply Forall_map. eapply Forall_impl; [exact Hl|]. simpl.
      intros e He. unfold Prt.event_onset, row_onset. apply index_nth.
      rewrite conv_row_length. lia. }
  simpl. f_equal.
  assert (E : zip (map (fun e : Prt.event => row_onset (snd e))
                       (map (conv_event tr) l))
                  (map (conv_event tr) l)
              = map (prod_map (fun k => (k - 1) * tr) (conv_event tr))
                    (zip (map (fun e : Prt.event => row_onset (snd e)) l) l)).
  { clear Htr. induction Hl as [|e l He _ IH]; [reflexivity|].
    cbn [map zip zip_with prod_map fst snd]. rewrite <- IH. f_equal.
    f_equal. destruct e as [n [|a [|b t]]]; simpl in He; try lia.
    reflexivity. }
  rewrite E, sort_keyed_map.
  - rewrite !map_map. reflexivity.
  - intros a b. destruct (Z.leb_spec a b), (Z.leb_spec ((a - 1) * tr) ((b - 1) * tr));
      try reflexivity; nia.
Qed.

Lemma Forall2_lookups_map {A : Type} (P Q : nat -> A -> Prop) (f : A -> A)
      (ls : list nat) (cs : list A) :
  (forall l c, In l ls -> P l c -> Q l (f c)) ->
  Forall2 P ls cs -> Forall2 Q ls (map f cs).
Proof.
  intros H HF. induction HF as [|l c ls cs Hc _ IH]; simpl; constructor.
  - apply H; [now left|exact Hc].
  - apply IH. intros l' c' Hl'. apply H. now right.
Qed.

Lemma grid_rows (w : Prt.world) (cs : list Prt.Condition) :
  interval_grids w ->
  Forall2 (fun l c => Prt.heap w !! l = Some c) (Prt._conditions w) cs ->
  Forall has_intervals cs.
Proof.
  unfold interval_grids. generalize (Prt._conditions w). intros ls Hwf HF.
  induction HF as [|l c ls cs Hc _ IH]; constructor.
  - destruct (Hwf l (or_introl eq_refl)) as (c' & k & Hc' & Hk & Hk2).
    rewrite Hc in Hc'. injection Hc' as <-.
    unfold has_intervals.
    eapply Forall_impl; [apply (shape1_rows _ _ Hk)|]. simpl. lia.
  - apply IH. intros; apply Hwf; now right.
Qed.

(** X8. A protocol in a unit other than [msec] that lists no condition
    twice and whose conditions are grids of intervals: [convert_to_msec]
    returns, and every duration reported afterwards is [tr] times the
    duration reported before, per condition for every [tr]; for a
    positive [tr] the events also keep their order, so the event list is
    the old one with every row converted and the event durations are
    [tr] times the old ones, position by position. *)
Theorem conversion_scales_durations :
  forall (tr : Z) (w : Prt.world) (u : hval),
    Prt.time_units w = Ok u ->
    hval_eq_str u "msec" = false ->
    NoDup (Prt._conditions w) ->
    interval_grids w ->
    exists (w' : Prt.world) (ds : list (list Z)),
      Prt.convert_to_msec tr w = (Ok tt, w')
      /\ Prt.condition_durations w = Ok ds
      /\ Prt.condition_durations w' = Ok (map (map (Z.mul tr)) ds)
      /\ (0 < tr ->
          exists (evs : list Prt.event) (es : list Z),
            Prt.event_list w = Ok evs
            /\ Prt.event_list w' = Ok (map (conv_event tr) evs)
            /\ Prt.event_durations w = Ok es
            /\ Prt.event_durations w' = Ok (map (Z.mul tr) es)).
Proof.
  intros tr w u Hu Hms Hnd Hgrid.
  destruct (views_general w u Hu Hgrid)
    as (cs & evs & Hcs & Hel & Hperm & _ & Hed & Hcd).
  rewrite Hms in Hed, Hcd.
  destruct (conditions_ok w) as (cs1 & Hcs1 & Hall).
  { intros l Hl. destruct (Hgrid l Hl) as (c & k & Hc & _). eauto. }
  rewrite Hcs in Hcs1. injection Hcs1 as <-.
  assert (Hrows := grid_rows w cs Hgrid Hall).
  set (w' := {| Prt.heap := alter_all (converted tr) (Prt._conditions w)
                                      (Prt.heap w);
                Prt._header := od_set "ResolutionOfTime" (HStr "msec")
                                      (Prt._header w);
                Prt._conditions := Prt._conditions w |}).
  assert (Hrun : Prt.convert_to_msec tr w = (Ok tt, w')).
  { unfold Prt.time_units in Hu. destruct w as [hp hd ls]. simpl in *.
    unfold Prt.convert_to_msec. prt_unfold. rewrite Hu. simpl.
    rewrite Hms. cbn [Prt._conditions].
    rewrite (convert_conditions_ok tr ls hp hd ls).
    - prt_unfold. reflexivity.
    - intros l Hl. destruct (Hgrid l Hl) as (c & k & Hc & Hk & Hk2).
      exists c. split; [exact Hc|]. unfold has_intervals.
      eapply Forall_impl; [apply (shape1_rows _ _ Hk)|]. simpl. lia. }
  assert (Hall' : Forall2 (fun l c => Prt.heap w' !! l = Some c)
                          (Prt._conditions w') (map (converted tr) cs)).
  { simpl. eapply Forall2_lookups_map; [|exact Hall].
    intros l c Hl Hc. simpl in Hc.
    rewrite alter_all_once by assumption. now rewrite Hc. }
  assert (Hgrid' : interval_grids w').
  { intros l Hl. simpl in Hl.
    destruct (Hgrid l Hl) as (c & k & Hc & Hk & Hk2).
    exists (converted tr c), k. simpl.
    rewrite alter_all_once by assumption. rewrite Hc.
    split; [reflexivity|]. split; [|exact Hk2].
    now apply shape1_converted. }
  assert (Hu' : Prt.time_units w' = Ok (HStr "msec")).
  { unfold Prt.time_units. simpl. apply od_get_set_same. }
  destruct (views_general w' _ Hu' Hgrid')
    as (cs' & evs' & Hcs' & Hel' & _ & _ & Hed' & Hcd').
  rewrite (conditions_of_lookups w' _ Hall') in Hcs'.
  injection Hcs' as <-.
  change (hval_eq_str (HStr "msec") "msec") with true in Hed', Hcd'.
  cbn iota in Hed', Hcd'.
  exists w'. eexists. split; [exact Hrun|]. split; [exact Hcd|].
  split.
  - rewrite Hcd'. f_equal. rewrite !map_map.
    apply map_ext_Forall. eapply Forall_impl; [exact Hrows|]. simpl.
    intros c Hc. rewrite !map_map.
    apply map_ext_Forall. eapply Forall_impl; [exact Hc|]. simpl.
    intros r Hr. now apply conv_row_duration.
  - intros Htr.
    assert (Hev : Forall (fun e : Prt.event => (2 <= length (snd e))%nat)
                         (flat_events cs)).
    { clear -Hrows. unfold flat_events.
      induction Hrows as [|c cs Hc _ IH]; simpl; [constructor|].
      apply Forall_app. split; [|exact IH].
      apply Forall_map. exact Hc. }
    assert (Hel2 : Prt.event_list w' = Ok (map (conv_event tr) evs)).
    { unfold Prt.event_list in *.
      rewrite (events_of_ok _ _ _ Hall'). rewrite (events_of_ok _ _ _ Hall) in Hel.
      simpl in *. rewrite flat_events_converted.
      rewrite (sorted_events_converted tr _ Htr Hev), Hel. reflexivity. }
    rewrite Hel2 in Hel'. injection Hel' as <-.
    exists evs. eexists. split; [exact Hel|]. split; [exact Hel2|].
    split; [exact Hed|]. rewrite Hed'. f_equal. rewrite !map_map.
    apply map_ext_Forall. rewrite Hperm.
    eapply Forall_impl; [exact Hev|]. simpl.
    intros e He. now apply conv_row_duration.
Qed.

Lemma conversion_scales_durations_witness :
  exists (w' : Prt.world) (ds : list (list Z)),
    Prt.convert_to_msec 2000 protocol_ab = (Ok tt, w')
    /\ Prt.condition_durations protocol_ab = Ok ds
    /\ Prt.condition_durations w' = Ok (map (map (Z.mul 2000)) ds)
    /\ (0 < 2000 ->
        exists (evs : list Prt.event) (es : list Z),
          Prt.event_list protocol_ab = Ok evs
          /\ Prt.event_list w' = Ok (map (conv_event 2000) evs)
          /\ Prt.event_durations protocol_ab = Ok es
          /\ Prt.event_durations w' = Ok (map (Z.mul 2000) es)).
Proof.
  apply (conversion_scales_durations 2000 protocol_ab (HStr "Volumes")).
  - reflexivity.
  - reflexivity.
  - apply (bool_decide_unpack _). vm_compute. exact I.
  - intros l Hl. vm_compute in Hl.
    destruct Hl as [<-|[<-|[]]]; eexists; exists 2%nat;
      (split; [vm_compute; reflexivity|split; [reflexivity|lia]]).
Defined.

(** ** Stimulation protocols: the weights *)

Lemma map_res_raises {A B : Type} (f : A -> res B) (e : exn) (l : list A) :
  Forall (fun x => f x = Raise e \/ exists y, f x = Ok y) l ->
  Exists (fun x => f x = Raise e) l ->
  map_res f l = Raise e.
Proof.
  intros HF HE. induction HF as [|x l Hx _ IH]; [inversion HE|].
  simpl. destruct Hx as [Hx|(y & Hx)]; rewrite Hx; simpl; [reflexivity|].
  rewrite IH; [reflexivity|].
  inversion HE as [? ? H|? ? H]; subst; [congruence|exact H].
Qed.

Lemma grid_shapes (w : Prt.world) (cs : list Prt.Condition) :
  interval_grids w ->
  Forall2 (fun l c => Prt.heap w !! l = Some c) (Prt._conditions w) cs ->
  Forall (fun c => exists k, Np.shape1 (Prt.data c) = Ok k /\ (2 <= k)%nat)
         cs.
Proof.
  unfold interval_grids. generalize (Prt._conditions w). intros ls Hwf HF.
  induction HF as [|l c ls cs Hc _ IH]; constructor.
  - destruct (Hwf l (or_introl eq_refl)) as (c' & k & Hc' & Hk & Hk2).
    rewrite Hc in Hc'. injection Hc' as <-. eauto.
  - apply IH. intros; apply Hwf; now right.
Qed.

Lemma column_missing (m : list (list Z)) (k x : nat) :
  Np.shape1 m = Ok k -> (k <= x)%nat -> Np.column x m = Raise IndexError.
Proof.
  intros Hs Hx. unfold Np.column. rewrite Hs. simpl.
  destruct (Nat.ltb_spec x k); [lia|reflexivity].
Qed.

Lemma index_cases (r : list Z) (i : nat) :
  Py.index r i = Raise IndexError \/ exists y, Py.index r i = Ok y.
Proof.
  unfold Py.index. destruct (r !! i); simpl; eauto.
Qed.

Lemma index_missing (r : list Z) (i : nat) :
  (length r <= i)%nat -> Py.index r i = Raise IndexError.
Proof.
  intros H. unfold Py.index. now rewrite (lookup_ge_None_2 r i H).
Qed.

Lemma event_list_ok (w : Prt.world) :
  interval_grids w ->
  exists (cs : list Prt.Condition) (evs : list Prt.event),
    Prt.conditions w = Ok cs
    /\ Forall (fun c => exists k, Np.shape1 (Prt.data c) = Ok k
                                  /\ (2 <= k)%nat) cs
    /\ Prt.event_list w = Ok evs
    /\ Permutation evs (flat_events cs).
Proof.
  intros Hgrid.
  destruct (conditions_ok w) as (cs & Hcs & Hall).
  { intros l Hl. destruct (Hgrid l Hl) as (c & k & Hc & _). eauto. }
  assert (Hshapes := grid_shapes w cs Hgrid Hall).
  destruct (sorted_by_spec Prt.event_onset (fun e => row_onset (snd e))
                           (flat_events cs)) as (evs & Hevs & Hperm & _).
  { clear -Hshapes. unfold flat_events.
    induction Hshapes as [|c cs (k & Hk & Hk2) _ IH]; simpl; [constructor|].
    apply Forall_app. split; [|exact IH]. apply Forall_map.
    eapply Forall_impl; [apply (shape1_rows _ _ Hk)|]. simpl.
    intros r Hr. unfold Prt.event_onset, row_onset. apply index_nth.
    simpl. lia. }
  exists cs, evs. split; [exact Hcs|]. split; [exact Hshapes|].
  split; [|exact Hperm].
  unfold Prt.event_list. rewrite (events_of_ok _ _ _ Hall). exact Hevs.
Qed.

(** X9. For a protocol whose conditions are grids of intervals:
    when every condition has a weight column, [event_weights] and
    [condition_weights] give the third entry of every row; as soon as
    one condition has only onsets and offsets, both views give the
    weight 1 for every row of every condition, also for the rows that
    carry a weight. *)
Theorem weights_default_to_one :
  forall w : Prt.world,
    interval_grids w ->
    exists (cs : list Prt.Condition) (evs : list Prt.event),
      Prt.conditions w = Ok cs
      /\ Prt.event_list w = Ok evs
      /\ Permutation evs (flat_events cs)
      /\ (Forall weighted_grid cs ->
          Prt.event_weights w
          = Ok (map (fun e : Prt.event => row_weight (snd e)) evs)
          /\ Prt.condition_weights w
             = Ok (map (fun c => map row_weight (Prt.data c)) cs))
      /\ (Exists unweighted_grid cs ->
          Prt.event_weights w = Ok (map (fun _ => 1) evs)
          /\ Prt.condition_weights w
             = Ok (map (fun c => repeat 1 (length (Prt.data c))) cs)).
Proof.
  intros w Hgrid.
  destruct (event_list_ok w Hgrid) as (cs & evs & Hcs & Hshapes & Hel & Hperm).
  exists cs, evs. split; [exact Hcs|]. split; [exact Hel|].
  split; [exact Hperm|]. split.
  - intros Hw. split.
    + unfold Prt.event_weights. rewrite Hel. simpl.
      rewrite (map_res_total _ (fun e : Prt.event => row_weight (snd e))).
      * reflexivity.
      * rewrite Hperm. clear -Hw. unfold flat_events.
        induction Hw as [|c cs (k & Hk & Hk3) _ IH]; simpl; [constructor|].
        apply Forall_app. split; [|exact IH]. apply Forall_map.
        eapply Forall_impl; [apply (shape1_rows _ _ Hk)|]. simpl.
        intros r Hr. apply index_nth. lia.
    + unfold Prt.condition_weights. rewrite Hcs. simpl.
      rewrite (map_res_total _ (fun c => map row_weight (Prt.data c))).
      * reflexivity.
      * eapply Forall_impl; [exact Hw|]. simpl.
        intros c (k & Hk & Hk3). apply (column_ok 2 _ k Hk). lia.
  - intros Hex. split.
    + unfold Prt.event_weights. rewrite Hel. simpl.
      rewrite (map_res_raises _ IndexError).
      * reflexivity.
      * apply Forall_forall. intros x _. apply index_cases.
      * rewrite Hperm. clear -Hex. unfold flat_events.
        induction Hex as [c cs Hc|c cs _ IH]; simpl;
          apply Exists_app; [left|right; exact IH].
        unfold unweighted_grid in Hc.
        assert (Hr := shape1_rows _ _ Hc).
        destruct (Prt.data c) as [|r d]; [discriminate|].
        simpl. apply Exists_cons_hd. simpl.
        apply index_missing. inversion Hr; subst. lia.
    + unfold Prt.condition_weights. rewrite Hcs. simpl.
      rewrite (map_res_raises _ IndexError).
      * reflexivity.
      * eapply Forall_impl; [exact Hshapes|]. simpl.
        intros c (k & Hk & Hk2).
        destruct (Nat.ltb_spec 2 k).
        -- right. eexists. apply (column_ok 2 _ k Hk). lia.
        -- left. apply (column_missing _ k 2 Hk). lia.
      * eapply Exists_impl; [exact Hex|]. simpl.
        intros c Hc. apply (column_missing _ 2 2 Hc). lia.
Qed.

Lemma weights_default_to_one_witness :
  exists (cs : list Prt.Condition) (evs : list Prt.event),
    Prt.conditions protocol_ab = Ok cs
    /\ Prt.event_list protocol_ab = Ok evs
    /\ Permutation evs (flat_events cs)
    /\ (Forall weighted_grid cs ->
        Prt.event_weights protocol_ab
        = Ok (map (fun e : Prt.event => row_weight (snd e)) evs)
        /\ Prt.condition_weights protocol_ab
           = Ok (map (fun c => map row_weight (Prt.data c)) cs))
    /\ (Exists unweighted_grid cs ->
        Prt.event_weights protocol_ab = Ok (map (fun _ => 1) evs)
        /\ Prt.condition_weights protocol_ab
           = Ok (map (fun c => repeat 1 (length (Prt.data c))) cs)).
Proof.
  apply (weights_default_to_one protocol_ab).
  intros l Hl. vm_compute in Hl.
  destruct Hl as [<-|[<-|[]]]; eexists; exists 2%nat;
    (split; [vm_compute; reflexivity|split; [reflexivity|lia]]).
Defined.

(** ** Conditions: the data of a sum *)

Lemma insert_sorted_perm (x : Z) (l : list Z) :
  Permutation (Prt.insert_sorted x l) (x :: l).
Proof.
  induction l as [|y l IH]; simpl; [reflexivity|].
  destruct (x <=? y); [reflexivity|]. rewrite IH. apply perm_swap.
Qed.

Lemma insert_sorted_sorted (x : Z) (l : list Z) :
  StronglySorted Z.le l -> StronglySorted Z.le (Prt.insert_sorted x l).
Proof.
  induction 1 as [|y l Hs IH Hall]; simpl.
  - repeat constructor.
  - destruct (Z.leb_spec x y) as [Hle|Hgt].
    + constructor; [now constructor|]. constructor; [exact Hle|].
      eapply Forall_impl; [exact Hall|]. simpl. lia.
    + constructor; [exact IH|]. rewrite (insert_sorted_perm x l).
      constructor; [lia|exact Hall].
Qed.

Lemma sort_Z_perm (l : list Z) : Permutation (Prt.sort_Z l) l.
Proof.
  induction l as [|x l IH]; simpl; [reflexivity|].
  rewrite insert_sorted_perm. now constructor.
Qed.

Lemma sort_Z_sorted (l : list Z) : StronglySorted Z.le (Prt.sort_Z l).
Proof.
  induction l as [|x l IH]; simpl; [constructor|].
  now apply insert_sorted_sorted.
Qed.

Lemma sort_Z_length (l : list Z) : length (Prt.sort_Z l) = length l.
Proof. apply Permutation_length, sort_Z_perm. Qed.

Lemma sort_axis0_length (k : nat) :
  forall m, length (Prt.sort_axis0 k m) = length m.
Proof.
  induction k as [|k IH]; intros m; simpl; [reflexivity|].
  rewrite length_zip_with, sort_Z_length, IH, !length_map. lia.
Qed.

Lemma zip_with_cons_head (xs : list Z) (ys : list (list Z)) :
  length xs = length ys ->
  grid_column 0 (zip_with cons xs ys) = xs.
Proof.
  revert ys. induction xs as [|x xs IH]; intros [|y ys] H;
    simpl in *; try lia; try reflexivity.
  f_equal. apply IH. lia.
Qed.

Lemma zip_with_cons_tail (j : nat) (xs : list Z) (ys : list (list Z)) :
  length xs = length ys ->
  grid_column (S j) (zip_with cons xs ys) = grid_column j ys.
Proof.
  revert ys. induction xs as [|x xs IH]; intros [|y ys] H;
    simpl in *; try lia; try reflexivity.
  f_equal. apply IH. lia.
Qed.

(** [np.sort(m, axis=0)] sorts every column on its own. *)
Lemma sort_axis0_column (k : nat) :
  forall (j : nat) (m : list (list Z)),
    (j < k)%nat ->
    grid_column j (Prt.sort_axis0 k m) = Prt.sort_Z (grid_column j m).
Proof.
  induction k as [|k IH]; intros j m Hj; [lia|].
  cbn [Prt.sort_axis0]. destruct j as [|j].
  - rewrite zip_with_cons_head.
    + f_equal. unfold grid_column. apply map_ext. now intros [|x r].
    + now rewrite sort_Z_length, sort_axis0_length, !length_map.
  - rewrite zip_with_cons_tail.
    + rewrite IH by lia. f_equal. unfold grid_column. rewrite map_map.
      apply map_ext. intros [|x r]; [now destruct j|reflexivity].
    + now rewrite sort_Z_length, sort_axis0_length, !length_map.
Qed.

Lemma sort_axis0_rows (k : nat) :
  forall m : list (list Z),
    Forall (fun r => length r = k) m ->
    Forall (fun r => length r = k) (Prt.sort_axis0 k m).
Proof.
  induction k as [|k IH]; intros m Hm; [exact Hm|].
  cbn [Prt.sort_axis0].
  assert (Ht : Forall (fun r => length r = k)
                      (Prt.sort_axis0 k (map (fun r => tl r) m))).
  { apply IH. apply Forall_map. eapply Forall_impl; [exact Hm|].
    simpl. intros [|x r]; simpl; lia. }
  revert Ht. generalize (Prt.sort_axis0 k (map (fun r => tl r) m)).
  generalize (Prt.sort_Z (map (fun r => hd 0 r) m)).
  induction l as [|x xs IHx]; intros [|y ys] Hy; simpl; constructor.
  - inversion Hy; subst. simpl. lia.
  - apply IHx. now inversion Hy.
Qed.

Lemma shape1_of_rows (m : list (list Z)) (k : nat) :
  m <> [] -> Forall (fun r => length r = k) m -> Np.shape1 m = Ok k.
Proof.
  intros Hne Hm. unfold Np.shape1. destruct m as [|r m]; [congruence|].
  assert (Hr : length r = k) by now inversion Hm.
  replace (Np.rectangular (length r) (r :: m)) with true;
    [now rewrite Hr|].
  symmetry. unfold Np.rectangular. apply forallb_forall. intros x Hx.
  apply Nat.eqb_eq. rewrite Forall_forall in Hm. rewrite Hr.
  apply Hm. now apply list_elem_of_In.
Qed.

(** X10. The sum of two conditions whose data are grids.  With
    different column counts [np.concatenate] refuses, so the sum raises
    [ValueError].  With the same column count and colours of three
    entries the sum is a condition with all rows of both operands in
    number, the same column count, and every column in ascending order
    and made of exactly the entries of that column in the two operands:
    the columns are sorted one by one. *)
Theorem condition_sum_columns :
  forall (a b : Prt.Condition) (ka kb : nat),
    Np.shape1 (Prt.data a) = Ok ka ->
    Np.shape1 (Prt.data b) = Ok kb ->
    (ka <> kb -> Prt.Condition_add a b = Raise ValueError)
    /\ (ka = kb ->
        (3 <= length (Prt.colour a))%nat ->
        (3 <= length (Prt.colour b))%nat ->
        exists c : Prt.Condition,
          Prt.Condition_add a b = Ok c
          /\ Np.shape1 (Prt.data c) = Ok ka
          /\ length (Prt.data c)
             = (length (Prt.data a) + length (Prt.data b))%nat
          /\ forall j, (j < ka)%nat ->
               StronglySorted Z.le (grid_column j (Prt.data c))
               /\ Permutation (grid_column j (Prt.data c))
                              (grid_column j (Prt.data a)
                               ++ grid_column j (Prt.data b))).
Proof.
  intros a b ka kb Ha Hb. split.
  - intros Hne. unfold Prt.Condition_add, Prt.sort_concatenate.
    rewrite Ha, Hb. apply Nat.eqb_neq in Hne. now rewrite Hne.
  - intros <- Hca Hcb.
    unfold Prt.Condition_add, Prt.sort_concatenate, Prt.colour_sum.
    rewrite Ha, Hb, Nat.eqb_refl. cbn [res_bind].
    rewrite !index_nth by lia. cbn [res_bind].
    eexists. split; [reflexivity|]. cbn [Prt.data].
    assert (Hrows : Forall (fun r => length r = ka)
                           (Prt.data a ++ Prt.data b)).
    { apply Forall_app. split; now apply shape1_rows. }
    split; [|split].
    + apply shape1_of_rows; [|now apply sort_axis0_rows].
      intros E. apply (f_equal length) in E.
      rewrite sort_axis0_length, length_app in E.
      destruct (Prt.data a); [discriminate|]. simpl in E. lia.
    + now rewrite sort_axis0_length, length_app.
    + intros j Hj. rewrite (sort_axis0_column ka j _ Hj). split.
      * apply sort_Z_sorted.
      * rewrite sort_Z_perm. unfold grid_column. now rewrite map_app.
Qed.

Lemma condition_sum_columns_witness :
  (3%nat <> 3%nat -> Prt.Condition_add cond_early cond_late = Raise ValueError)
  /\ (3%nat = 3%nat ->
      (3 <= length (Prt.colour cond_early))%nat ->
      (3 <= length (Prt.colour cond_late))%nat ->
      exists c : Prt.Condition,
        Prt.Condition_add cond_early cond_late = Ok c
        /\ Np.shape1 (Prt.data c) = Ok 3%nat
        /\ length (Prt.data c)
           = (length (Prt.data cond_early) + length (Prt.data cond_late))%nat
        /\ forall j, (j < 3)%nat ->
             StronglySorted Z.le (grid_column j (Prt.data c))
             /\ Permutation (grid_column j (Prt.data c))
                            (grid_column j (Prt.data cond_early)
                             ++ grid_column j (Prt.data cond_late))).
Proof.
  apply (condition_sum_columns cond_early cond_late 3 3); reflexivity.
Defined.

(** ** Integers as text *)

Lemma uint_value_acc (d : Decimal.uint) :
  forall p : positive,
    Z.pos (Pos.of_uint_acc d p) = uint_value d (Z.pos p).
Proof.
  induction d; intros p; simpl; try reflexivity; rewrite IHd; f_equal; lia.
Qed.

Lemma uint_value_of_uint (d : Decimal.uint) :
  Z.of_uint d = uint_value d 0.
Proof.
  unfold Z.of_uint.
  induction d; simpl; try reflexivity; try exact IHd;
    rewrite uint_value_acc; reflexivity.
Qed.

Lemma digits_go_uint (d : Decimal.uint) :
  forall acc : Z,
    Py.digits_go acc true (NilEmpty.string_of_uint d)
    = Some (uint_value d acc).
Proof.
  induction d; intros acc; simpl; try reflexivity;
    rewrite IHd; do 2 f_equal; lia.
Qed.

Lemma digits_go_start (d : Decimal.uint) :
  d <> Decimal.Nil ->
  Py.digits_go 0 false (NilEmpty.string_of_uint d) = Some (Z.of_uint d).
Proof.
  intros Hd. rewrite uint_value_of_uint.
  destruct d; try congruence; simpl; apply digits_go_uint.
Qed.

Lemma lstrip_by_keep (p : ascii -> bool) (l : list ascii) :
  Forall (fun c => p c = false) l -> Py.lstrip_by p l = l.
Proof.
  destruct 1 as [|c l Hc _]; simpl; [reflexivity|]. now rewrite Hc.
Qed.

Lemma strip_by_keep (p : ascii -> bool) (s : string) :
  Forall (fun c => p c = false) (list_ascii_of_string s) ->
  Py.strip_by p s = s.
Proof.
  intros H. unfold Py.strip_by.
  rewrite (lstrip_by_keep p _ H).
  rewrite lstrip_by_keep by (now apply Forall_rev).
  rewrite rev_involutive. apply string_of_list_ascii_of_string.
Qed.

Lemma uint_chars (d : Decimal.uint) :
  Forall (fun c => numeral_char c = true)
         (list_ascii_of_string (NilEmpty.string_of_uint d)).
Proof.
  induction d; simpl; constructor; try reflexivity; exact IHd.
Qed.

Lemma str_of_Z_chars (z : Z) :
  Forall (fun c => numeral_char c = true)
         (list_ascii_of_string (Py.str_of_Z z)).
Proof.
  unfold Py.str_of_Z.
  destruct z as [|p|p]; simpl.
  - repeat constructor.
  - destruct (Pos.to_uint p) eqn:E; try apply uint_chars.
    repeat constructor.
  - constructor; [reflexivity|].
    destruct (Pos.to_uint p) eqn:E; try apply uint_chars.
    repeat constructor.
Qed.

Lemma numeral_not_space (c : ascii) :
  numeral_char c = true -> Py.is_space c = false.
Proof.
  destruct c as [[] [] [] [] [] [] [] []]; vm_compute; congruence.
Qed.

Lemma str_of_Z_strip (z : Z) : Py.strip (Py.str_of_Z z) = Py.str_of_Z z.
Proof.
  apply strip_by_keep.
  eapply Forall_impl; [apply str_of_Z_chars|]. apply numeral_not_space.
Qed.

(** [int(str(z))] is [z]. *)
Lemma int_str (z : Z) : Py.int (Py.str_of_Z z) = Ok z.
Proof.
  unfold Py.int. rewrite str_of_Z_strip. unfold Py.str_of_Z.
  assert (Hz := DecimalZ.of_to z).
  destruct z as [|p|p]; [reflexivity| |].
  - cbn [Z.to_int NilZero.string_of_int] in *. cbn [Z.of_int] in Hz.
    assert (Hn := DecimalPos.Unsigned.to_uint_nonnil p).
    assert (Hd := digits_go_start _ Hn). rewrite Hz in Hd.
    destruct (Pos.to_uint p); try congruence;
      cbn [NilZero.string_of_uint NilEmpty.string_of_uint] in *;
      now rewrite Hd.
  - cbn [Z.to_int NilZero.string_of_int] in *. cbn [Z.of_int] in Hz.
    assert (Hn := DecimalPos.Unsigned.to_uint_nonnil p).
    assert (Hd := digits_go_start _ Hn).
    replace (NilZero.string_of_uint (Pos.to_uint p))
      with (NilEmpty.string_of_uint (Pos.to_uint p))
      by (destruct (Pos.to_uint p); try reflexivity; congruence).
    rewrite Hd. simpl. f_equal. exact Hz.
Qed.

(** ** Text: padding and fields *)

Lemma list_ascii_app (a b : string) :
  list_ascii_of_string (a +:+ b)
  = list_ascii_of_string a ++ list_ascii_of_string b.
Proof. induction a as [|c a IH]; simpl; [reflexivity|]. now rewrite IH. Qed.

Lemma lstrip_by_app (p : ascii -> bool) (pre l : list ascii) :
  Forall (fun c => p c = true) pre ->
  Py.lstrip_by p (pre ++ l) = Py.lstrip_by p l.
Proof.
  induction 1 as [|c pre Hc _ IH]; simpl; [reflexivity|]. now rewrite Hc.
Qed.

Lemma lstrip_by_all (p : ascii -> bool) (l : list ascii) :
  Forall (fun c => p c = true) l -> Py.lstrip_by p l = [].
Proof.
  intros H. rewrite <- (app_nil_r l). now rewrite lstrip_by_app.
Qed.

(** Stripping removes the padding around a text that has none of the
    stripped characters itself. *)
Lemma strip_by_pad (p : ascii -> bool) (pre s post : string) :
  Forall (fun c => p c = true) (list_ascii_of_string pre) ->
  Forall (fun c => p c = false) (list_ascii_of_string s) ->
  Forall (fun c => p c = true) (list_ascii_of_string post) ->
  Py.strip_by p (pre +:+ s +:+ post) = s.
Proof.
  intros Hpre Hs Hpost. unfold Py.strip_by.
  rewrite !list_ascii_app, lstrip_by_app by assumption.
  destruct (list_ascii_of_string s) as [|c l] eqn:E.
  - simpl. rewrite (lstrip_by_all p _ Hpost). simpl.
    destruct s; [reflexivity|discriminate].
  - inversion Hs as [|? ? Hc Hl]; subst. simpl. rewrite Hc.
    change (c :: l ++ list_ascii_of_string post)
      with ((c :: l) ++ list_ascii_of_string post).
    rewrite rev_app_distr.
    rewrite (lstrip_by_app p (rev (list_ascii_of_string post)))
      by (now apply Forall_rev).
    rewrite (lstrip_by_keep p (rev (c :: l))) by (now apply Forall_rev).
    rewrite rev_involutive, <- E. apply string_of_list_ascii_of_string.
Qed.

Lemma spaces_chars (n : nat) :
  Forall (fun c => Py.is_space c = true)
         (list_ascii_of_string (Py.spaces n)).
Proof.
  unfold Py.spaces. rewrite list_ascii_of_string_of_list_ascii.
  induction n; simpl; constructor; [reflexivity|assumption].
Qed.

(** [int] reads a number through blanks before and white space after
    it. *)
Lemma int_padded (n : nat) (z : Z) (post : string) :
  Forall (fun c => Py.is_space c = true) (list_ascii_of_string post) ->
  Py.int (Py.spaces n +:+ Py.str_of_Z z +:+ post) = Ok z.
Proof.
  intros Hpost. rewrite <- (int_str z). unfold Py.int.
  rewrite str_of_Z_strip. unfold Py.strip.
  rewrite strip_by_pad; [reflexivity|apply spaces_chars| |assumption].
  eapply Forall_impl; [apply str_of_Z_chars|]. apply numeral_not_space.
Qed.

(** ** Contrasts: a line of the grid *)

Lemma string_length_app (a b : string) :
  String.length (a +:+ b) = (String.length a + String.length b)%nat.
Proof. induction a as [|c a IH]; simpl; [reflexivity|]. now rewrite IH. Qed.

Lemma three_chars_field (y : Z) : three_chars y -> field_ok y = true.
Proof.
  intros Hy.
  assert (Hall : forallb field_ok
                   (map (fun i => Z.of_nat i - 99) (seq 0 1099)) = true)
    by (vm_compute; reflexivity).
  rewrite forallb_forall in Hall. apply Hall.
  apply in_map_iff. exists (Z.to_nat (y + 99)). unfold three_chars in Hy.
  split; [lia|]. apply in_seq. lia.
Qed.

Lemma field_shape (y : Z) :
  three_chars y ->
  exists a b c,
    Py.rjust 3 (Py.str_of_Z y) = String a (String b (String c EmptyString))
    /\ Py.mem_char (String (ascii_of_nat 13) Py.nl) a = false.
Proof.
  intros Hy. apply three_chars_field in Hy. unfold field_ok in Hy.
  destruct (Py.rjust 3 (Py.str_of_Z y)) as [|a [|b [|c [|]]]];
    try discriminate.
  exists a, b, c. split; [reflexivity|].
  now destruct (Py.mem_char _ a).
Qed.

Lemma strip_chars_kept (set : string) (a : ascii) :
  Py.mem_char set a = false ->
  String.eqb (Py.strip_chars set (String a EmptyString)) "" = false.
Proof.
  intros H. unfold Py.strip_chars, Py.strip_by. simpl.
  rewrite H. simpl. rewrite H. reflexivity.
Qed.

Lemma int_field (y : Z) (post : string) :
  Forall (fun c => Py.is_space c = true) (list_ascii_of_string post) ->
  Py.int (Py.rjust 3 (Py.str_of_Z y) +:+ post) = Ok y.
Proof.
  intros H. unfold Py.rjust.
  replace ((Py.spaces (3 - String.length (Py.str_of_Z y))
            +:+ Py.str_of_Z y) +:+ post)
    with (Py.spaces (3 - String.length (Py.str_of_Z y))
          +:+ Py.str_of_Z y +:+ post).
  - now apply int_padded.
  - generalize (Py.spaces (3 - String.length (Py.str_of_Z y))).
    intros s. induction s as [|c s IH]; [reflexivity|].
    simpl. apply (f_equal (String c)). exact IH.
Qed.

Lemma grid_fields_row (x : list Z) :
  forall (fuel : nat) (e : string),
    Forall three_chars x -> line_end e -> (length x <= fuel)%nat ->
    map_res Py.int (Ctr.grid_fields 4 fuel (ctr_row_text x +:+ e)) = Ok x.
Proof.
  induction x as [|y x IH]; intros fuel e Hx He Hfuel.
  - destruct He as [-> | ->]; destruct fuel as [|[|fuel]]; reflexivity.
  - inversion Hx as [|? ? Hy Hx']; subst.
    destruct fuel as [|fuel]; [simpl in Hfuel; lia|].
    destruct (field_shape y Hy) as (a & b & c & Hf & Ha).
    assert (Hint : forall post,
               Forall (fun c => Py.is_space c = true)
                      (list_ascii_of_string post) ->
               Py.int (String a (String b (String c post))) = Ok y).
    { intros post Hpost. rewrite <- (int_field y post Hpost), Hf.
      reflexivity. }
    destruct x as [|y2 x].
    + unfold ctr_row_text. cbn [map Py.join String.concat]. rewrite Hf.
      change (String a (String b (String c "")) +:+ e)
        with (String a (String b (String c e))).
      cbn [Ctr.grid_fields].
      rewrite (strip_chars_kept _ a Ha).
      destruct He as [-> | ->].
      * cbn [Py.slice_to Py.slice_from].
        replace (Ctr.grid_fields 4 fuel "") with (@nil string)
          by (now destruct fuel).
        cbn [map_res]. rewrite (Hint EmptyString) by constructor.
        reflexivity.
      * cbn [Py.slice_to Py.slice_from Py.nl].
        replace (Ctr.grid_fields 4 fuel "") with (@nil string)
          by (now destruct fuel).
        cbn [map_res].
        rewrite (Hint (String (ascii_of_nat 10) ""))
          by (repeat constructor).
        reflexivity.
    + specialize (IH fuel e Hx' He ltac:(simpl in *; lia)).
      unfold ctr_row_text in *.
      cbn [map Py.join String.concat] in *. rewrite Hf.
      match goal with
      | |- context [(String a (String b (String c "")) +:+ " " +:+ ?r) +:+ e] =>
          change ((String a (String b (String c "")) +:+ " " +:+ r) +:+ e)
            with (String a (String b (String c (String " " (r +:+ e)))))
      end.
      cbn [Ctr.grid_fields].
      rewrite (strip_chars_kept _ a Ha).
      cbn [Py.slice_to Py.slice_from map_res].
      rewrite (Hint " "%string) by (repeat constructor).
      cbn [res_bind]. rewrite IH. reflexivity.
Qed.

Lemma row_text_length (x : list Z) :
  Forall three_chars x ->
  (length x <= String.length (ctr_row_text x))%nat.
Proof.
  induction 1 as [|y x Hy Hx IH]; [simpl; lia|].
  destruct (field_shape y Hy) as (a & b & c & Hf & _).
  apply (f_equal String.length) in Hf. simpl in Hf.
  unfold ctr_row_text in *.
  destruct x as [|y2 x].
  - cbn [map Py.join String.concat length]. lia.
  - change (Py.join " " (map (fun y => Py.rjust 3 (Py.str_of_Z y))
                             (y :: y2 :: x)))
      with (Py.rjust 3 (Py.str_of_Z y) +:+ " "
            +:+ Py.join " " (map (fun y => Py.rjust 3 (Py.str_of_Z y))
                                 (y2 :: x))).
    rewrite !string_length_app, Hf. simpl in *. lia.
Qed.

(** The fields of a line are cut every four characters, so a wider
    value is not read back: the line of [10000; 2] gives three values. *)
Example grid_row_wide_value :
  Ctr.grid_row (ctr_row_text [10000; 2]) = Ok [1000; 0; 2].
Proof. vm_compute. reflexivity. Qed.

(** X11. A row of the grid whose values have at most three characters
    (from -99 to 999) is read back by [load] from the line that
    [_format_data] writes for it, with or without the newline that
    [readlines] leaves at its end. *)
Theorem grid_row_reads_written_row :
  forall (x : list Z) (e : string),
    Forall three_chars x ->
    line_end e ->
    Ctr.grid_row (ctr_row_text x +:+ e) = Ok x.
Proof.
  intros x e Hx He.
  unfold Ctr.grid_row. apply grid_fields_row; try assumption.
  rewrite string_length_app. pose proof (row_text_length x Hx). lia.
Qed.

Lemma grid_row_reads_written_row_witness :
  Ctr.grid_row (ctr_row_text [1; -1; 0] +:+ Py.nl) = Ok [1; -1; 0].
Proof.
  apply (grid_row_reads_written_row [1; -1; 0] Py.nl).
  - repeat constructor; unfold three_chars; lia.
  - right. reflexivity.
Defined.

(** ** Text: lines of a file *)

Lemma string_app_assoc (a b c : string) :
  (a +:+ b) +:+ c = a +:+ b +:+ c.
Proof.
  induction a as [|x a IH]; [reflexivity|].
  simpl. apply (f_equal (String x)). exact IH.
Qed.

Lemma string_app_nil_r (a : string) : a +:+ "" = a.
Proof.
  induction a as [|x a IH]; [reflexivity|].
  simpl. apply (f_equal (String x)). exact IH.
Qed.

Lemma string_of_list_app (a b : list ascii) :
  string_of_list_ascii (a ++ b)
  = string_of_list_ascii a +:+ string_of_list_ascii b.
Proof.
  induction a as [|x a IH]; [reflexivity|].
  simpl. apply (f_equal (String x)). exact IH.
Qed.

Lemma free_of_app (set a b : string) :
  free_of set a -> free_of set b -> free_of set (a +:+ b).
Proof.
  unfold free_of. rewrite list_ascii_app. intros. now apply Forall_app.
Qed.

Lemma free_of_mono (set1 set2 s : string) :
  (forall c, Py.mem_char set2 c = false -> Py.mem_char set1 c = false) ->
  free_of set2 s -> free_of set1 s.
Proof.
  intros H Hs. unfold free_of in *. eapply Forall_impl; [exact Hs|exact H].
Qed.

Lemma readlines_aux_line (l rest : string) :
  free_of Py.nl l ->
  forall acc,
    Py.readlines_aux acc (l +:+ Py.nl +:+ rest)
    = (string_of_list_ascii (rev acc) +:+ l +:+ Py.nl)
      :: Py.readlines_aux [] rest.
Proof.
  unfold free_of. induction l as [|c l IH]; intros Hl acc.
  - simpl. f_equal. rewrite string_of_list_app. reflexivity.
  - inversion Hl as [|? ? Hc Hl']; subst.
    change ((String c l) +:+ Py.nl +:+ rest)
      with (String c (l +:+ Py.nl +:+ rest)).
    cbn [Py.readlines_aux].
    replace (Ascii.eqb c (ascii_of_nat 10)) with false.
    + rewrite (IH Hl'). f_equal. simpl.
      rewrite string_of_list_app, string_app_assoc. reflexivity.
    + unfold Py.mem_char in Hc. simpl in Hc.
      now destruct (Ascii.eqb c (ascii_of_nat 10)).
Qed.

Lemma readlines_aux_last (l : string) :
  free_of Py.nl l ->
  forall acc,
    Py.readlines_aux acc l
    = match rev acc ++ list_ascii_of_string l with
      | [] => []
      | t => [string_of_list_ascii t]
      end.
Proof.
  unfold free_of. induction l as [|c l IH]; intros Hl acc.
  - simpl. rewrite app_nil_r. destruct acc as [|a acc]; [reflexivity|].
    simpl. destruct (rev acc ++ [a]) eqn:E; [|reflexivity].
    now destruct (rev acc).
  - inversion Hl as [|? ? Hc Hl']; subst.
    cbn [Py.readlines_aux].
    replace (Ascii.eqb c (ascii_of_nat 10)) with false.
    + rewrite (IH Hl'). simpl. now rewrite <- app_assoc.
    + unfold Py.mem_char in Hc. simpl in Hc.
      now destruct (Ascii.eqb c (ascii_of_nat 10)).
Qed.

(** [readlines] gives back the lines a file was written with. *)
Lemma readlines_file_text (ls : list string) (last : string) :
  Forall (free_of Py.nl) ls ->
  free_of Py.nl last ->
  last <> EmptyString ->
  Py.readlines (file_text ls last)
  = map (fun l => l +:+ Py.nl) ls ++ [last].
Proof.
  intros Hls Hlast Hne. unfold Py.readlines.
  induction Hls as [|l ls Hl _ IH]; simpl.
  - rewrite (readlines_aux_last last Hlast). simpl.
    destruct last as [|c last]; [congruence|]. simpl.
    now rewrite string_of_list_ascii_of_string.
  - rewrite (readlines_aux_line l _ Hl). simpl. now rewrite IH.
Qed.

(** Stripping stops at the first and at the last character that is not
    stripped. *)
Lemma strip_by_core (p : ascii -> bool) (pre s post : string)
      (a b : ascii) (t t' : list ascii) :
  Forall (fun c => p c = true) (list_ascii_of_string pre) ->
  Forall (fun c => p c = true) (list_ascii_of_string post) ->
  list_ascii_of_string s = a :: t -> p a = false ->
  rev (list_ascii_of_string s) = b :: t' -> p b = false ->
  Py.strip_by p (pre +:+ s +:+ post) = s.
Proof.
  intros Hpre Hpost Hs Ha Hr Hb. unfold Py.strip_by.
  rewrite !list_ascii_app.
  rewrite (lstrip_by_app p (list_ascii_of_string pre)) by assumption.
  rewrite Hs. cbn [app Py.lstrip_by]. rewrite Ha.
  change (a :: t ++ list_ascii_of_string post)
    with ((a :: t) ++ list_ascii_of_string post).
  rewrite <- Hs, rev_app_distr.
  rewrite (lstrip_by_app p (rev (list_ascii_of_string post)))
    by (now apply Forall_rev).
  rewrite Hr. cbn [Py.lstrip_by]. rewrite Hb, <- Hr, rev_involutive.
  apply string_of_list_ascii_of_string.
Qed.

Lemma prefix_other_head (a c : ascii) (s1 s2 : string) :
  Ascii.eqb c a = false ->
  String.prefix (String a s1) (String c s2) = false.
Proof.
  intros H. cbn [String.prefix].
  destruct (ascii_dec a c) as [->|]; [|reflexivity].
  now rewrite Ascii.eqb_refl in H.
Qed.

Lemma prefix_same_head (a : ascii) (s1 s2 : string) :
  String.prefix (String a s1) (String a s2) = String.prefix s1 s2.
Proof.
  cbn [String.prefix]. destruct (ascii_dec a a); [reflexivity|congruence].
Qed.

(** ** Contrasts: the names line *)

Lemma names_sep_split (n rest : string) :
  free_of Py.dquote n ->
  forall acc,
    Py.split_aux (Py.dquote +:+ " " +:+ Py.dquote) 0 acc (n +:+ rest)
    = Py.split_aux (Py.dquote +:+ " " +:+ Py.dquote) 0
        (rev (list_ascii_of_string n) ++ acc) rest.
Proof.
  unfold free_of. induction n as [|c n IH]; intros Hn acc; [reflexivity|].
  inversion Hn as [|? ? Hc Hn']; subst.
  change (String c n +:+ rest) with (String c (n +:+ rest)).
  cbn [Py.split_aux].
  replace (String.prefix (Py.dquote +:+ " " +:+ Py.dquote)
                         (String c (n +:+ rest))) with false.
  - rewrite (IH Hn'). simpl. now rewrite <- app_assoc.
  - unfold Py.mem_char in Hc. simpl in Hc.
    rewrite orb_false_r in Hc. symmetry.
    apply (prefix_other_head (ascii_of_nat 34) c). exact Hc.
Qed.

Lemma names_sep_cut (rest : string) (acc : list ascii) :
  Py.split_aux (Py.dquote +:+ " " +:+ Py.dquote) 0 acc
               ((Py.dquote +:+ " " +:+ Py.dquote) +:+ rest)
  = string_of_list_ascii (rev acc)
    :: Py.split_aux (Py.dquote +:+ " " +:+ Py.dquote) 0 [] rest.
Proof.
  change (Py.dquote +:+ " " +:+ Py.dquote)
    with (String (ascii_of_nat 34) (String " " (String (ascii_of_nat 34) ""))).
  change (String (ascii_of_nat 34)
            (String " " (String (ascii_of_nat 34) "")) +:+ rest)
    with (String (ascii_of_nat 34)
            (String " " (String (ascii_of_nat 34) rest))).
  cbn [Py.split_aux]. rewrite !prefix_same_head.
  replace (String.prefix "" rest) with true by (now destruct rest).
  reflexivity.
Qed.

Lemma names_split (names : list string) :
  names <> [] ->
  Forall (free_of Py.dquote) names ->
  Py.split (Py.dquote +:+ " " +:+ Py.dquote)
           (Py.join (Py.dquote +:+ " " +:+ Py.dquote) names)
  = names.
Proof.
  intros Hne Hall. unfold Py.split.
  induction Hall as [|n names Hn Hall IH]; [congruence|].
  destruct names as [|n2 names].
  - cbn [Py.join String.concat].
    rewrite <- (string_app_nil_r n) at 1.
    rewrite (names_sep_split n "" Hn). simpl.
    rewrite app_nil_r, rev_involutive.
    now rewrite string_of_list_ascii_of_string.
  - change (Py.join (Py.dquote +:+ " " +:+ Py.dquote) (n :: n2 :: names))
      with (n +:+ (Py.dquote +:+ " " +:+ Py.dquote)
              +:+ Py.join (Py.dquote +:+ " " +:+ Py.dquote) (n2 :: names)).
    rewrite (names_sep_split n _ Hn). rewrite app_nil_r.
    rewrite names_sep_cut, rev_involutive.
    rewrite string_of_list_ascii_of_string. f_equal.
    apply IH. discriminate.
Qed.

Lemma plain_name_dquote (n : string) :
  plain_name n -> free_of Py.dquote n.
Proof.
  intros [_ H]. eapply free_of_mono; [|exact H].
  intros c. unfold Py.mem_char. simpl.
  destruct (Ascii.eqb c (ascii_of_nat 34)); [discriminate|reflexivity].
Qed.

Lemma plain_name_nl (n : string) :
  plain_name n -> free_of Py.nl n.
Proof.
  intros [_ H]. eapply free_of_mono; [|exact H].
  intros c. unfold Py.mem_char. simpl.
  destruct (Ascii.eqb c (ascii_of_nat 10)); [|reflexivity].
  rewrite !orb_true_r. discriminate.
Qed.

Lemma names_first (sep : string) (names : list string) :
  names <> [] ->
  Forall plain_name names ->
  exists a t,
    list_ascii_of_string (Py.join sep names) = a :: t
    /\ Py.mem_char Py.dquote a = false.
Proof.
  intros Hne Hall. destruct Hall as [|n names Hn Hall]; [congruence|].
  assert (Hq := plain_name_dquote n Hn). destruct Hn as [Hn _].
  destruct n as [|a n]; [congruence|].
  inversion Hq as [|? ? Ha _]; subst.
  exists a. destruct names as [|n2 names]; simpl; eauto.
Qed.

Lemma names_final (sep : string) (names : list string) :
  names <> [] ->
  Forall plain_name names ->
  exists b t,
    rev (list_ascii_of_string (Py.join sep names)) = b :: t
    /\ Py.mem_char Py.dquote b = false.
Proof.
  intros Hne Hall.
  induction Hall as [|n names Hn Hall IH]; [congruence|].
  destruct names as [|n2 names].
  - cbn [Py.join String.concat].
    assert (Hq := plain_name_dquote n Hn). destruct Hn as [Hn _].
    unfold free_of in Hq. apply Forall_rev in Hq.
    destruct (rev (list_ascii_of_string n)) as [|b t] eqn:E.
    + apply (f_equal (@rev ascii)) in E. rewrite rev_involutive in E.
      destruct n; [congruence|discriminate].
    + inversion Hq; subst. eauto.
  - destruct IH as (b & t & Hb & Hq); [discriminate|].
    change (Py.join sep (n :: n2 :: names))
      with (n +:+ sep +:+ Py.join sep (n2 :: names)).
    rewrite !list_ascii_app, !rev_app_distr, Hb. simpl. eauto.
Qed.

(** The names line of a [.ctr] file is read back into the names. *)
Lemma names_line_read (names : list string) :
  names <> [] ->
  Forall plain_name names ->
  Py.split (Py.dquote +:+ " " +:+ Py.dquote)
    (Py.strip_chars Py.dquote
       (Py.strip
          ((Py.dquote
            +:+ Py.join (Py.dquote +:+ " " +:+ Py.dquote) names
            +:+ Py.dquote) +:+ Py.nl)))
  = names.
Proof.
  intros Hne Hall.
  set (J := Py.join (Py.dquote +:+ " " +:+ Py.dquote) names).
  assert (Hstrip : Py.strip ((Py.dquote +:+ J +:+ Py.dquote) +:+ Py.nl)
                   = Py.dquote +:+ J +:+ Py.dquote).
  { unfold Py.strip.
    apply (strip_by_core Py.is_space "" _ Py.nl (ascii_of_nat 34)
             (ascii_of_nat 34)
             (list_ascii_of_string (J +:+ Py.dquote))
             (rev (ascii_of_nat 34 :: list_ascii_of_string J))).
    - constructor.
    - repeat constructor.
    - reflexivity.
    - reflexivity.
    - change (Py.dquote +:+ J +:+ Py.dquote)
        with (String (ascii_of_nat 34) (J +:+ Py.dquote)).
      cbn [list_ascii_of_string]. rewrite list_ascii_app.
      change (ascii_of_nat 34 :: list_ascii_of_string J
                ++ list_ascii_of_string Py.dquote)
        with ((ascii_of_nat 34 :: list_ascii_of_string J)
                ++ [ascii_of_nat 34]).
      now rewrite rev_app_distr.
    - reflexivity. }
  rewrite Hstrip.
  destruct (names_first (Py.dquote +:+ " " +:+ Py.dquote) names Hne Hall)
    as (a & t & Ha & Hqa).
  destruct (names_final (Py.dquote +:+ " " +:+ Py.dquote) names Hne Hall)
    as (b & t' & Hb & Hqb).
  unfold Py.strip_chars.
  rewrite (strip_by_core (Py.mem_char Py.dquote) Py.dquote J Py.dquote
             a b t t'); try assumption; try (repeat constructor).
  apply names_split; [assumption|].
  eapply Forall_impl; [exact Hall|]. apply plain_name_dquote.
Qed.

(** ** Contrasts: the header lines *)

Lemma slice_to_app (a b : string) :
  Py.slice_to (String.length a) (a +:+ b) = a.
Proof.
  induction a as [|c a IH]; simpl; [now destruct b|].
  apply (f_equal (String c)). exact IH.
Qed.

Lemma slice_from_app (a b : string) :
  Py.slice_from (String.length a) (a +:+ b) = b.
Proof. induction a as [|c a IH]; simpl; [reflexivity|exact IH]. Qed.

Lemma str_of_Z_last (z : Z) :
  exists b t,
    rev (list_ascii_of_string (Py.str_of_Z z)) = b :: t
    /\ Py.is_space b = false.
Proof.
  assert (H := str_of_Z_chars z). apply Forall_rev in H.
  destruct (rev (list_ascii_of_string (Py.str_of_Z z))) as [|b t] eqn:E.
  - apply (f_equal (@rev ascii)) in E. rewrite rev_involutive in E.
    assert (Hint := int_str z).
    destruct (Py.str_of_Z z); [discriminate Hint|discriminate E].
  - inversion H; subst. exists b, t. split; [reflexivity|].
    now apply numeral_not_space.
Qed.

(** A header line as [_format_header] writes it, for a key of at most
    fifteen characters: [K] is the key, its colon and the blanks up to
    column 16. *)
Lemma load_header_line (K k : string) (a : ascii) (t : string) (z : Z)
      (rest : list string) (h : header) :
  String.length K = 16%nat ->
  K = String a t -> Py.is_space a = false ->
  Py.strip_chars ": " K = k ->
  Ctr.load_header
    ((((K +:+ Py.spaces 6) +:+ Py.str_of_Z z) +:+ Py.nl) :: rest) h
  = Ctr.load_header rest (od_set k (HInt z) h).
Proof.
  intros HK Ha Hsp Hk. cbn [Ctr.load_header].
  assert (Hline : ((K +:+ Py.spaces 6) +:+ Py.str_of_Z z) +:+ Py.nl
                  = K +:+ Py.spaces 6 +:+ Py.str_of_Z z +:+ Py.nl).
  { now rewrite !string_app_assoc. }
  rewrite Hline.
  assert (Hstrip : Py.strip (K +:+ Py.spaces 6 +:+ Py.str_of_Z z +:+ Py.nl)
                   = K +:+ Py.spaces 6 +:+ Py.str_of_Z z).
  { destruct (str_of_Z_last z) as (b & t' & Hb & Hbs).
    rewrite <- !string_app_assoc. unfold Py.strip.
    change (((K +:+ Py.spaces 6) +:+ Py.str_of_Z z) +:+ Py.nl)
      with ("" +:+ ((K +:+ Py.spaces 6) +:+ Py.str_of_Z z) +:+ Py.nl).
    eapply (strip_by_core Py.is_space "" _ Py.nl a b).
    - constructor.
    - repeat constructor.
    - rewrite Ha. reflexivity.
    - exact Hsp.
    - rewrite list_ascii_app, rev_app_distr, Hb. reflexivity.
    - exact Hbs. }
  rewrite Hstrip.
  replace (String.eqb (K +:+ Py.spaces 6 +:+ Py.str_of_Z z) "")
    with false by (rewrite Ha; reflexivity).
  rewrite <- HK. rewrite slice_from_app, slice_to_app, Hk.
  replace (Py.strip (Py.spaces 6 +:+ Py.str_of_Z z +:+ Py.nl))
    with (Py.str_of_Z z).
  - now rewrite int_str.
  - symmetry. unfold Py.strip. apply strip_by_pad.
    + apply spaces_chars.
    + eapply Forall_impl; [apply str_of_Z_chars|]. apply numeral_not_space.
    + repeat constructor.
Qed.

(** ** Contrasts: the grid and its columns *)

Lemma body_rows_read (rs : list (list Z)) (rl : list Z) :
  Forall (Forall three_chars) rs ->
  Forall three_chars rl ->
  map_res Ctr.grid_row
    (map (fun l => l +:+ Py.nl) (map ctr_row_text rs) ++ [ctr_row_text rl])
  = Ok (rs ++ [rl]).
Proof.
  intros Hrs Hrl.
  assert (Hrow : forall x e, Forall three_chars x -> line_end e ->
                   Ctr.grid_row (ctr_row_text x +:+ e) = Ok x).
  { intros x e Hx He. unfold Ctr.grid_row.
    apply grid_fields_row; try assumption.
    rewrite string_length_app. pose proof (row_text_length x Hx). lia. }
  induction Hrs as [|r rs Hr _ IH]; simpl.
  - rewrite <- (string_app_nil_r (ctr_row_text rl)).
    rewrite (Hrow rl "" Hrl (or_introl eq_refl)). reflexivity.
  - rewrite (Hrow r Py.nl Hr (or_intror eq_refl)). simpl.
    now rewrite IH.
Qed.

Lemma stacked_column (series : list (list Z)) (m : Np.array2 Z)
      (n x : nat) (d : list Z) :
  (0 < n)%nat ->
  Forall (fun d => length d = n) series ->
  length (Np.rows m) = n ->
  Forall (fun r => length r = length series) (Np.rows m) ->
  (forall (i j : nat) (r d : list Z),
      Np.rows m !! i = Some r -> series !! j = Some d -> r !! j = d !! i) ->
  series !! x = Some d ->
  Np.column x (Np.rows m) = Ok d.
Proof.
  intros Hn Hlen Hrows Hwidth Hentry Hx.
  assert (Hxlt : (x < length series)%nat)
    by (apply lookup_lt_is_Some; eauto).
  assert (Hd : length d = n).
  { rewrite Forall_forall in Hlen. apply Hlen.
    eapply list_elem_of_lookup_2; eauto. }
  rewrite (column_ok x (Np.rows m) (length series)).
  - f_equal. apply list_eq. intros i. rewrite list_lookup_fmap.
    destruct (Np.rows m !! i) as [r|] eqn:Hr; simpl.
    + rewrite <- (Hentry i x r d Hr Hx).
      destruct (nth_lookup_or_length r x 0) as [E|E]; [now rewrite E|].
      rewrite Forall_forall in Hwidth.
      assert (length r = length series)
        by (apply Hwidth; eapply list_elem_of_lookup_2; eauto).
      lia.
    + symmetry. apply lookup_ge_None. apply lookup_ge_None in Hr. lia.
  - apply shape1_of_rows; [|exact Hwidth].
    intros E. rewrite E in Hrows. simpl in Hrows. lia.
  - exact Hxlt.
Qed.

Lemma load_contrasts_columns (g : list (list Z)) (h : header) :
  forall (cs2 cs1 : list Ctr.Contrast),
    (forall j c, cs2 !! j = Some c ->
                 Np.column (length cs1 + j) g = Ok (Ctr.data c)) ->
    Ctr.load_contrasts (map Ctr.name cs2) (length cs1) g
      {| Ctr._header := h; Ctr._contrasts := cs1 |}
    = (Ok tt, {| Ctr._header := h; Ctr._contrasts := cs1 ++ cs2 |}).
Proof.
  induction cs2 as [|c cs2 IH]; intros cs1 Hcol; simpl.
  - now rewrite app_nil_r.
  - rewrite <- (Nat.add_0_r (length cs1)) at 1.
    rewrite (Hcol 0%nat c eq_refl). simpl.
    replace (S (length cs1)) with (length (cs1 ++ [c]))
      by (rewrite length_app; simpl; lia).
    replace {| Ctr.name := Ctr.name c; Ctr.data := Ctr.data c |}
      with c by (now destruct c).
    rewrite IH.
    + now rewrite <- app_assoc.
    + intros j c' Hj. rewrite length_app. simpl.
      replace (length cs1 + 1 + j)%nat with (length cs1 + S j)%nat by lia.
      now apply Hcol.
Qed.

(** ** Contrasts: the lines of a saved file *)

Lemma free_of_join (set sep : string) (l : list string) :
  free_of set sep -> Forall (free_of set) l -> free_of set (Py.join sep l).
Proof.
  intros Hsep Hl. induction Hl as [|x l Hx Hl IH]; [constructor|].
  destruct l as [|y l]; [exact Hx|].
  change (Py.join sep (x :: y :: l))
    with (x +:+ sep +:+ Py.join sep (y :: l)).
  apply free_of_app; [exact Hx|]. apply free_of_app; [exact Hsep|exact IH].
Qed.

Lemma numeral_not_nl (c : ascii) :
  numeral_char c = true -> Py.mem_char Py.nl c = false.
Proof.
  destruct c as [[] [] [] [] [] [] [] []]; vm_compute; congruence.
Qed.

Lemma str_of_Z_free (z : Z) : free_of Py.nl (Py.str_of_Z z).
Proof.
  unfold free_of. eapply Forall_impl; [apply str_of_Z_chars|].
  apply numeral_not_nl.
Qed.

Lemma spaces_free (n : nat) : free_of Py.nl (Py.spaces n).
Proof.
  unfold free_of, Py.spaces. rewrite list_ascii_of_string_of_list_ascii.
  induction n; simpl; constructor; [reflexivity|assumption].
Qed.

Lemma row_text_free (x : list Z) : free_of Py.nl (ctr_row_text x).
Proof.
  unfold ctr_row_text. apply free_of_join; [repeat constructor|].
  apply Forall_map. apply Forall_forall. intros y _. simpl.
  unfold Py.rjust. apply free_of_app; [apply spaces_free|apply str_of_Z_free].
Qed.

Lemma join_file_text (ls : list string) (last : string) :
  Py.join Py.nl (ls ++ [last]) = file_text ls last.
Proof.
  induction ls as [|l ls IH]; [reflexivity|].
  cbn [app file_text foldr]. fold (file_text ls last). rewrite <- IH.
  destruct ls; reflexivity.
Qed.

Lemma ctr_save_text (v n m : Z) (cs : list Ctr.Contrast)
      (M : Np.array2 Z) (rs : list (list Z)) (rl : list Z) :
  Np.stack_columns (map Ctr.data cs) = Ok M ->
  Np.rows M = rs ++ [rl] ->
  Ctr.save (ctr_document v n m cs)
  = Ok (file_text (ctr_head_lines v n m (map Ctr.name cs)
                   ++ map ctr_row_text rs)
                  (ctr_row_text rl)).
Proof.
  intros HM Hrows.
  unfold Ctr.save, Ctr._format_data, Ctr.data_matrix.
  cbn [Ctr._contrasts ctr_document]. rewrite HM. cbn [res_bind].
  f_equal. rewrite Hrows.
  change (map (fun x => Py.join " "
                 (map (fun y => Py.rjust 3 (Py.str_of_Z y)) x))
              (rs ++ [rl]))
    with (map ctr_row_text (rs ++ [rl])).
  rewrite map_app. cbn [map]. rewrite join_file_text.
  unfold file_text at 2. rewrite foldr_app.
  fold (file_text (map ctr_row_text rs) (ctr_row_text rl)).
  generalize (file_text (map ctr_row_text rs) (ctr_row_text rl)).
  intros body.
  unfold ctr_head_lines, Ctr._format_header, Ctr._format_names, Ctr.names,
    ctr_document.
  cbn [foldr map Ctr._header Ctr._contrasts fst snd format_hval
       Py.join String.concat].
  change (Py.ljust 22 ("FileVersion" +:+ ":"))
    with ("FileVersion:    " +:+ Py.spaces 6).
  change (Py.ljust 22 ("NrOfContrasts" +:+ ":"))
    with ("NrOfContrasts:  " +:+ Py.spaces 6).
  change (Py.ljust 22 ("NrOfValues" +:+ ":"))
    with ("NrOfValues:     " +:+ Py.spaces 6).
  rewrite !string_app_assoc. reflexivity.
Qed.

Lemma scan_break_skip (p : string -> bool) (i : nat) (l l2 : string)
      (rest : list string) :
  p l = false ->
  scan_break p i (l :: l2 :: rest) = scan_break p (S i) (l2 :: rest).
Proof. intros H. cbn [scan_break]. now rewrite H. Qed.

Lemma scan_break_hit (p : string -> bool) (i : nat) (l : string)
      (rest : list string) :
  p l = true -> scan_break p i (l :: rest) = Ok (i, l).
Proof. intros H. cbn [scan_break]. now rewrite H. Qed.

Lemma ctr_grid_ok (rows : list (list Z)) (k : nat) :
  Forall (fun r => length r = k) rows -> Ctr.grid rows = Ok rows.
Proof.
  intros H. unfold Ctr.grid. destruct rows as [|r rows]; [reflexivity|].
  replace (Np.rectangular (length r) (r :: rows)) with true; [reflexivity|].
  symmetry. unfold Np.rectangular. apply forallb_forall. intros x Hx.
  apply Nat.eqb_eq. rewrite Forall_forall in H.
  rewrite (H r) by (left). apply H. now apply list_elem_of_In.
Qed.

(** X12. A contrasts definition with the three header fields of the
    format and at least one contrast, every contrast with a plain name
    (not empty, no quote, no line end) and the same number of values, at
    least one, each from -99 to 999: [save] writes a file, and [load] of
    that file gives the definition back, header and contrasts. *)
Theorem ctr_load_after_save :
  forall (v n m : Z) (cs : list Ctr.Contrast) (len : nat),
    cs <> [] ->
    (0 < len)%nat ->
    Forall (storable len) cs ->
    exists f : string,
      Ctr.save (ctr_document v n m cs) = Ok f
      /\ Ctr.load (Py.readlines f) = (Ok tt, ctr_document v n m cs).
Proof.
  intros v n m cs len Hne Hlen Hall.
  destruct (stack_columns_spec len (map Ctr.data cs))
    as (M & HM & _ & Hrows & Hwidth & Hentry).
  { destruct cs; [congruence|discriminate]. }
  { apply Forall_map. eapply Forall_impl; [exact Hall|].
    intros c (_ & H & _). exact H. }
  rewrite length_map in Hwidth.
  assert (Hrne : Np.rows M <> []).
  { intros E. rewrite E in Hrows. simpl in Hrows. lia. }
  destruct (exists_last Hrne) as (rs & rl & Hsplit).
  assert (Hcol : forall x c, cs !! x = Some c ->
                   Np.column x (Np.rows M) = Ok (Ctr.data c)).
  { intros x c Hx.
    apply (stacked_column (map Ctr.data cs) M len x); try assumption.
    - apply Forall_map. eapply Forall_impl; [exact Hall|].
      intros c' (_ & H & _). exact H.
    - now rewrite length_map.
    - rewrite list_lookup_fmap, Hx. reflexivity. }
  assert (Hvals : Forall (Forall three_chars) (Np.rows M)).
  { apply Forall_lookup. intros i r Hr. apply Forall_lookup. intros j y Hy.
    assert (Hj : (j < length cs)%nat).
    { rewrite Forall_lookup in Hwidth. rewrite <- (Hwidth i r Hr).
      apply lookup_lt_is_Some. eauto. }
    destruct (lookup_lt_is_Some_2 cs j Hj) as (c & Hc).
    assert (Hd : (map Ctr.data cs) !! j = Some (Ctr.data c))
      by (rewrite list_lookup_fmap, Hc; reflexivity).
    rewrite (Hentry i j r _ Hr Hd) in Hy.
    rewrite Forall_lookup in Hall. destruct (Hall j c Hc) as (_ & _ & Hthree).
    rewrite Forall_lookup in Hthree. eapply Hthree; eauto. }
  rewrite Hsplit in Hvals. apply Forall_app in Hvals.
  destruct Hvals as [Hrs Hrl]. inversion Hrl as [|? ? Hrl' _]; subst.
  assert (Hnames : Forall plain_name (map Ctr.name cs)).
  { apply Forall_map. eapply Forall_impl; [exact Hall|].
    intros c (H & _). exact H. }
  assert (Hnne : map Ctr.name cs <> []).
  { destruct cs; [congruence|discriminate]. }
  eexists. split; [exact (ctr_save_text v n m cs M rs rl HM Hsplit)|].
  rewrite readlines_file_text.
  - rewrite map_app. unfold ctr_head_lines. cbn [map app].
    set (N := Py.dquote
              +:+ Py.join (Py.dquote +:+ " " +:+ Py.dquote) (map Ctr.name cs)
              +:+ Py.dquote).
    set (body := map (fun l => l +:+ Py.nl) (map ctr_row_text rs)
                 ++ [ctr_row_text rl]).
    unfold Ctr.load.
    rewrite !scan_break_skip by reflexivity.
    rewrite scan_break_hit.
    2:{ unfold N, Py.startswith.
        change ((Py.dquote +:+ ?x) +:+ Py.nl)
          with (String (ascii_of_nat 34) (x +:+ Py.nl)).
        change Py.dquote with (String (ascii_of_nat 34) "").
        rewrite prefix_same_head.
        now destruct (_ +:+ Py.nl). }
    change (take_py (Z.of_nat 5 - 1) ?l) with (take 4 l). cbn [take].
    change (Ctr.load_header (("" +:+ Py.nl) :: ?l) ?h)
      with (Ctr.load_header l h).
    rewrite (load_header_line "FileVersion:    " "FileVersion" "F"
               "ileVersion:    ") by reflexivity.
    rewrite (load_header_line "NrOfContrasts:  " "NrOfContrasts" "N"
               "rOfContrasts:  ") by reflexivity.
    rewrite (load_header_line "NrOfValues:     " "NrOfValues" "N"
               "rOfValues:     ") by reflexivity.
    cbn [Ctr.load_header]. cbn [drop].
    change (drop 0 body) with body.
    unfold body. rewrite (body_rows_read rs rl Hrs Hrl'). cbn [res_bind].
    rewrite <- Hsplit. rewrite (ctr_grid_ok _ _ Hwidth).
    unfold N. rewrite (names_line_read _ Hnne Hnames).
    change 0%nat with (length (@nil Ctr.Contrast)).
    rewrite load_contrasts_columns; [reflexivity|].
    intros j c Hj. simpl. now apply Hcol.
  - unfold ctr_head_lines. apply Forall_app. split.
    + assert (Hh : forall K z, free_of Py.nl K ->
                     free_of Py.nl ((K +:+ Py.spaces 6) +:+ Py.str_of_Z z)).
      { intros K z HK. apply free_of_app; [|apply str_of_Z_free].
        apply free_of_app; [exact HK|apply spaces_free]. }
      apply Forall_cons_2; [constructor|].
      apply Forall_cons_2; [apply Hh; repeat constructor|].
      apply Forall_cons_2; [apply Hh; repeat constructor|].
      apply Forall_cons_2; [apply Hh; repeat constructor|].
      apply Forall_cons_2; [constructor|].
      apply Forall_cons_2; [|apply Forall_nil_2].
      apply free_of_app; [repeat constructor|].
      apply free_of_app; [|repeat constructor].
      apply free_of_join; [repeat constructor|].
      eapply Forall_impl; [exact Hnames|]. apply plain_name_nl.
    + apply Forall_map. apply Forall_forall. intros r _. apply row_text_free.
  - apply row_text_free.
  - intros E. apply (f_equal String.length) in E. simpl in E.
    pose proof (row_text_length rl Hrl') as Hl. rewrite E in Hl.
    assert (length rl = length cs).
    { rewrite Hsplit in Hwidth. apply Forall_app in Hwidth.
      destruct Hwidth as [_ Hw]. now inversion Hw. }
    destruct cs; [congruence|]. simpl in *. lia.
Qed.

Lemma ctr_load_after_save_witness :
  exists f : string,
    Ctr.save (ctr_document 1 2 3 (Ctr._contrasts ctr_two)) = Ok f
    /\ Ctr.load (Py.readlines f)
       = (Ok tt, ctr_document 1 2 3 (Ctr._contrasts ctr_two)).
Proof.
  apply (ctr_load_after_save 1 2 3 (Ctr._contrasts ctr_two) 3).
  - discriminate.
  - lia.
  - repeat apply Forall_cons_2; try apply Forall_nil_2;
      (split; [split; [discriminate|repeat constructor]
              |split; [reflexivity|repeat constructor; unfold three_chars; lia]]).
Defined.

(** ** Loading: repeated lines *)

Lemma groupby_keys_repeat (before after : list string) (x : string) :
  Py.groupby_keys (before ++ x :: x :: after)
  = Py.groupby_keys (before ++ x :: after).
Proof.
  induction before as [|a before IH].
  - cbn [app Py.groupby_keys]. now rewrite String.eqb_refl.
  - cbn [app]. cbn [Py.groupby_keys].
    destruct before as [|b before]; cbn [app] in *; now rewrite IH.
Qed.

(** X13. The loaders of [.prt] and [.voi] files pass the lines through
    [itertools.groupby] first, so a line that is repeated directly after
    itself counts once: a file with such a line loads exactly as the
    file with the line written once, whatever the state before the call.
    A saved protocol whose condition has the same interval twice in a
    row is therefore not read back: its block is one line short, the
    colour line is taken for an interval, and [load] raises
    [ValueError]. *)
Theorem load_counts_repeated_line_once :
  (forall (before after : list string) (x : string) (w : Prt.world),
      Prt.load (before ++ x :: x :: after) w
      = Prt.load (before ++ x :: after) w)
  /\ (forall (before after : list string) (x : string),
        Voi.load (before ++ x :: x :: after)
        = Voi.load (before ++ x :: after))
  /\ (exists f,
        Prt.save protocol_twice = Ok f
        /\ fst (Prt.load (Py.readlines f) new_protocol) = Raise ValueError).
Proof.
  split; [|split].
  - intros before after x w. unfold Prt.load, Prt.prepare.
    now rewrite groupby_keys_repeat.
  - intros before after x. unfold Voi.load.
    now rewrite groupby_keys_repeat.
  - eexists. split; vm_compute; reflexivity.
Qed.

(** ** Multi-subject design matrices: the lines of a saved file *)

Lemma readlines_file_text_closed (ls : list string) :
  Forall (free_of Py.nl) ls ->
  Py.readlines (file_text ls "") = map (fun l => l +:+ Py.nl) ls.
Proof.
  intros Hls. unfold Py.readlines.
  induction Hls as [|l ls Hl _ IH]; [reflexivity|].
  simpl. rewrite (readlines_aux_line l _ Hl). simpl. now rewrite IH.
Qed.

Lemma file_text_app (a b : list string) (last : string) :
  file_text (a ++ b) last = file_text a (file_text b last).
Proof. unfold file_text. now rewrite foldr_app. Qed.

(** The studies are written one per line as long as there are no more
    studies than header fields. *)
Lemma format_studies_lines (l : list Mdm.Study) :
  forall c : nat,
    (c + length l <= 6)%nat ->
    Mdm.format_studies_from c 7 l = file_text (map study_line l) "".
Proof.
  induction l as [|x l IH]; intros c Hc; [reflexivity|].
  simpl in Hc. cbn [Mdm.format_studies_from map file_text foldr].
  fold (file_text (map study_line l) "").
  rewrite <- (IH (S c)) by lia.
  destruct (Nat.ltb_spec c (7 - 1)) as [_|H]; [|lia].
  unfold study_line. rewrite !string_app_assoc. reflexivity.
Qed.

Lemma format_studies_last (l : list Mdm.Study) (x : Mdm.Study) :
  length l = 6%nat ->
  Mdm.format_studies_from 0 7 (l ++ [x])
  = file_text (map study_line l) (study_line x).
Proof.
  intros Hl.
  assert (H : forall l c, (c + length l = 6)%nat ->
              Mdm.format_studies_from c 7 (l ++ [x])
              = file_text (map study_line l) (study_line x)).
  { clear. induction l as [|y l IH]; intros c Hc.
    - simpl in Hc. assert (c = 6%nat) by lia. subst c. reflexivity.
    - simpl in Hc.
      cbn [app Mdm.format_studies_from map file_text foldr].
      fold (file_text (map study_line l) (study_line x)).
      rewrite <- (IH (S c)) by lia.
      destruct (Nat.ltb_spec c (7 - 1)) as [_|H]; [|lia].
      unfold study_line. rewrite !string_app_assoc. reflexivity. }
  apply H. lia.
Qed.

(** ** Multi-subject design matrices: a line of studies *)

Lemma dquote_split_piece (t rest : string) :
  free_of Py.dquote t ->
  forall acc,
    Py.split_aux Py.dquote 0 acc (t +:+ rest)
    = Py.split_aux Py.dquote 0 (rev (list_ascii_of_string t) ++ acc) rest.
Proof.
  unfold free_of. induction t as [|c t IH]; intros Ht acc; [reflexivity|].
  inversion Ht as [|? ? Hc Ht']; subst.
  change (String c t +:+ rest) with (String c (t +:+ rest)).
  cbn [Py.split_aux].
  replace (String.prefix Py.dquote (String c (t +:+ rest))) with false.
  - rewrite (IH Ht'). simpl. now rewrite <- app_assoc.
  - unfold Py.mem_char in Hc. simpl in Hc.
    rewrite orb_false_r in Hc. symmetry.
    apply (prefix_other_head (ascii_of_nat 34) c). exact Hc.
Qed.

Lemma dquote_split_cut (rest : string) (acc : list ascii) :
  Py.split_aux Py.dquote 0 acc (Py.dquote +:+ rest)
  = string_of_list_ascii (rev acc) :: Py.split_aux Py.dquote 0 [] rest.
Proof.
  change (Py.dquote +:+ rest) with (String (ascii_of_nat 34) rest).
  change Py.dquote with (String (ascii_of_nat 34) "").
  cbn [Py.split_aux]. rewrite prefix_same_head.
  replace (String.prefix "" rest) with true by (now destruct rest).
  reflexivity.
Qed.

Lemma dquote_split_token (t rest : string) :
  free_of Py.dquote t ->
  Py.split_aux Py.dquote 0 [] (t +:+ Py.dquote +:+ rest)
  = t :: Py.split_aux Py.dquote 0 [] rest.
Proof.
  intros Ht. rewrite (dquote_split_piece t _ Ht), dquote_split_cut.
  rewrite app_nil_r, rev_involutive.
  now rewrite string_of_list_ascii_of_string.
Qed.

Lemma plain_path_dquote (p : string) : plain_path p -> free_of Py.dquote p.
Proof.
  intros [_ H]. eapply free_of_mono; [|exact H].
  intros c. unfold Py.mem_char. simpl.
  destruct (Ascii.eqb c (ascii_of_nat 34)); [discriminate|reflexivity].
Qed.

Lemma plain_path_nl (p : string) : plain_path p -> free_of Py.nl p.
Proof.
  intros [_ H]. eapply free_of_mono; [|exact H].
  intros c. unfold Py.mem_char. simpl.
  destruct (Ascii.eqb c (ascii_of_nat 10)); [|reflexivity].
  rewrite !orb_true_r. discriminate.
Qed.

Lemma blank_filtered (x : string) (l : list string) :
  String.eqb (Py.strip x) "" = true ->
  filter (fun x => negb (String.eqb (Py.strip x) "")) (x :: l)
  = filter (fun x => negb (String.eqb (Py.strip x) "")) l.
Proof.
  intros H. apply filter_cons_False. rewrite H. simpl. tauto.
Qed.

Lemma path_kept (x : string) (l : list string) :
  plain_path x ->
  filter (fun x => negb (String.eqb (Py.strip x) "")) (x :: l)
  = x :: filter (fun x => negb (String.eqb (Py.strip x) "")) l.
Proof.
  intros [H _]. apply filter_cons_True. rewrite H. exact I.
Qed.

(** A line of studies is read back into its study. *)
Lemma parse_study_line (s : Mdm.Study) (e : string) :
  storable_study s -> line_end e ->
  Mdm.parse_study (study_line s +:+ e) = Ok s.
Proof.
  intros (Hlen & Hfiles & Hsdm) He.
  destruct s as [files sdm]. cbn [Mdm.data_files Mdm.sdm_file] in *.
  assert (Hend : Py.split_aux Py.dquote 0 [] e = [e]).
  { destruct He as [-> | ->]; reflexivity. }
  assert (Hblank : String.eqb (Py.strip e) "" = true).
  { destruct He as [-> | ->]; reflexivity. }
  assert (Hsp : free_of Py.dquote " ") by (repeat constructor).
  unfold Mdm.parse_study, study_line, Py.split.
  cbn [Mdm.data_files Mdm.sdm_file].
  destruct files as [|a [|b [|c files]]]; simpl in Hlen; try lia.
  - inversion Hfiles as [|? ? Ha _]; subst.
    cbn [Py.join String.concat]. rewrite !string_app_assoc.
    rewrite dquote_split_cut.
    rewrite (dquote_split_token a) by (now apply plain_path_dquote).
    rewrite (dquote_split_token " ") by exact Hsp.
    rewrite (dquote_split_token sdm) by (now apply plain_path_dquote).
    rewrite Hend.
    rewrite blank_filtered by reflexivity.
    rewrite (path_kept a) by assumption.
    rewrite blank_filtered by reflexivity.
    rewrite (path_kept sdm) by assumption.
    rewrite blank_filtered by exact Hblank.
    reflexivity.
  - inversion Hfiles as [|? ? Ha Hfiles']; subst.
    inversion Hfiles' as [|? ? Hb _]; subst.
    change (Py.join (Py.dquote +:+ " " +:+ Py.dquote) [a; b])
      with (a +:+ (Py.dquote +:+ " " +:+ Py.dquote) +:+ b).
    rewrite !string_app_assoc.
    rewrite dquote_split_cut.
    rewrite (dquote_split_token a) by (now apply plain_path_dquote).
    rewrite (dquote_split_token " ") by exact Hsp.
    rewrite (dquote_split_token b) by (now apply plain_path_dquote).
    rewrite (dquote_split_token " ") by exact Hsp.
    rewrite (dquote_split_token sdm) by (now apply plain_path_dquote).
    rewrite Hend.
    rewrite blank_filtered by reflexivity.
    rewrite (path_kept a) by assumption.
    rewrite blank_filtered by reflexivity.
    rewrite (path_kept b) by assumption.
    rewrite blank_filtered by reflexivity.
    rewrite (path_kept sdm) by assumption.
    rewrite blank_filtered by exact Hblank.
    reflexivity.
Qed.

Lemma mdm_save_text (v : Z) (t : string) (r p z s n : Z)
      (studies : list Mdm.Study) :
  Mdm.save (mdm_document v t r p z s n studies)
  = file_text (mdm_head_lines v t r p z s n)
              (Mdm.format_studies_from 0 7 studies).
Proof.
  unfold Mdm.save, Mdm._format_header, Mdm._format_studies, mdm_document.
  cbn [Mdm._header Mdm._studies length Mdm.format_entries].
  rewrite !string_app_assoc. reflexivity.
Qed.

Lemma mdm_header_number (K k : string) (a : ascii) (t : string) (z : Z)
      (rest : list string) (h : header) :
  String.length K = 22%nat ->
  K = String a t -> Py.is_space a = false ->
  Py.strip_chars ": " K = k ->
  Mdm.load_header (((K +:+ Py.str_of_Z z) +:+ Py.nl) :: rest) h
  = Mdm.load_header rest (od_set k (HInt z) h).
Proof.
  intros HK Ha Hsp Hk. cbn [Mdm.load_header].
  rewrite string_app_assoc.
  assert (Hstrip : Py.strip (K +:+ Py.str_of_Z z +:+ Py.nl)
                   = K +:+ Py.str_of_Z z).
  { destruct (str_of_Z_last z) as (b & t' & Hb & Hbs).
    rewrite <- string_app_assoc. unfold Py.strip.
    change ((K +:+ Py.str_of_Z z) +:+ Py.nl)
      with ("" +:+ (K +:+ Py.str_of_Z z) +:+ Py.nl).
    eapply (strip_by_core Py.is_space "" _ Py.nl a b).
    - constructor.
    - repeat constructor.
    - rewrite Ha. reflexivity.
    - exact Hsp.
    - rewrite list_ascii_app, rev_app_distr, Hb. reflexivity.
    - exact Hbs. }
  rewrite Hstrip.
  replace (String.eqb (K +:+ Py.str_of_Z z) "")
    with false by (rewrite Ha; reflexivity).
  rewrite <- HK. rewrite slice_from_app, slice_to_app, Hk.
  replace (Py.strip (Py.str_of_Z z +:+ Py.nl)) with (Py.str_of_Z z).
  - now rewrite int_str.
  - symmetry. unfold Py.strip.
    change (Py.str_of_Z z +:+ Py.nl) with ("" +:+ Py.str_of_Z z +:+ Py.nl).
    apply strip_by_pad.
    + constructor.
    + eapply Forall_impl; [apply str_of_Z_chars|]. apply numeral_not_space.
    + repeat constructor.
Qed.

Lemma mdm_header_type (t : string) (rest : list string) (h : header) :
  t = "VTC"%string \/ t = "MTC"%string ->
  Mdm.load_header ((("TypeOfFunctionalData: " +:+ t) +:+ Py.nl) :: rest) h
  = Mdm.load_header rest (od_set "TypeOfFunctionalData" (HStr t) h).
Proof. intros [-> | ->]; reflexivity. Qed.

Lemma mdm_header_blank (rest : list string) (h : header) :
  Mdm.load_header (("" +:+ Py.nl) :: rest) h = Mdm.load_header rest h.
Proof. reflexivity. Qed.

Lemma load_studies_lines (lines : list string) (studies : list Mdm.Study) :
  Forall2 (fun line s => exists e, line_end e /\ line = study_line s +:+ e)
          lines studies ->
  Forall storable_study studies ->
  forall (h : header) (before : list Mdm.Study),
    Mdm.load_studies lines
      {| Mdm._header := h; Mdm._studies := before |}
    = (Ok tt, {| Mdm._header := h; Mdm._studies := before ++ studies |}).
Proof.
  induction 1 as [|line s lines studies (e & He & ->) _ IH];
    intros Hall h before.
  - simpl. now rewrite app_nil_r.
  - inversion Hall as [|? ? Hs Hall']; subst.
    cbn [Mdm.load_studies]. rewrite (parse_study_line s e Hs He).
    cbn [Mdm._header Mdm._studies]. rewrite (IH Hall').
    now rewrite <- app_assoc.
Qed.

Lemma study_line_free (s : Mdm.Study) :
  storable_study s -> free_of Py.nl (study_line s).
Proof.
  intros (_ & Hfiles & Hsdm). unfold study_line.
  repeat (apply free_of_app; [try (repeat constructor)|]);
    try (repeat constructor).
  - apply free_of_join; [repeat constructor|].
    eapply Forall_impl; [exact Hfiles|]. apply plain_path_nl.
  - now apply plain_path_nl.
Qed.

Lemma mdm_load_lines (v : Z) (t : string) (r p z s n : Z)
      (lines : list string) (studies : list Mdm.Study) :
  t = "VTC"%string \/ t = "MTC"%string ->
  studies <> [] ->
  Forall2 (fun line s => exists e, line_end e /\ line = study_line s +:+ e)
          lines studies ->
  Forall storable_study studies ->
  Mdm.load (map (fun l => l +:+ Py.nl) (mdm_head_lines v t r p z s n)
            ++ lines)
  = (Ok tt, mdm_document v t r p z s 0 studies).
Proof.
  intros Ht Hne Hlines Hall.
  destruct Hlines as [|line s1 lines studies Hline Hlines]; [congruence|].
  unfold mdm_head_lines. cbn [map app]. unfold Mdm.load.
  rewrite !scan_break_skip by reflexivity.
  rewrite scan_break_hit.
  2:{ destruct Hline as (e & _ & ->). unfold study_line, Py.startswith.
      change ((Py.dquote +:+ ?x) +:+ e)
        with (String (ascii_of_nat 34) (x +:+ e)).
      change Py.dquote with (String (ascii_of_nat 34) "").
      rewrite prefix_same_head. now destruct (_ +:+ e). }
  change (take_py (Z.of_nat 11 - 1) ?l) with (take 10 l). cbn [take drop].
  rewrite !mdm_header_blank.
  rewrite (mdm_header_number "FileVersion:          " "FileVersion" "F"
             "ileVersion:          ") by reflexivity.
  rewrite (mdm_header_type t) by exact Ht.
  rewrite !mdm_header_blank.
  rewrite (mdm_header_number "RFX-GLM:              " "RFX-GLM" "R"
             "FX-GLM:              ") by reflexivity.
  rewrite !mdm_header_blank.
  rewrite (mdm_header_number "PSCTransformation:    " "PSCTransformation"
             "P" "SCTransformation:    ") by reflexivity.
  rewrite (mdm_header_number "zTransformation:      " "zTransformation"
             "z" "Transformation:      ") by reflexivity.
  rewrite (mdm_header_number "SeparatePredictors:   " "SeparatePredictors"
             "S" "eparatePredictors:   ") by reflexivity.
  rewrite !mdm_header_blank.
  cbn [Mdm.load_header].
  rewrite (load_studies_lines (line :: lines) (s1 :: studies)).
  - reflexivity.
  - now constructor.
  - exact Hall.
Qed.

Lemma mdm_head_free (v : Z) (t : string) (r p z s n : Z) :
  t = "VTC"%string \/ t = "MTC"%string ->
  Forall (free_of Py.nl) (mdm_head_lines v t r p z s n).
Proof.
  intros Ht. unfold mdm_head_lines.
  assert (Hn : forall K x, free_of Py.nl K ->
                 free_of Py.nl (K +:+ Py.str_of_Z x)).
  { intros K x HK. apply free_of_app; [exact HK|apply str_of_Z_free]. }
  apply Forall_cons_2; [constructor|].
  apply Forall_cons_2; [apply Hn; repeat constructor|].
  apply Forall_cons_2;
    [destruct Ht as [-> | ->]; repeat constructor|].
  apply Forall_cons_2; [constructor|].
  apply Forall_cons_2; [apply Hn; repeat constructor|].
  apply Forall_cons_2; [constructor|].
  apply Forall_cons_2; [apply Hn; repeat constructor|].
  apply Forall_cons_2; [apply Hn; repeat constructor|].
  apply Forall_cons_2; [apply Hn; repeat constructor|].
  apply Forall_cons_2; [constructor|].
  apply Forall_cons_2; [apply Hn; repeat constructor|].
  apply Forall_nil_2.
Qed.

(** X14. A multi-subject design matrix with the seven header fields of
    the format, a kind of functional data [VTC] or [MTC], and between
    one and seven studies, each with one or two data files and plain
    paths (not blank, no quote, no line end): [load] of the file that
    [save] writes returns and gives back the studies and the header,
    except that [NrOfStudies] is 0 whatever it was: the loader leaves
    out the line before the first study. *)
Theorem mdm_load_after_save :
  forall (v : Z) (t : string) (r p z s n : Z) (studies : list Mdm.Study),
    t = "VTC"%string \/ t = "MTC"%string ->
    studies <> [] ->
    (length studies <= 7)%nat ->
    Forall storable_study studies ->
    Mdm.load (Py.readlines (Mdm.save (mdm_document v t r p z s n studies)))
    = (Ok tt, mdm_document v t r p z s 0 studies).
Proof.
  intros v t r p z s n studies Ht Hne Hlen Hall.
  rewrite mdm_save_text.
  assert (Hfree : Forall (free_of Py.nl) (map study_line studies)).
  { apply Forall_map. eapply Forall_impl; [exact Hall|].
    apply study_line_free. }
  destruct (Nat.le_gt_cases (length studies) 6) as [Hsix|Hseven].
  - rewrite (format_studies_lines studies 0) by (simpl; lia).
    rewrite <- file_text_app, readlines_file_text_closed.
    + rewrite map_app. apply mdm_load_lines; try assumption.
      clear -Hall. induction studies as [|x l IH]; [constructor|].
      cbn [map]. constructor.
      * exists Py.nl. split; [now right|reflexivity].
      * apply IH. now inversion Hall.
    + apply Forall_app. split; [now apply mdm_head_free|exact Hfree].
  - destruct (exists_last Hne) as (l & x & ->).
    rewrite length_app in Hlen, Hseven. simpl in Hlen, Hseven.
    rewrite (format_studies_last l x) by lia.
    rewrite map_app in Hfree. apply Forall_app in Hfree.
    destruct Hfree as [Hl Hx]. inversion Hx as [|? ? Hx' _]; subst.
    rewrite <- file_text_app, readlines_file_text.
    + rewrite map_app, <- app_assoc. apply mdm_load_lines; try assumption.
      clear -Hall. apply Forall_app in Hall. destruct Hall as [Hall _].
      induction l as [|y l IH]; cbn [map app].
      * constructor; [|constructor].
        exists EmptyString. split; [now left|].
        now rewrite string_app_nil_r.
      * constructor.
        -- exists Py.nl. split; [now right|reflexivity].
        -- apply IH. now inversion Hall.
    + apply Forall_app. split; [now apply mdm_head_free|exact Hl].
    + exact Hx'.
    + unfold study_line. discriminate.
Qed.

Lemma mdm_load_after_save_witness :
  Mdm.load (Py.readlines
              (Mdm.save (mdm_document 3 "VTC" 0 1 0 0 1 [study_vtc])))
  = (Ok tt, mdm_document 3 "VTC" 0 1 0 0 0 [study_vtc]).
Proof.
  apply (mdm_load_after_save 3 "VTC" 0 1 0 0 1 [study_vtc]).
  - now left.
  - discriminate.
  - simpl. lia.
  - apply Forall_cons_2; [|apply Forall_nil_2].
    split; [left; reflexivity|]. split.
    + apply Forall_cons_2; [|apply Forall_nil_2].
      split; [reflexivity|repeat constructor].
    + split; [reflexivity|repeat constructor].
Defined.

(** With an eighth study the bound is passed: [_format_studies] ends a
    line only while the running index is below the number of header
    fields, so the seventh and the eighth study share a line and are
    read as one study. *)
Example mdm_eight_studies :
  fst (Mdm.load (Py.readlines
         (Mdm.save (mdm_document 3 "VTC" 0 1 0 0 8 (repeat study_vtc 8)))))
  = Ok tt
  /\ Mdm._studies
       (snd (Mdm.load (Py.readlines
          (Mdm.save (mdm_document 3 "VTC" 0 1 0 0 8 (repeat study_vtc 8))))))
     = repeat study_vtc 6
       ++ [ {| Mdm.data_files := ["s1.vtc"; "s1.sdm"]%string;
               Mdm.sdm_file := "s1.vtc" |} ].
Proof. split; vm_compute; reflexivity. Qed.
